(** * Codebase analysis pipeline: a shallow embedding and its properties

    The Python sources embedded here are [file_handling.py],
    [data_validation.py], [utilities.py], [analysis.py],
    [graph_management.py] and [main_controller.py].

    Python values are an inductive type [pyval]; dictionaries are
    insertion-ordered association lists, as in Python.  Everything the code
    obtains from outside (the file system, libmagic, pygments, spaCy, the
    parsers, the linters) is a field of a record [World]; a world is one
    snapshot, so asking it twice gives the same answer.  Effects are an
    explicit trace of events next to a result that is either a value or a
    raised exception.  The tasks of the thread pool are taken as atomic:
    a schedule is an order of the tasks. *)

From Stdlib Require Import String Ascii List ZArith Bool Lia Permutation.
Import ListNotations.
Open Scope string_scope.
Open Scope list_scope.
Set Warnings "-register-all".

(** ** Python values *)

Inductive pyval : Type :=
| PNone
| PBool (b : bool)
| PInt (z : Z)
| PFloat (n d : Z)          (* the double nearest to n/d, result of int / int *)
| PStr (s : string)
| PList (l : list pyval)
| PDict (kv : list (string * pyval))
| PObj (repr : string).     (* any other Python object, e.g. a networkx graph *)

Inductive exn : Type :=
| OSError | PermissionError | UnicodeDecodeError | ValueError
| KeyError | TypeError | AttributeError | ValidationError | OtherError.

(** [IOError] is an alias of [OSError]; [PermissionError] derives from it. *)
Definition is_OSError (e : exn) : bool :=
  match e with OSError | PermissionError => true | _ => false end.

(** [UnicodeDecodeError] (and json's decode error) derive from [ValueError]. *)
Definition is_ValueError (e : exn) : bool :=
  match e with ValueError | UnicodeDecodeError => true | _ => false end.

Inductive res (A : Type) : Type :=
| Ok (a : A)
| Raise (e : exn).
Arguments Ok {A} a.
Arguments Raise {A} e.

(** ** Strings and paths *)

Fixpoint endswith (s suf : string) : bool :=
  if (s =? suf)%string then true
  else match s with
       | EmptyString => false
       | String _ s' => endswith s' suf
       end.

(** [s.replace('.', '/')] *)
Fixpoint replace_dots (s : string) : string :=
  match s with
  | EmptyString => EmptyString
  | String c s' =>
      String (if Ascii.eqb c "."%char then "/"%char else c) (replace_dots s')
  end.

(** [s.split(sep)] for a one-character separator: never empty. *)
Fixpoint split_on (sep : ascii) (s : string) : list string :=
  match s with
  | EmptyString => [EmptyString]
  | String c s' =>
      match split_on sep s' with
      | [] => [String c EmptyString]
      | p :: ps =>
          if Ascii.eqb c sep then EmptyString :: p :: ps
          else String c p :: ps
      end
  end.

Fixpoint join_with (sep : string) (l : list string) : string :=
  match l with
  | [] => EmptyString
  | [x] => x
  | x :: rest => x ++ sep ++ join_with sep rest
  end.

Definition path_parts (p : string) : list string :=
  filter (fun c => negb ((c =? "")%string || (c =? ".")%string))
         (split_on "/"%char p).

(** The root of a POSIX pure path: one slash, or two when the path starts
    with exactly two. *)
Definition path_root (p : string) : string :=
  match p with
  | String "/"%char (String "/"%char (String "/"%char _)) => "/"
  | String "/"%char (String "/"%char _) => "//"
  | String "/"%char _ => "/"
  | _ => ""
  end.

(** [str(Path(p).parent)] *)
Definition path_parent (p : string) : string :=
  let parts := path_parts p in
  let root := path_root p in
  match parts with
  | [] => if (root =? "")%string then "." else root
  | _ =>
      let up := removelast parts in
      match up with
      | [] => if (root =? "")%string then "." else root
      | _ => root ++ join_with "/" up
      end
  end.

(** Index of the last dot of [s], if any. *)
Fixpoint rfind_dot (s : string) : option nat :=
  match s with
  | EmptyString => None
  | String c s' =>
      match rfind_dot s' with
      | Some i => Some (S i)
      | None => if Ascii.eqb c "."%char then Some 0 else None
      end
  end.

Fixpoint string_drop (n : nat) (s : string) : string :=
  match n, s with
  | O, _ => s
  | S n', String _ s' => string_drop n' s'
  | S _, EmptyString => EmptyString
  end.

(** [Path(p).suffix]: the last dot of the final component, unless it is the
    first or the last character of that component. *)
Definition path_suffix (p : string) : string :=
  let name := last (path_parts p) "" in
  match rfind_dot name with
  | Some i =>
      if Nat.ltb 0 i && Nat.ltb i (String.length name - 1)
      then string_drop i name
      else ""
  | None => ""
  end.

(** Index just after the last slash of [s]. *)
Fixpoint after_last_slash (s : string) : option nat :=
  match s with
  | EmptyString => None
  | String c s' =>
      match after_last_slash s' with
      | Some i => Some (S i)
      | None => if Ascii.eqb c "/"%char then Some 1 else None
      end
  end.

Fixpoint string_take (n : nat) (s : string) : string :=
  match n, s with
  | O, _ => EmptyString
  | S n', String c s' => String c (string_take n' s')
  | S _, EmptyString => EmptyString
  end.

Fixpoint all_slashes (s : string) : bool :=
  match s with
  | EmptyString => true
  | String c s' => Ascii.eqb c "/"%char && all_slashes s'
  end.

Fixpoint rstrip_slashes (s : string) : string :=
  match s with
  | EmptyString => EmptyString
  | String c s' =>
      match rstrip_slashes s' with
      | EmptyString => if Ascii.eqb c "/"%char then EmptyString
                       else String c EmptyString
      | t => String c t
      end
  end.

(** [os.path.dirname] *)
Definition dirname (p : string) : string :=
  match after_last_slash p with
  | None => ""
  | Some i =>
      let head := string_take i p in
      if all_slashes head then head else rstrip_slashes head
  end.

(** ** Dictionaries *)

Fixpoint dict_get (d : list (string * pyval)) (k : string) : option pyval :=
  match d with
  | [] => None
  | (k', v) :: rest => if (k' =? k)%string then Some v else dict_get rest k
  end.

(** [d[k] = v]: an existing key keeps its position. *)
Fixpoint dict_set (d : list (string * pyval)) (k : string) (v : pyval)
  : list (string * pyval) :=
  match d with
  | [] => [(k, v)]
  | (k', v') :: rest =>
      if (k' =? k)%string then (k, v) :: rest
      else (k', v') :: dict_set rest k v
  end.

(** [x[k]] with a string key *)
Definition getitem (x : pyval) (k : string) : res pyval :=
  match x with
  | PDict d => match dict_get d k with Some v => Ok v | None => Raise KeyError end
  | _ => Raise TypeError
  end.

(** [x[k] = v] with a string key *)
Definition setitem (x : pyval) (k : string) (v : pyval) : res pyval :=
  match x with
  | PDict d => Ok (PDict (dict_set d k v))
  | _ => Raise TypeError
  end.

(** Truth value of a Python object *)
Definition truthy (x : pyval) : bool :=
  match x with
  | PNone => false
  | PBool b => b
  | PInt z => negb (z =? 0)%Z
  | PFloat n _ => negb (n =? 0)%Z
  | PStr s => negb (s =? "")%string
  | PList l => match l with [] => false | _ => true end
  | PDict d => match d with [] => false | _ => true end
  | PObj _ => true
  end.

(** [len(x)] *)
Definition py_len (x : pyval) : res Z :=
  match x with
  | PStr s => Ok (Z.of_nat (String.length s))
  | PList l => Ok (Z.of_nat (List.length l))
  | PDict d => Ok (Z.of_nat (List.length d))
  | _ => Raise TypeError
  end.

(** [len(content.split('\n'))] *)
Definition count_lines (content : pyval) : res Z :=
  match content with
  | PStr s => Ok (Z.of_nat (List.length (split_on "010"%char s)))
  | _ => Raise AttributeError
  end.

(** What [json.dump(x, f, default=repr)] writes: objects json cannot encode
    are replaced by their [repr]. *)
Fixpoint to_json (x : pyval) : pyval :=
  match x with
  | PList l => PList (map to_json l)
  | PDict d => PDict (map (fun kv => (fst kv, to_json (snd kv))) d)
  | PObj r => PStr r
  | other => other
  end.

(** ** Effects: an event trace and exceptions *)

Inductive level : Type := WARNING | ERROR.

(** Names for the handler functions of [analysis.py], the values of
    [FILE_TYPE_HANDLERS]. *)
Inductive handler : Type :=
| h_python | h_javascript | h_html | h_css | h_json | h_markdown | h_text
| h_typescript | h_jsx | h_vue | h_yaml | h_xml | h_image | h_document
| h_default.

Inductive event : Type :=
| EvHandler (h : handler) (file_path : string)   (* process_file awaits h *)
| EvRun (argv : list string)                     (* subprocess.run(argv) *)
| EvNlp (content : pyval)                        (* the spaCy pipeline runs *)
| EvAppend (output_file : string) (line : pyval) (* one line appended *)
| EvWriteCache (cache : pyval)                   (* analysis_cache.json rewritten *)
| EvLog (lvl : level) (msg : string) (about : string).
  (* logging.warning / error / exception; info messages are not traced *)

Definition M (A : Type) : Type := (list event * res A)%type.

Definition ret {A} (a : A) : M A := ([], Ok a).
Definition raise {A} (e : exn) : M A := ([], Raise e).
Definition lift {A} (r : res A) : M A := ([], r).
Definition emit (ev : event) : M unit := ([ev], Ok tt).
Definition log (lvl : level) (msg about : string) : M unit :=
  emit (EvLog lvl msg about).

Definition bind {A B} (m : M A) (f : A -> M B) : M B :=
  match m with
  | (t1, Ok a) => let '(t2, r) := f a in (t1 ++ t2, r)
  | (t1, Raise e) => (t1, Raise e)
  end.

(** [try: m  except ...: h e]; a handler re-raises what its clauses do not
    name. *)
Definition try_except {A} (m : M A) (h : exn -> M A) : M A :=
  match m with
  | (t1, Ok a) => (t1, Ok a)
  | (t1, Raise e) => let '(t2, r) := h e in (t1 ++ t2, r)
  end.

Declare Scope py_scope.
Delimit Scope py_scope with py.
Notation "x <- m ;; k" := (bind m (fun x => k))
  (at level 61, m at next level, right associativity) : py_scope.
Notation "m ;;; k" := (bind m (fun _ => k))
  (at level 61, right associativity) : py_scope.
Open Scope py_scope.

Definition trace {A} (m : M A) : list event := fst m.
Definition result {A} (m : M A) : res A := snd m.

(** ** The outside world *)

Record World : Type := {
  w_exists : string -> bool;                     (* Path(p).exists() *)
  w_is_dir : string -> bool;
  w_subdirs : string -> list string;
    (* the directories below a directory, as os.walk lists them after it *)
  w_rglob_files : string -> res (list string);
    (* [p for p in Path(d).rglob('*') if p.is_file()], as strings *)
  w_relpath : string -> string -> string;        (* os.path.relpath *)
  w_filetype_guess : string -> res (option string);
    (* filetype.guess(p): None, or the kind's mime *)
  w_magic_from_file : string -> res string;      (* magic.from_file(p, mime=True) *)
  w_lexer_name : string -> res string;
    (* reading p as UTF-8 and asking pygments for the lexer's name *)
  w_read_utf8 : string -> res string;            (* aiofiles read, UTF-8 *)
  w_getsize : string -> res N;                   (* os.path.getsize *)
  w_nlp : pyval -> res (list (string * string)); (* (ent.text, ent.label_) *)
  w_call : string -> list pyval -> res pyval;
    (* a call into a parsing library: ast, esprima, bs4, cssutils,
       markdown, yaml, radon *)
  w_run : list string -> res (Z * string * string);
    (* subprocess.run: returncode, stdout, stderr *)
  w_json_loads : string -> res pyval;
  w_makedirs : string -> res unit;               (* os.makedirs(d, exist_ok=True) *)
  w_open_write : string -> res unit;             (* open(p, 'a') or open(p, 'w') *)
  w_open_log : res unit;                         (* logging.FileHandler(...) *)
  w_md5 : string -> string;                      (* md5(s.encode('utf-8')).hexdigest() *)
  w_cache_file : option (res (list (string * pyval)));
    (* analysis_cache.json: absent, or what reading and parsing it gives *)
  w_doc_links : string -> res (list (string * pyval))
    (* load_documentation_links(csv_file) *)
}.

(** ** file_handling.py *)

Definition guess_file_type (w : World) (file_path : string)
  : M (option string) :=
  try_except
    (kind <- lift (w_filetype_guess w file_path) ;;
     match kind with
     | Some mime =>
         if (mime =? "")%string then
           mime_type <- lift (w_magic_from_file w file_path) ;;
           if (mime_type =? "")%string then
             log WARNING "Unable to determine the file type" file_path ;;;
             ret None
           else ret (Some mime_type)
         else ret (Some mime)
     | None =>
         mime_type <- lift (w_magic_from_file w file_path) ;;
         if (mime_type =? "")%string then
           log WARNING "Unable to determine the file type" file_path ;;;
           ret None
         else ret (Some mime_type)
     end)
    (fun e =>
       if is_OSError e then
         log ERROR "Error guessing file type" file_path ;;; ret None
       else raise e).

Definition lower_ascii (c : ascii) : ascii :=
  let n := nat_of_ascii c in
  if Nat.leb 65 n && Nat.leb n 90 then ascii_of_nat (n + 32) else c.

Fixpoint lower (s : string) : string :=
  match s with
  | EmptyString => EmptyString
  | String c s' => String (lower_ascii c) (lower s')
  end.

(** Returns the language as a Python value: a string, or None on any error. *)
Definition guess_language (w : World) (file_path : string) : M pyval :=
  try_except
    (name <- lift (w_lexer_name w file_path) ;;
     ret (PStr (lower name)))
    (fun e =>
       log ERROR "Error while guessing language" file_path ;;; ret PNone).

Definition text_types : list string :=
  ["text/plain"; "text/html"; "text/css"; "text/javascript";
   "application/json"; "application/xml"].

Definition mem_string (s : string) (l : list string) : bool :=
  existsb (String.eqb s) l.
Arguments mem_string : simpl never.

Definition is_text_file (w : World) (file_path : string) : M bool :=
  try_except
    (file_type <- guess_file_type w file_path ;;
     match file_type with
     | Some t => if mem_string t text_types then ret true else ret false
     | None => ret false
     end)
    (fun e =>
       log ERROR "Failed to determine if file is text" file_path ;;;
       ret false).

Definition is_binary_file (w : World) (file_path : string) : M bool :=
  try_except
    (b <- is_text_file w file_path ;; ret (negb b))
    (fun e =>
       log ERROR "Failed to determine if file is binary" file_path ;;;
       ret true).

(** Returns the content as a Python value: a string or None. *)
Definition read_text_file (w : World) (file_path : string) : M pyval :=
  try_except
    (content <- lift (w_read_utf8 w file_path) ;; ret (PStr content))
    (fun e =>
       if is_OSError e || match e with UnicodeDecodeError => true | _ => false end
       then log WARNING "Skipping unreadable or improperly encoded file" file_path ;;;
            ret PNone
       else raise e).

Definition async_read (w : World) (file_path : string) : M pyval :=
  b <- is_binary_file w file_path ;;
  if b then ret PNone else read_text_file w file_path.

(** ** data_validation.py *)

(** The fragment of JSON Schema that [schema] uses: [type], [properties]
    and [required].  (["additionalProperties": True] constrains nothing.) *)
Inductive jtype : Type :=
| TObject | TArray | TString | TNumber | TInteger | TNull.

Inductive schema_t : Type :=
| Schema (types : list jtype)                 (* [] : no "type" keyword *)
         (properties : list (string * schema_t))
         (required : list string).

Definition has_type (t : jtype) (v : pyval) : bool :=
  match t, v with
  | TObject, PDict _ => true
  | TArray, PList _ => true
  | TString, PStr _ => true
  | TNumber, (PInt _ | PFloat _ _) => true
  | TInteger, PInt _ => true
  | TInteger, PFloat n d => negb (d =? 0)%Z && (n mod d =? 0)%Z
  | TNull, PNone => true
  | _, _ => false
  end.

Definition has_key (d : list (string * pyval)) (k : string) : bool :=
  match dict_get d k with Some _ => true | None => false end.

(** Whether [jsonschema.validate(instance=v, schema=s)] finds no error:
    the type matches when one is declared, and on an object every required
    key is present and every declared property that is present is valid. *)
Fixpoint valid (s : schema_t) (v : pyval) {struct s} : bool :=
  match s with
  | Schema types properties required =>
      match types with
      | [] => true
      | _ => existsb (fun t => has_type t v) types
      end
      &&
      match v with
      | PDict d =>
          forallb (has_key d) required
          &&
          forallb (fun p => match p with
                            | (k, sk) =>
                                match dict_get d k with
                                | Some x => valid sk x
                                | None => true
                                end
                            end) properties
      | _ => true
      end
  end.

Definition ty (t : jtype) : schema_t := Schema [t] [] [].

Definition schema : schema_t :=
  Schema [TObject]
    [ ("file_path", ty TString);
      ("language", ty TString);
      ("content", Schema [TString; TNull] [] []);
      ("analysis",
        Schema [TObject]
          [ ("classes", ty TArray);
            ("functions", ty TArray);
            ("imports", ty TArray);
            ("lint_results", ty TObject);
            ("docstrings", ty TObject);
            ("comments", ty TArray);
            ("html", ty TString);
            ("tags", ty TArray);
            ("attributes", ty TObject);
            ("entities", ty TArray);
            ("complexity", ty TNumber);
            ("data", ty TObject);
            ("jsx_analysis", ty TObject);
            ("vue_analysis", ty TObject) ]
          []);
      ("metadata",
        Schema [TObject]
          [ ("loc", ty TInteger);
            ("size", ty TInteger);
            ("md5_hash", ty TString) ]
          ["size"]) ]
    ["file_path"; "language"; "content"; "analysis"; "metadata"].

(** The f-strings of both the success message and the validation-error
    message read [data['file_path']]; in the [except] clause that lookup is
    not protected by the sibling [except KeyError]. *)
Definition validate_json (data : pyval) : M bool :=
  try_except
    (if valid schema data then
       _ <- lift (getitem data "file_path") ;; ret true
     else raise ValidationError)
    (fun e =>
       match e with
       | ValidationError =>
           _ <- lift (getitem data "file_path") ;;
           log ERROR "Validation error" "" ;;; ret false
       | KeyError => log ERROR "Missing key in JSON data" "" ;;; ret false
       | _ => raise e
       end).

Definition validate_file_path (file_path : pyval) : M bool :=
  if negb (truthy file_path) then
    log ERROR "File path is empty or None" "" ;;; ret false
  else ret true.

Definition supported_languages : list string :=
  ["python"; "javascript"; "html"; "css"; "json"; "markdown"; "text"; "yaml";
   "xml"; "image"; "document"; "unknown"; "typescript"; "jsx"; "vue"].

Definition validate_language (language : pyval) : M bool :=
  if match language with
     | PStr s => mem_string s supported_languages
     | _ => false
     end
  then ret true
  else log WARNING "Unsupported language" "" ;;; ret false.

Definition validate_content (content : pyval) : M bool :=
  match content with
  | PNone => ret true
  | _ => if negb (truthy content) then
           log WARNING "File content is empty" "" ;;; ret false
         else ret true
  end.

Definition validate_analysis (analysis : pyval) : M bool :=
  if negb (truthy analysis) then
    log WARNING "Analysis data is empty" "" ;;; ret true
  else ret true.

(** [k in x] for a string [k] *)
Definition py_contains (k : string) (x : pyval) : res bool :=
  match x with
  | PDict d => Ok (has_key d k)
  | PList l =>
      Ok (existsb (fun v => match v with
                            | PStr s => (s =? k)%string
                            | _ => false
                            end) l)
  | PStr s => Ok (match index 0 k s with Some _ => true | None => false end)
  | _ => Raise TypeError
  end.

(** [x < 0] *)
Definition py_lt0 (x : pyval) : res bool :=
  match x with
  | PInt z => Ok (z <? 0)%Z
  | PBool _ => Ok false
  | PFloat n d => Ok ((n * d <? 0)%Z)
  | _ => Raise TypeError
  end.

Definition validate_metadata (metadata : pyval) : M bool :=
  if negb (truthy metadata) then
    log WARNING "Metadata is empty" "" ;;; ret false
  else
    has <- lift (py_contains "size" metadata) ;;
    if negb has then
      log ERROR "File size is missing in metadata" "" ;;; ret false
    else
      size <- lift (getitem metadata "size") ;;
      neg <- lift (py_lt0 size) ;;
      if neg then log ERROR "Invalid file size in metadata" "" ;;; ret false
      else ret true.

(** [data.get(k)] *)
Definition dot_get (data : pyval) (k : string) : res pyval :=
  match data with
  | PDict d => Ok (match dict_get d k with Some v => v | None => PNone end)
  | _ => Raise AttributeError
  end.

Definition validate_data (data : pyval) : M bool :=
  fp <- lift (dot_get data "file_path") ;;
  ok1 <- validate_file_path fp ;;
  if negb ok1 then ret false else
  lang <- lift (dot_get data "language") ;;
  ok2 <- validate_language lang ;;
  if negb ok2 then ret false else
  content <- lift (dot_get data "content") ;;
  ok3 <- validate_content content ;;
  if negb ok3 then ret false else
  analysis <- lift (dot_get data "analysis") ;;
  ok4 <- validate_analysis analysis ;;
  if negb ok4 then ret false else
  metadata <- lift (dot_get data "metadata") ;;
  ok5 <- validate_metadata metadata ;;
  if negb ok5 then ret false else
  ok6 <- validate_json data ;;
  if negb ok6 then ret false else
  ret true.

(** ** utilities.py *)

(** [os.makedirs(d, exist_ok=True)]: the empty path is never creatable. *)
Definition os_makedirs (w : World) (d : string) : res unit :=
  if (d =? "")%string then Raise OSError else w_makedirs w d.

Definition save_to_jsonl (w : World) (file_data : pyval) (output_file : string)
  : M unit :=
  try_except
    (lift (os_makedirs w (dirname output_file)) ;;;
     lift (w_open_write w output_file) ;;;
     emit (EvAppend output_file (to_json file_data)))
    (fun e =>
       if is_OSError e || is_ValueError e
       then log ERROR "Error saving data" output_file
       else raise e).

(** [x == s] for a string literal [s] *)
Definition eq_str (x : pyval) (s : string) : bool :=
  match x with PStr t => (t =? s)%string | _ => false end.

Definition calculate_function_count (file_data : pyval) : M pyval :=
  try_except
    (language <- lift (getitem file_data "language") ;;
     if eq_str language "Python" || eq_str language "JavaScript" then
       analysis <- lift (getitem file_data "analysis") ;;
       functions <- lift (getitem analysis "functions") ;;
       n <- lift (py_len functions) ;;
       ret (PInt n)
     else ret (PInt 0))
    (fun e =>
       match e with
       | KeyError => log ERROR "Missing key in file data" ""
       | _ => log ERROR "Unexpected error calculating function count" ""
       end ;;; ret (PInt 0)).

(** [loc > 0] and [count / loc] *)
Definition py_gt0 (x : pyval) : res bool :=
  match x with
  | PInt z => Ok (0 <? z)%Z
  | PBool b => Ok b
  | PFloat n d => Ok ((0 <? n * d)%Z)
  | _ => Raise TypeError
  end.

Definition true_div (count : Z) (x : pyval) : res pyval :=
  match x with
  | PInt z => Ok (PFloat count z)
  | PBool _ => Ok (PFloat count 1)
  | PFloat n d => Ok (PFloat (count * d) n)
  | _ => Raise TypeError
  end.

Definition calculate_comment_density (file_data : pyval) : M pyval :=
  try_except
    (metadata <- lift (getitem file_data "metadata") ;;
     loc <- lift (getitem metadata "loc") ;;
     analysis <- lift (getitem file_data "analysis") ;;
     comments <- lift (match analysis with
                       | PDict d => Ok (match dict_get d "comments" with
                                        | Some c => c
                                        | None => PList []
                                        end)
                       | _ => Raise AttributeError
                       end) ;;
     comment_count <- lift (py_len comments) ;;
     pos <- lift (py_gt0 loc) ;;
     if pos then lift (true_div comment_count loc) else ret (PInt 0))
    (fun e =>
       match e with
       | KeyError => log ERROR "Missing key in file data" ""
       | _ => log ERROR "Unexpected error calculating comment density" ""
       end ;;; ret (PInt 0)).

(** ** analysis.py: the per-language handlers *)

Definition entities_of (ents : list (string * string)) : pyval :=
  PList (map (fun e => PDict [("text", PStr (fst e)); ("label", PStr (snd e))])
             ents).

(** [[{'text': ent.text, 'label': ent.label_} for ent in nlp(content).ents]] *)
Definition nlp_entities (w : World) (content : pyval) : M pyval :=
  emit (EvNlp content) ;;;
  ents <- lift (w_nlp w content) ;;
  ret (entities_of ents).

(** [subprocess.run(argv, capture_output=True, text=True)] *)
Definition subprocess_run (w : World) (argv : list string)
  : M (Z * string * string) :=
  emit (EvRun argv) ;;; lift (w_run w argv).

(** [json.loads(r.stdout) if r.returncode == 0 else None] *)
Definition lint_results_of (w : World) (r : Z * string * string) : res pyval :=
  let '(returncode, stdout, _) := r in
  if (returncode =? 0)%Z then w_json_loads w stdout else Ok PNone.

(** [json.loads(x)] *)
Definition json_loads (w : World) (x : pyval) : res pyval :=
  match x with
  | PStr s => w_json_loads w s
  | _ => Raise TypeError
  end.

Definition getsize (w : World) (file_path : string) : res pyval :=
  match w_getsize w file_path with
  | Ok n => Ok (PInt (Z.of_N n))
  | Raise e => Raise e
  end.

Definition record (file_path : string) (language content : pyval)
    (analysis metadata : list (string * pyval)) (module_path : string) : pyval :=
  PDict [ ("file_path", PStr file_path);
          ("language", language);
          ("content", content);
          ("analysis", PDict analysis);
          ("metadata", PDict metadata);
          ("module_path", PStr module_path) ].

(** The tail shared by the handlers that validate: validate, save next to
    the working directory, return the record; None when validation fails. *)
Definition validate_and_save (w : World) (data : pyval)
    (file_path module_path : string) : M pyval :=
  ok <- validate_json data ;;
  if ok then
    save_to_jsonl w data (module_path ++ ".jsonl") ;;; ret data
  else
    log ERROR "Data validation failed" file_path ;;; ret PNone.

(** [except Exception as e: logging.error(...); return None] *)
Definition or_none (what file_path : string) (m : M pyval) : M pyval :=
  try_except m (fun _ => log ERROR what file_path ;;; ret PNone).

Definition process_python_file (w : World) (file_path module_path : string)
    (language : pyval) : M pyval :=
  or_none "Error processing Python file" file_path
    (content <- async_read w file_path ;;
     tree <- lift (w_call w "ast.parse" [content]) ;;
     classes <- lift (w_call w "ast.ClassDef nodes" [tree]) ;;
     functions <- lift (w_call w "ast.FunctionDef nodes" [tree]) ;;
     imports <- lift (w_call w "ast.Import modules" [tree]) ;;
     docstrings <- lift (w_call w "docstrings" [content]) ;;
     comments <- lift (w_call w "comments" [content]) ;;
     entities <- nlp_entities w content ;;
     complexity <- lift (w_call w "cc_visit" [content]) ;;
     lint <- subprocess_run w ["pylint"; "--output-format=json"; file_path] ;;
     classes' <- lift (w_call w "class summaries" [classes]) ;;
     functions' <- lift (w_call w "function summaries" [functions; classes]) ;;
     total <- lift (w_call w "total_complexity" [complexity]) ;;
     lint_results <- lift (lint_results_of w lint) ;;
     loc <- lift (count_lines content) ;;
     size <- lift (getsize w file_path) ;;
     validate_and_save w
       (record file_path language content
          [ ("classes", classes'); ("functions", functions');
            ("imports", imports); ("docstrings", docstrings);
            ("comments", comments); ("entities", entities);
            ("complexity", total); ("lint_results", lint_results) ]
          [ ("loc", PInt loc); ("size", size) ] module_path)
       file_path module_path).

Definition process_html_file (w : World) (file_path module_path : string)
    (language : pyval) : M pyval :=
  or_none "Error processing HTML file" file_path
    (content <- async_read w file_path ;;
     soup <- lift (w_call w "BeautifulSoup" [content; PStr "html.parser"]) ;;
     tags <- lift (w_call w "tags" [soup]) ;;
     attributes <- lift (w_call w "attributes" [soup]) ;;
     comments <- lift (w_call w "comments" [soup]) ;;
     entities <- nlp_entities w content ;;
     loc <- lift (count_lines content) ;;
     size <- lift (getsize w file_path) ;;
     validate_and_save w
       (record file_path language content
          [ ("tags", tags); ("attributes", attributes);
            ("docstrings", PDict []); ("comments", comments);
            ("entities", entities) ]
          [ ("loc", PInt loc); ("size", size) ] module_path)
       file_path module_path).

Definition process_css_file (w : World) (file_path module_path : string)
    (language : pyval) : M pyval :=
  or_none "Error processing CSS file" file_path
    (content <- async_read w file_path ;;
     sheet <- lift (w_call w "cssutils.parseString" [content]) ;;
     rules <- lift (w_call w "rules" [sheet]) ;;
     properties <- lift (w_call w "properties" [sheet]) ;;
     entities <- nlp_entities w content ;;
     lint <- subprocess_run w ["stylelint"; "--formatter=json"; file_path] ;;
     lint_results <- lift (lint_results_of w lint) ;;
     loc <- lift (count_lines content) ;;
     size <- lift (getsize w file_path) ;;
     validate_and_save w
       (record file_path language content
          [ ("rules", rules); ("properties", properties);
            ("entities", entities); ("lint_results", lint_results) ]
          [ ("loc", PInt loc); ("size", size) ] module_path)
       file_path module_path).

Definition process_javascript_file (w : World) (file_path module_path : string)
    (language : pyval) : M pyval :=
  or_none "Error processing JavaScript file" file_path
    (content <- async_read w file_path ;;
     tree <- lift (w_call w "esprima.parseScript" [content]) ;;
     functions <- lift (w_call w "FunctionDeclaration nodes" [tree]) ;;
     imports <- lift (w_call w "ImportDeclaration sources" [tree]) ;;
     comments <- lift (w_call w "comments" [tree]) ;;
     entities <- nlp_entities w content ;;
     lint <- subprocess_run w ["eslint"; "--format=json"; file_path] ;;
     functions' <- lift (w_call w "function summaries" [functions]) ;;
     lint_results <- lift (lint_results_of w lint) ;;
     loc <- lift (count_lines content) ;;
     size <- lift (getsize w file_path) ;;
     validate_and_save w
       (record file_path language content
          [ ("functions", functions'); ("imports", imports);
            ("comments", comments); ("entities", entities);
            ("lint_results", lint_results) ]
          [ ("loc", PInt loc); ("size", size) ] module_path)
       file_path module_path).

Definition process_typescript_file (w : World) (file_path module_path : string)
    (language : pyval) : M pyval :=
  or_none "Error processing TypeScript file" file_path
    (content <- async_read w file_path ;;
     match content with
     | PNone =>
         log WARNING "Skipping binary or empty TypeScript file" file_path ;;;
         ret PNone
     | _ =>
         tree <- lift (w_call w "esprima.parseScript" [content]) ;;
         functions <- lift (w_call w "FunctionDeclaration nodes" [tree]) ;;
         imports <- lift (w_call w "ImportDeclaration sources" [tree]) ;;
         comments <- lift (w_call w "comments" [tree]) ;;
         complexity <- lift (w_call w "cc_visit" [content]) ;;
         entities <- nlp_entities w content ;;
         lint <- subprocess_run w ["tslint"; "--format=json"; file_path] ;;
         functions' <- lift (w_call w "function summaries" [functions]) ;;
         total <- lift (w_call w "total_complexity" [complexity]) ;;
         lint_results <- lift (lint_results_of w lint) ;;
         loc <- lift (count_lines content) ;;
         size <- lift (getsize w file_path) ;;
         validate_and_save w
           (record file_path language content
              [ ("functions", functions'); ("imports", imports);
                ("comments", comments); ("complexity", total);
                ("docstrings", PDict []); ("entities", entities);
                ("lint_results", lint_results) ]
              [ ("loc", PInt loc); ("size", size) ] module_path)
           file_path module_path
     end).

(** The JSX and Vue handlers differ in the script and in the key only. *)
Definition process_node_parsed (w : World) (what script key : string)
    (file_path module_path : string) (language : pyval) : M pyval :=
  or_none what file_path
    (content <- async_read w file_path ;;
     match content with
     | PNone => log WARNING "Skipping binary or empty file" file_path ;;;
                ret PNone
     | _ =>
         r <- subprocess_run w ["node"; script; file_path] ;;
         let '(returncode, stdout, _) := r in
         if negb (returncode =? 0)%Z then
           log ERROR "Error parsing file" file_path ;;; ret PNone
         else
           analysis <- lift (w_json_loads w stdout) ;;
           entities <- nlp_entities w content ;;
           loc <- lift (count_lines content) ;;
           size <- lift (getsize w file_path) ;;
           validate_and_save w
             (record file_path language content
                [ ("entities", entities); (key, analysis) ]
                [ ("loc", PInt loc); ("size", size) ] module_path)
             file_path module_path
     end).

Definition process_jsx_file w := process_node_parsed w
  "Error processing JSX file" "parse_jsx.js" "jsx_analysis".
Definition process_vue_file w := process_node_parsed w
  "Error processing Vue file" "parse_vue.js" "vue_analysis".

Definition process_json_file (w : World) (file_path module_path : string)
    (language : pyval) : M pyval :=
  or_none "Error processing JSON file" file_path
    (content <- async_read w file_path ;;
     data_json <- lift (json_loads w content) ;;
     entities <- nlp_entities w content ;;
     loc <- lift (count_lines content) ;;
     size <- lift (getsize w file_path) ;;
     ret (record file_path language content
            [ ("data", data_json); ("entities", entities) ]
            [ ("loc", PInt loc); ("size", size) ] module_path)).

Definition process_markdown_file (w : World) (file_path module_path : string)
    (language : pyval) : M pyval :=
  or_none "Error processing Markdown file" file_path
    (content <- async_read w file_path ;;
     html <- lift (w_call w "markdown.markdown" [content]) ;;
     entities <- nlp_entities w content ;;
     loc <- lift (count_lines content) ;;
     size <- lift (getsize w file_path) ;;
     ret (record file_path language content
            [ ("html", html); ("entities", entities) ]
            [ ("loc", PInt loc); ("size", size) ] module_path)).

Definition process_text_file (w : World) (file_path module_path : string)
    (language : pyval) : M pyval :=
  or_none "Error processing Text file" file_path
    (content <- async_read w file_path ;;
     entities <- nlp_entities w content ;;
     loc <- lift (count_lines content) ;;
     size <- lift (getsize w file_path) ;;
     ret (record file_path language content
            [ ("entities", entities) ]
            [ ("loc", PInt loc); ("size", size) ] module_path)).

Definition process_yaml_file (w : World) (file_path module_path : string)
    (language : pyval) : M pyval :=
  or_none "Error processing YAML file" file_path
    (content <- async_read w file_path ;;
     data_yaml <- lift (w_call w "yaml.safe_load" [content]) ;;
     entities <- nlp_entities w content ;;
     loc <- lift (count_lines content) ;;
     size <- lift (getsize w file_path) ;;
     ret (record file_path language content
            [ ("data", data_yaml); ("entities", entities) ]
            [ ("loc", PInt loc); ("size", size) ] module_path)).

Definition process_xml_file (w : World) (file_path module_path : string)
    (language : pyval) : M pyval :=
  or_none "Error processing XML file" file_path
    (content <- async_read w file_path ;;
     soup <- lift (w_call w "BeautifulSoup" [content; PStr "lxml"]) ;;
     entities <- nlp_entities w content ;;
     tags <- lift (w_call w "tags" [soup]) ;;
     attributes <- lift (w_call w "attributes" [soup]) ;;
     loc <- lift (count_lines content) ;;
     size <- lift (getsize w file_path) ;;
     ret (record file_path language content
            [ ("tags", tags); ("attributes", attributes);
              ("entities", entities) ]
            [ ("loc", PInt loc); ("size", size) ] module_path)).

(** [process_image_file] takes two parameters only. *)
Definition process_image_file (w : World) (file_path module_path : string)
  : M pyval :=
  or_none "Error processing Image file" file_path
    (size <- lift (getsize w file_path) ;;
     ret (record file_path (PStr "image") PNone [] [ ("size", size) ]
            module_path)).

Definition process_document_file (w : World) (file_path module_path : string)
    (language : pyval) : M pyval :=
  or_none "Error processing Document file" file_path
    (content <- async_read w file_path ;;
     entities <- (if truthy content then nlp_entities w content
                  else ret (PList [])) ;;
     size <- lift (getsize w file_path) ;;
     ret (record file_path language content
            [ ("entities", entities) ] [ ("size", size) ] module_path)).

Definition default_handler (w : World) (file_path module_path : string)
    (language : pyval) : M pyval :=
  or_none "Error processing file" file_path
    (content <- async_read w file_path ;;
     entities <- match content with
                 | PNone =>
                     log WARNING "Skipping file due to being binary or unsupported"
                         file_path ;;;
                     ret (PList [])
                 | _ => nlp_entities w content
                 end ;;
     loc <- (if truthy content then lift (count_lines content) else ret 0%Z) ;;
     size <- lift (getsize w file_path) ;;
     ret (record file_path language content
            [ ("entities", entities) ]
            [ ("loc", PInt loc); ("size", size) ] module_path)).

(** Calling a handler the way [process_file] does, with four arguments:
    [process_image_file] accepts two, so the call itself raises. *)
Definition call_handler (w : World) (h : handler)
    (file_path module_path : string) (language : pyval) : M pyval :=
  match h with
  | h_python => process_python_file w file_path module_path language
  | h_javascript => process_javascript_file w file_path module_path language
  | h_html => process_html_file w file_path module_path language
  | h_css => process_css_file w file_path module_path language
  | h_json => process_json_file w file_path module_path language
  | h_markdown => process_markdown_file w file_path module_path language
  | h_text => process_text_file w file_path module_path language
  | h_typescript => process_typescript_file w file_path module_path language
  | h_jsx => process_jsx_file w file_path module_path language
  | h_vue => process_vue_file w file_path module_path language
  | h_yaml => process_yaml_file w file_path module_path language
  | h_xml => process_xml_file w file_path module_path language
  | h_image => raise TypeError
  | h_document => process_document_file w file_path module_path language
  | h_default => default_handler w file_path module_path language
  end.

(** ** The module map

    [codebase_data]: a dict from module path to the list of that module's
    records, in insertion order. *)
Definition codebase : Type := list (string * list pyval).

Fixpoint codebase_get (cd : codebase) (k : string) : option (list pyval) :=
  match cd with
  | [] => None
  | (k', v) :: rest => if (k' =? k)%string then Some v else codebase_get rest k
  end.

(** [d.update(other)] *)
Fixpoint codebase_set (cd : codebase) (k : string) (v : list pyval) : codebase :=
  match cd with
  | [] => [(k, v)]
  | (k', v') :: rest =>
      if (k' =? k)%string then (k, v) :: rest
      else (k', v') :: codebase_set rest k v
  end.

Definition codebase_update (cd other : codebase) : codebase :=
  fold_left (fun acc kv => codebase_set acc (fst kv) (snd kv)) other cd.

(** ** graph_management.py *)

Definition possible_extensions (file_ext : string) : list string :=
  [".py"; ".js"; ".ts"; ".jsx"; ".vue"; ".scss"; ".css"; ".sass"; ".html";
   ".tsx"; ".xml"; ".php"; ".c"; ".cpp"; ".hpp"; ".go"; ".rs"] ++ [file_ext].

Definition possible_paths (import_statement file_path : string) : list string :=
  map (fun ext => (replace_dots import_statement ++ ext)%string)
      (possible_extensions (path_suffix file_path)).

(** [any(data['file_path'].endswith(path) for path in possible_paths)];
    the list of paths is never empty, so the lookup always happens. *)
Definition matches (paths : list string) (data : pyval) : res (bool * pyval) :=
  match getitem data "file_path" with
  | Raise e => Raise e
  | Ok (PStr fp) => Ok (existsb (endswith fp) paths, PStr fp)
  | Ok _ => Raise AttributeError
  end.

(** The first record of [l] that matches: its [file_path]. *)
Fixpoint first_match (paths : list string) (l : list pyval)
  : res (option pyval) :=
  match l with
  | [] => Ok None
  | data :: rest =>
      match matches paths data with
      | Raise e => Raise e
      | Ok (true, fp) => Ok (Some fp)
      | Ok (false, _) => first_match paths rest
      end
  end.

Fixpoint first_match_modules (paths : list string) (cd : codebase)
  : res (option pyval) :=
  match cd with
  | [] => Ok None
  | (_, module_data) :: rest =>
      match first_match paths module_data with
      | Raise e => Raise e
      | Ok (Some fp) => Ok (Some fp)
      | Ok None => first_match_modules paths rest
      end
  end.

(** Returns the resolved path, or None. *)
Definition resolve_import (import_statement file_path : string)
    (codebase_data : codebase) : M pyval :=
  let module_path := path_parent file_path in
  let paths := possible_paths import_statement file_path in
  same <- lift (first_match paths
                  (match codebase_get codebase_data module_path with
                   | Some l => l
                   | None => []
                   end)) ;;
  match same with
  | Some fp => ret fp
  | None =>
      anywhere <- lift (first_match_modules paths codebase_data) ;;
      match anywhere with
      | Some fp => ret fp
      | None =>
          log WARNING "Unable to resolve import" file_path ;;; ret PNone
      end
  end.

(** Keys of dicts and graph nodes: Python compares numbers by value. *)
Definition numeric (x : pyval) : option (Z * Z) :=
  match x with
  | PBool b => Some (if b then 1%Z else 0%Z, 1%Z)
  | PInt z => Some (z, 1%Z)
  | PFloat n d => Some (n, d)
  | _ => None
  end.

Definition key_eqb (a b : pyval) : bool :=
  match numeric a, numeric b with
  | Some (n1, d1), Some (n2, d2) => (n1 * d2 =? n2 * d1)%Z
  | _, _ =>
      match a, b with
      | PNone, PNone => true
      | PStr s, PStr t => (s =? t)%string
      | PObj s, PObj t => (s =? t)%string
      | _, _ => false
      end
  end.

(** Lists and dicts are unhashable. *)
Definition hashable (x : pyval) : res unit :=
  match x with
  | PList _ | PDict _ => Raise TypeError
  | _ => Ok tt
  end.

Definition kdict : Type := list (pyval * pyval).

Fixpoint kd_get (d : kdict) (k : pyval) : option pyval :=
  match d with
  | [] => None
  | (k', v) :: rest => if key_eqb k' k then Some v else kd_get rest k
  end.

Fixpoint kd_set (d : kdict) (k v : pyval) : kdict :=
  match d with
  | [] => [(k, v)]
  | (k', v') :: rest =>
      if key_eqb k' k then (k', v) :: rest else (k', v') :: kd_set rest k v
  end.

(** A networkx [DiGraph]: nodes with their attributes, and edges. *)
Record digraph : Type := {
  g_nodes : list (pyval * list (string * pyval));
  g_edges : list (pyval * pyval)
}.

Definition empty_graph : digraph := {| g_nodes := []; g_edges := [] |}.

Fixpoint node_attrs (ns : list (pyval * list (string * pyval))) (n : pyval)
  : option (list (string * pyval)) :=
  match ns with
  | [] => None
  | (n', a) :: rest => if key_eqb n' n then Some a else node_attrs rest n
  end.

Fixpoint set_node_attr (ns : list (pyval * list (string * pyval)))
    (n : pyval) (k : string) (v : pyval)
  : list (pyval * list (string * pyval)) :=
  match ns with
  | [] => [(n, [(k, v)])]
  | (n', a) :: rest =>
      if key_eqb n' n then (n', dict_set a k v) :: rest
      else (n', a) :: set_node_attr rest n k v
  end.

Definition check_node (n : pyval) : res unit :=
  match n with
  | PNone => Raise ValueError
  | _ => hashable n
  end.

(** [graph.add_node(n, language=lang)] *)
Definition add_node (g : digraph) (n lang : pyval) : res digraph :=
  match check_node n with
  | Raise e => Raise e
  | Ok _ => Ok {| g_nodes := set_node_attr (g_nodes g) n "language" lang;
                  g_edges := g_edges g |}
  end.

Definition ensure_node (ns : list (pyval * list (string * pyval))) (n : pyval) :=
  match node_attrs ns n with
  | Some _ => ns
  | None => ns ++ [(n, [])]
  end.

(** [graph.add_edge(u, v)] *)
Definition add_edge (g : digraph) (u v : pyval) : res digraph :=
  match check_node u, check_node v with
  | Ok _, Ok _ =>
      Ok {| g_nodes := ensure_node (ensure_node (g_nodes g) u) v;
            g_edges :=
              if existsb (fun e => key_eqb (fst e) u && key_eqb (snd e) v)
                         (g_edges g)
              then g_edges g else g_edges g ++ [(u, v)] |}
  | Raise e, _ => Raise e
  | _, Raise e => Raise e
  end.

(** [for x in v] *)
Definition py_iter (v : pyval) : res (list pyval) :=
  match v with
  | PList l => Ok l
  | PDict d => Ok (map (fun kv => PStr (fst kv)) d)
  | PStr s => Ok (map (fun c => PStr (String c EmptyString)) (list_ascii_of_string s))
  | _ => Raise TypeError
  end.

(** [Path(x)], [x.replace(...)]: the argument must be a string. *)
Definition as_str (e : exn) (x : pyval) : res string :=
  match x with PStr s => Ok s | _ => Raise e end.

(** The loop over one file's imports.  The graph is mutated in place, so
    the edges added before an exception stay: the result is the trace, the
    exception if one ended the loop, and the graph as the loop leaves it. *)
Fixpoint add_imports (cd : codebase) (file_path : pyval) (imports : list pyval)
    (g : digraph) : list event * option exn * digraph :=
  match imports with
  | [] => ([], None, g)
  | import_statement :: rest =>
      let step : M digraph :=
        fp <- lift (as_str TypeError file_path) ;;
        imp <- lift (as_str AttributeError import_statement) ;;
        resolved <- resolve_import imp fp cd ;;
        if truthy resolved then lift (add_edge g file_path resolved)
        else ret g in
      match step with
      | (t, Ok g') =>
          let '(t', e, g'') := add_imports cd file_path rest g' in
          (t ++ t', e, g'')
      | (t, Raise e) => (t, Some e, g)
      end
  end.

Definition dependency_languages : list string :=
  ["python"; "javascript"; "typescript"].

(** The body of the [try] of [build_dependency_graph] for one record. *)
Definition add_file_body (cd : codebase) (file_data : pyval) (g : digraph)
  : list event * option exn * digraph :=
  match getitem file_data "file_path" with
  | Raise e => ([], Some e, g)
  | Ok fp =>
  match getitem file_data "language" with
  | Raise e => ([], Some e, g)
  | Ok lang =>
  match add_node g fp lang with
  | Raise e => ([], Some e, g)
  | Ok g1 =>
      if match lang with
         | PStr s => mem_string s dependency_languages
         | _ => false
         end
      then
        match getitem file_data "analysis" with
        | Raise e => ([], Some e, g1)
        | Ok analysis =>
        match getitem analysis "imports" with
        | Raise e => ([], Some e, g1)
        | Ok imports =>
        match py_iter imports with
        | Raise e => ([], Some e, g1)
        | Ok l => add_imports cd fp l g1
        end end end
      else ([], None, g1)
  end end end.

(** One iteration: the body and its two [except] clauses. *)
Definition add_file (cd : codebase) (file_data : pyval) (g : digraph)
  : list event * digraph :=
  match add_file_body cd file_data g with
  | (t, None, g') => (t, g')
  | (t, Some KeyError, g') =>
      (t ++ [EvLog ERROR "Error building dependency graph" ""], g')
  | (t, Some _, g') =>
      (t ++ [EvLog ERROR "Unexpected error building dependency graph" ""], g')
  end.

Definition all_records (cd : codebase) : list pyval :=
  concat (map snd cd).

Definition build_dependency_graph (codebase_data : codebase)
  : list event * digraph :=
  fold_left
    (fun acc file_data =>
       let '(t, g) := acc in
       let '(t', g') := add_file codebase_data file_data g in
       (t ++ t', g'))
    (all_records codebase_data) ([], empty_graph).

(** ** analysis.py: aggregate statistics *)

(** [a + b] on numbers; anything else added to a number is a TypeError. *)
Definition py_add (a b : pyval) : res pyval :=
  match numeric a, numeric b with
  | Some (n1, d1), Some (n2, d2) =>
      match a, b with
      | PFloat _ _, _ | _, PFloat _ _ =>
          Ok (PFloat (n1 * d2 + n2 * d1) (d1 * d2))
      | _, _ => Ok (PInt (n1 + n2))
      end
  | _, _ => Raise TypeError
  end.

(** [stats[k] = stats.get(k, 0) + v] *)
Definition bump (stats : kdict) (k v : pyval) : res kdict :=
  match hashable k with
  | Raise e => Raise e
  | Ok _ =>
      match py_add (match kd_get stats k with Some c => c | None => PInt 0 end) v
      with
      | Raise e => Raise e
      | Ok c => Ok (kd_set stats k c)
      end
  end.

(** [for item in lint_results: lint_stats[item[field]] += 1] *)
Fixpoint tally_by (field : string) (items : list pyval) (stats : kdict)
  : res kdict :=
  match items with
  | [] => Ok stats
  | item :: rest =>
      match getitem item field with
      | Raise e => Raise e
      | Ok violation_type =>
          match bump stats violation_type (PInt 1) with
          | Raise e => Raise e
          | Ok stats' => tally_by field rest stats'
          end
      end
  end.

Definition tally_count (key field : string) (item : pyval) (stats : kdict)
  : res kdict :=
  match py_contains field item with
  | Raise e => Raise e
  | Ok false => Ok stats
  | Ok true =>
      match getitem item field with
      | Raise e => Raise e
      | Ok n => bump stats (PStr key) n
      end
  end.

Fixpoint tally_js (items : list pyval) (stats : kdict) : res kdict :=
  match items with
  | [] => Ok stats
  | item :: rest =>
      match tally_count "error" "errorCount" item stats with
      | Raise e => Raise e
      | Ok s1 =>
          match tally_count "warning" "warningCount" item s1 with
          | Raise e => Raise e
          | Ok s2 => tally_js rest s2
          end
      end
  end.

(** [file_data['analysis'].get('lint_results')], iterated when truthy *)
Definition lint_items (file_data : pyval) : res (list pyval) :=
  match getitem file_data "analysis" with
  | Raise e => Raise e
  | Ok analysis =>
      match dot_get analysis "lint_results" with
      | Raise e => Raise e
      | Ok lint_results =>
          if truthy lint_results then py_iter lint_results else Ok []
      end
  end.

Definition lint_file (file_data : pyval) (stats : kdict) : res kdict :=
  if negb (truthy file_data) then Ok stats else
  match getitem file_data "language" with
  | Raise e => Raise e
  | Ok language =>
      let with_items (f : list pyval -> kdict -> res kdict) :=
        match lint_items file_data with
        | Raise e => Raise e
        | Ok items => f items stats
        end in
      if eq_str language "python" then with_items (tally_by "symbol")
      else if eq_str language "javascript" then with_items tally_js
      else if eq_str language "css" then with_items (tally_by "rule")
      else if eq_str language "typescript" then with_items (tally_by "ruleName")
      else Ok stats
  end.

Fixpoint lint_files (l : list pyval) (stats : kdict) : res kdict :=
  match l with
  | [] => Ok stats
  | file_data :: rest =>
      match lint_file file_data stats with
      | Raise e => Raise e
      | Ok stats' => lint_files rest stats'
      end
  end.

Definition analyze_lint_results (codebase_data : codebase) : res kdict :=
  lint_files (all_records codebase_data) [].

Definition count_skipped_files (codebase_data : codebase) : Z :=
  Z.of_nat (List.length
              (filter (fun file_data => match file_data with
                                        | PNone => true
                                        | _ => false
                                        end)
                      (all_records codebase_data))).

(** ** utilities.py: the analysis cache *)

(** The cache file holds a JSON object from file path to entry, as
    [cache_analysis_results] writes it. *)
Definition cache_t : Type := list (string * pyval).

Definition content_hash (w : World) (content : pyval) : res pyval :=
  match content with
  | PNone => Ok PNone
  | PStr s => Ok (PStr (w_md5 w s))
  | _ => Raise AttributeError
  end.

(** The body of the [try] of [cache_analysis_results] for one record: the
    right-hand side of the assignment is evaluated before the key. *)
Definition cache_entry (w : World) (file_data : pyval)
  : M (string * pyval) :=
  content <- lift (getitem file_data "content") ;;
  file_hash <- lift (content_hash w content) ;;
  analysis <- lift (getitem file_data "analysis") ;;
  function_count <- calculate_function_count file_data ;;
  comment_density <- calculate_comment_density file_data ;;
  file_path <- lift (getitem file_data "file_path") ;;
  key <- lift (as_str TypeError file_path) ;;
  ret (key, PDict [ ("hash", file_hash); ("analysis", analysis);
                    ("function_count", function_count);
                    ("comment_density", comment_density) ]).

Fixpoint build_cache (w : World) (l : list pyval) (cache : cache_t)
  : list event * cache_t :=
  match l with
  | [] => ([], cache)
  | file_data :: rest =>
      match cache_entry w file_data with
      | (t, Ok (key, entry)) =>
          let '(t', c) := build_cache w rest (dict_set cache key entry) in
          (t ++ t', c)
      | (t, Raise e) =>
          let '(t', c) := build_cache w rest cache in
          (t ++ [EvLog ERROR
                   (match e with
                    | KeyError => "Missing key in file data"
                    | _ => "Unexpected error caching analysis results"
                    end) ""] ++ t', c)
      end
  end.

Definition cache_analysis_results (w : World) (codebase_data : codebase)
  : M unit :=
  let '(t, cache) := build_cache w (all_records codebase_data) [] in
  _ <- ((t, Ok tt) : M unit) ;;
  try_except
    (lift (w_open_write w "analysis_cache.json") ;;;
     emit (EvWriteCache (to_json (PDict cache))))
    (fun e =>
       if is_OSError e || is_ValueError e
       then log ERROR "Error caching analysis results" ""
       else raise e).

(** [cache_file] is None when the file does not exist, and otherwise what
    reading and parsing it gives. *)
Definition load_analysis_cache (cache_file : option (res cache_t)) : M cache_t :=
  match cache_file with
  | None => ret []
  | Some (Ok c) => ret c
  | Some (Raise e) =>
      if is_OSError e || is_ValueError e
      then log ERROR "Error loading analysis cache" "" ;;; ret []
      else raise e
  end.

(** ** main_controller.py *)

Definition FILE_TYPE_HANDLERS : list (string * handler) :=
  [ (".py", h_python); (".js", h_javascript); (".html", h_html);
    (".css", h_css); (".json", h_json); (".md", h_markdown);
    (".txt", h_text); (".pyi", h_python); (".ts", h_typescript);
    (".tsx", h_typescript); (".jsx", h_jsx); (".mjs", h_javascript);
    (".cjs", h_javascript); (".vue", h_vue); (".yaml", h_yaml);
    (".yml", h_yaml); (".xml", h_xml); (".png", h_image);
    (".jpg", h_image); (".jpeg", h_image); (".gif", h_image);
    (".bmp", h_image); (".ico", h_image); (".svg", h_image);
    (".doc", h_document); (".pdf", h_document); (".odt", h_document);
    (".docx", h_document); (".xlsx", h_document); (".ppt", h_document);
    (".pptx", h_document); (".vue", h_vue); (".scss", h_css);
    (".sass", h_css); (".node", h_javascript); (".mts", h_typescript);
    (".coffee", h_javascript); (".applescript", h_text); (".c", h_text);
    (".jinja2", h_text); (".h", h_text); (".py-tpl", h_python);
    (".cpp", h_text); (".hpp", h_text); (".asm", h_text);
    (".pyx", h_python); (".f", h_text); (".template", h_text);
    (".keep", h_text); (".R", h_text); (".go", h_text); (".rs", h_text);
    (".pyw", h_python); (".misc", h_text); (".message", h_text);
    (".no_trailing_newline", h_text); (".g", h_text); (".csh", h_text);
    (".asp", h_text); (".htm", h_html); (".in", h_text) ].

Fixpoint lookup_handler (table : list (string * handler)) (k : string)
  : option handler :=
  match table with
  | [] => None
  | (k', h) :: rest => if (k' =? k)%string then Some h else lookup_handler rest k
  end.

(** [FILE_TYPE_HANDLERS.get(file_type, default_handler)]; [file_type] is
    what [guess_file_type] returned, None included. *)
Definition select_handler (file_type : option string) : handler :=
  match file_type with
  | Some t => match lookup_handler FILE_TYPE_HANDLERS t with
              | Some h => h
              | None => h_default
              end
  | None => h_default
  end.

(** [file_data['analysis'][k] = v] *)
Definition set_analysis (file_data : pyval) (k : string) (v : pyval)
  : res pyval :=
  match getitem file_data "analysis" with
  | Raise e => Raise e
  | Ok analysis =>
      match setitem analysis k v with
      | Raise e => Raise e
      | Ok analysis' => setitem file_data "analysis" analysis'
      end
  end.

(** What [process_file] does with the record a handler returned. *)
Definition finish_record (w : World) (file_data language : pyval)
    (file_path module_path output_dir : string) : M unit :=
  file_data <- lift (setitem file_data "language" language) ;;
  content <- lift (getitem file_data "content") ;;
  entities <- nlp_entities w content ;;
  file_data <- lift (set_analysis file_data "entities" entities) ;;
  function_count <- calculate_function_count file_data ;;
  file_data <- lift (set_analysis file_data "function_count" function_count) ;;
  comment_density <- calculate_comment_density file_data ;;
  file_data <- lift (set_analysis file_data "comment_density"
                       comment_density) ;;
  if (module_path =? "")%string then
    log ERROR "Invalid module path" file_path
  else
    save_to_jsonl w file_data (output_dir ++ "/" ++ module_path ++ ".jsonl").

(** The [try] block of [process_file]. *)
Definition process_file_body (w : World)
    (file_path module_path output_dir : string) : M unit :=
  if negb (w_exists w file_path) then
    log ERROR "File not found" file_path
  else
    binary <- is_binary_file w file_path ;;
    if binary then ret tt
    else
      file_type <- guess_file_type w file_path ;;
      language <- guess_language w file_path ;;
      let h := select_handler file_type in
      emit (EvHandler h file_path) ;;;
      file_data <- call_handler w h file_path module_path language ;;
      if truthy file_data then
        finish_record w file_data language file_path module_path output_dir
      else
        log ERROR "Data validation failed" file_path.

Definition process_file (w : World) (file_path module_path output_dir : string)
  : M unit :=
  try_except
    (process_file_body w file_path module_path output_dir)
    (fun e =>
       match e with
       | UnicodeDecodeError => log ERROR "Unicode decode error" file_path
       | _ => log ERROR "Unhandled error processing file" file_path
       end).

(** A task: [(file_path, module_path, output_dir)]; the fourth component,
    the spaCy pipeline, is part of the world. *)
Definition task : Type := (string * string * string)%type.

Definition process_file_in_pool (w : World) (args : task) : M unit :=
  let '(file_path, module_path, output_dir) := args in
  try_except
    (process_file w file_path module_path output_dir)
    (fun e => log ERROR "Error processing file in pool" "").

(** [executor.map(process_file_in_pool, tasks)] followed by the pool's
    shutdown, which waits for every task.  The result iterator is never
    consumed, so nothing a task raises reaches the caller.  This is the
    run in which every worker is done before the next starts, in the order
    of the list; the other runs of a batch are the interleavings of the
    tasks' writes (see the workers of a batch below). *)
Fixpoint run_tasks (w : World) (tasks : list task) : list event :=
  match tasks with
  | [] => []
  | args :: rest => trace (process_file_in_pool w args) ++ run_tasks w rest
  end.

Definition args_list (w : World) (file_paths : list string)
    (root_dir output_dir : string) : list task :=
  map (fun file_path =>
         (file_path, w_relpath w (path_parent file_path) root_dir, output_dir))
      file_paths.

Definition process_directory_concurrently (w : World)
    (directory_path root_dir output_dir : string) : M codebase :=
  let codebase_data : codebase := [] in
  try_except
    (file_paths <- lift (w_rglob_files w directory_path) ;;
     ((run_tasks w (args_list w file_paths root_dir output_dir), Ok tt) : M unit))
    (fun e => log ERROR "Error processing directory concurrently" "") ;;;
  ret codebase_data.

(** [os.walk(root_dir)], top-down: a top that cannot be scanned yields
    nothing. *)
Definition os_walk (w : World) (root_dir : string) : list string :=
  if w_is_dir w root_dir then root_dir :: w_subdirs w root_dir else [].

(** The loop of [process_all_directories]: the trace, the exception that
    ended it if any, and the dict as the loop leaves it. *)
Fixpoint walk_directories (w : World) (roots : list string)
    (root_dir output_dir : string) (codebase_data : codebase)
  : list event * option exn * codebase :=
  match roots with
  | [] => ([], None, codebase_data)
  | root :: rest =>
      match process_directory_concurrently w root root_dir output_dir with
      | (t, Ok directory_data) =>
          let '(t', e, cd) :=
            walk_directories w rest root_dir output_dir
              (codebase_update codebase_data directory_data) in
          (t ++ t', e, cd)
      | (t, Raise e) => (t, Some e, codebase_data)
      end
  end.

Definition process_all_directories (w : World) (root_dir output_dir : string)
  : M codebase :=
  match walk_directories w (os_walk w root_dir) root_dir output_dir [] with
  | (t, None, cd) => (t, Ok cd)
  | (t, Some e, cd) =>
      (t ++ [EvLog ERROR "Error processing all directories" ""], Ok cd)
  end.

Record stats : Type := {
  total_files : Z;
  total_loc : pyval;
  total_size : pyval;
  files_by_language : kdict;
  loc_by_language : kdict;
  size_by_language : kdict;
  files_by_module : list (string * Z)
}.

Definition empty_stats : stats :=
  {| total_files := 0; total_loc := PInt 0; total_size := PInt 0;
     files_by_language := []; loc_by_language := []; size_by_language := [];
     files_by_module := [] |}.

(** [file_data['metadata'][k]] *)
Definition metadata_field (file_data : pyval) (k : string) : res pyval :=
  match getitem file_data "metadata" with
  | Raise e => Raise e
  | Ok metadata => getitem metadata k
  end.

Definition stats_log (e : exn) : list event :=
  [EvLog ERROR (match e with
                | KeyError => "Error calculating codebase stats"
                | _ => "Unexpected error calculating codebase stats"
                end) ""].

(** One iteration of the inner loop of [calculate_codebase_stats]: the
    updates made before an exception stay. *)
Definition stats_file (file_data : pyval) (s0 : stats) : list event * stats :=
  let s1 := {| total_files := total_files s0 + 1;
               total_loc := total_loc s0; total_size := total_size s0;
               files_by_language := files_by_language s0;
               loc_by_language := loc_by_language s0;
               size_by_language := size_by_language s0;
               files_by_module := files_by_module s0 |} in
  match metadata_field file_data "loc" with
  | Raise e => (stats_log e, s1)
  | Ok loc =>
  match py_add (total_loc s1) loc with
  | Raise e => (stats_log e, s1)
  | Ok tl =>
  let s2 := {| total_files := total_files s1;
               total_loc := tl; total_size := total_size s1;
               files_by_language := files_by_language s1;
               loc_by_language := loc_by_language s1;
               size_by_language := size_by_language s1;
               files_by_module := files_by_module s1 |} in
  match metadata_field file_data "size" with
  | Raise e => (stats_log e, s2)
  | Ok size =>
  match py_add (total_size s2) size with
  | Raise e => (stats_log e, s2)
  | Ok ts =>
  let s3 := {| total_files := total_files s2;
               total_loc := total_loc s2; total_size := ts;
               files_by_language := files_by_language s2;
               loc_by_language := loc_by_language s2;
               size_by_language := size_by_language s2;
               files_by_module := files_by_module s2 |} in
  match getitem file_data "language" with
  | Raise e => (stats_log e, s3)
  | Ok language =>
  match hashable language with
  | Raise e => (stats_log e, s3)
  | Ok _ =>
  let fresh := match kd_get (files_by_language s3) language with
               | Some _ => false
               | None => true
               end in
  let fbl := if fresh then kd_set (files_by_language s3) language (PInt 0)
             else files_by_language s3 in
  let lbl := if fresh then kd_set (loc_by_language s3) language (PInt 0)
             else loc_by_language s3 in
  let sbl := if fresh then kd_set (size_by_language s3) language (PInt 0)
             else size_by_language s3 in
  let mk f l z := {| total_files := total_files s3;
                     total_loc := total_loc s3; total_size := total_size s3;
                     files_by_language := f; loc_by_language := l;
                     size_by_language := z;
                     files_by_module := files_by_module s3 |} in
  match bump fbl language (PInt 1) with
  | Raise e => (stats_log e, mk fbl lbl sbl)
  | Ok fbl' =>
  match bump lbl language loc with
  | Raise e => (stats_log e, mk fbl' lbl sbl)
  | Ok lbl' =>
  match bump sbl language size with
  | Raise e => (stats_log e, mk fbl' lbl' sbl)
  | Ok sbl' => ([], mk fbl' lbl' sbl')
  end end end end end end end end end.

Definition stats_module (module_path : string) (module_data : list pyval)
    (acc : list event * stats) : list event * stats :=
  let '(t, s) := acc in
  let s' := {| total_files := total_files s;
               total_loc := total_loc s; total_size := total_size s;
               files_by_language := files_by_language s;
               loc_by_language := loc_by_language s;
               size_by_language := size_by_language s;
               files_by_module :=
                 (fix set (l : list (string * Z)) :=
                    match l with
                    | [] => [(module_path, Z.of_nat (List.length module_data))]
                    | (k, v) :: rest =>
                        if (k =? module_path)%string
                        then (k, Z.of_nat (List.length module_data)) :: rest
                        else (k, v) :: set rest
                    end) (files_by_module s) |} in
  fold_left (fun a file_data =>
               let '(t1, s1) := a in
               let '(t2, s2) := stats_file file_data s1 in
               (t1 ++ t2, s2))
            module_data (t, s').

Definition calculate_codebase_stats (codebase_data : codebase)
  : list event * stats :=
  fold_left (fun acc kv => stats_module (fst kv) (snd kv) acc)
            codebase_data ([], empty_stats).

(** [x in d] for a dict with string keys *)
Definition in_dict (x : pyval) (d : list (string * pyval)) : res bool :=
  match x with
  | PStr k => Ok (has_key d k)
  | PList _ | PDict _ => Raise TypeError
  | _ => Ok false
  end.

(** A name that was never bound because the [try] that assigns it failed. *)
Definition bound {A} (x : option A) : res A :=
  match x with Some a => Ok a | None => Raise OtherError end.

(** The cache lookup of [main]: when the path has an entry whose hash is
    the MD5 of the record's content, the record's analysis is replaced by
    the cached one. *)
Definition apply_cache (w : World) (analysis_cache : option cache_t)
    (file_data : pyval) : res pyval :=
  match getitem file_data "content" with Raise e => Raise e | Ok content =>
  match as_str AttributeError content with Raise e => Raise e | Ok s =>
  let file_hash := w_md5 w s in
  match getitem file_data "file_path" with Raise e => Raise e | Ok fp =>
  match bound analysis_cache with Raise e => Raise e | Ok cache =>
  match in_dict fp cache with Raise e => Raise e | Ok present =>
  if present then
    match getitem (PDict cache) (match fp with PStr k => k | _ => "" end) with
    | Raise e => Raise e
    | Ok entry =>
        match getitem entry "hash" with Raise e => Raise e | Ok h =>
        if eq_str h file_hash then
          match getitem entry "analysis" with
          | Raise e => Raise e
          | Ok analysis => setitem file_data "analysis" analysis
          end
        else Ok file_data
        end
    end
  else Ok file_data
  end end end end end.

Definition apply_doc_links (doc_links : option (list (string * pyval)))
    (module_path : string) (file_data : pyval) : res pyval :=
  match getitem file_data "file_path" with Raise e => Raise e | Ok fp =>
  match bound doc_links with Raise e => Raise e | Ok links =>
  match in_dict fp links with Raise e => Raise e | Ok present =>
  if present then
    match getitem (PDict links) (match fp with PStr k => k | _ => "" end) with
    | Raise e => Raise e
    | Ok link =>
        match setitem file_data "documentation" link with
        | Raise e => Raise e
        | Ok fd => setitem fd "module_path" (PStr module_path)
        end
    end
  else Ok file_data
  end end end.

Definition update_log (e : exn) : list event :=
  [EvLog ERROR (match e with
                | KeyError => "Error updating file data"
                | _ => "Unexpected error updating file data"
                end) ""].

(** One iteration of the update loop of [main]; the record is mutated in
    place, so what was assigned before an exception stays. *)
Definition update_file (w : World) (analysis_cache : option cache_t)
    (doc_links : option (list (string * pyval))) (module_path : string)
    (file_data : pyval) : list event * pyval :=
  match apply_cache w analysis_cache file_data with
  | Raise e => (update_log e, file_data)
  | Ok fd1 =>
      match apply_doc_links doc_links module_path fd1 with
      | Raise e => (update_log e, fd1)
      | Ok fd2 => ([], fd2)
      end
  end.

Fixpoint update_module (w : World) (analysis_cache : option cache_t)
    (doc_links : option (list (string * pyval))) (module_path : string)
    (module_data : list pyval) : list event * list pyval :=
  match module_data with
  | [] => ([], [])
  | file_data :: rest =>
      let '(t, fd) := update_file w analysis_cache doc_links module_path
                        file_data in
      let '(t', l) := update_module w analysis_cache doc_links module_path
                        rest in
      (t ++ t', fd :: l)
  end.

Fixpoint update_codebase (w : World) (analysis_cache : option cache_t)
    (doc_links : option (list (string * pyval))) (cd : codebase)
  : list event * codebase :=
  match cd with
  | [] => ([], [])
  | (module_path, module_data) :: rest =>
      let '(t, l) := update_module w analysis_cache doc_links module_path
                       module_data in
      let '(t', cd') := update_codebase w analysis_cache doc_links rest in
      (t ++ t', (module_path, l) :: cd')
  end.

Record config : Type := {
  root_dir : string;
  output_dir : string;
  doc_links_csv : string;
  graph_dir : string
}.

(** What a run of [main] computed; a stage that raised leaves None. *)
Record summary : Type := {
  codebase_data : codebase;
  skipped_files : option Z;
  dependency_graph : option digraph;
  lint_stats : option kdict;
  codebase_stats : option stats
}.

(** The two loads of [main] share one [try]: the second name stays unbound
    when its load raises, both when the first does. *)
Definition load_inputs (w : World) (cfg : config)
  : list event * option cache_t * option (list (string * pyval)) :=
  match load_analysis_cache (w_cache_file w) with
  | (t, Raise e) =>
      (t ++ [EvLog ERROR "Error loading analysis cache or documentation links" ""],
       None, None)
  | (t, Ok cache) =>
      match w_doc_links w (doc_links_csv cfg) with
      | Raise e =>
          (t ++ [EvLog ERROR
                   "Error loading analysis cache or documentation links" ""],
           Some cache, None)
      | Ok links => (t, Some cache, Some links)
      end
  end.

(** [main].  An exception that escapes it ends the process with a non-zero
    status; everything after the two set-up steps sits in [try] blocks.
    Building and drawing the call graph and drawing the dependency graph
    touch nothing that is modelled here and are left out. *)
Definition main (w : World) (cfg : config) : M summary :=
  lift (os_makedirs w (output_dir cfg)) ;;;
  lift (w_open_log w) ;;;
  match process_all_directories w (root_dir cfg) (output_dir cfg) with
  | (t, Raise e) =>
      (t ++ [EvLog ERROR "Error processing codebase" ""],
       Ok {| codebase_data := []; skipped_files := None;
             dependency_graph := None; lint_stats := None;
             codebase_stats := None |})
  | (t0, Ok cd0) =>
      let skipped := count_skipped_files cd0 in
      let '(t1, analysis_cache, doc_links) := load_inputs w cfg in
      let '(t2, cd) := update_codebase w analysis_cache doc_links cd0 in
      let '(t3, graph) := build_dependency_graph cd in
      let '(t4, lint) :=
        match analyze_lint_results cd with
        | Ok l => ([], Some l)
        | Raise e => ([EvLog ERROR "Error analyzing lint results" ""], None)
        end in
      let '(t5, st) := calculate_codebase_stats cd in
      let '(t6, _) :=
        try_except (cache_analysis_results w cd)
          (fun e => log ERROR "Error caching analysis results" "") in
      (t0 ++ t1 ++ t2 ++ t3 ++ t4 ++ t5 ++ t6,
       Ok {| codebase_data := cd; skipped_files := Some skipped;
             dependency_graph := Some graph; lint_stats := lint;
             codebase_stats := Some st |})
  end.

(** The module run as a script.  Its module-level statements come first and
    sit outside every [try]: the imports and, last of them,
    [nlp = spacy.load('en_core_web_lg')] (line 111), and under [__main__] the
    first [logging.basicConfig]; [startup] is what they give.  An exception
    there ends the process before [main] is entered.  Then comes
    [asyncio.run(main())]. *)
Definition script (startup : res unit) (w : World) (cfg : config)
  : M summary :=
  lift startup ;;; main w cfg.


(** The cache file after a run: the last write wins; without a write the
    file is as it was. *)
Fixpoint written_cache (t : list event) : option pyval :=
  match t with
  | [] => None
  | EvWriteCache c :: rest =>
      match written_cache rest with
      | Some c' => Some c'
      | None => Some c
      end
  | _ :: rest => written_cache rest
  end.

(** The records appended to module logs, in trace order. *)
Fixpoint appended (t : list event) : list (string * pyval) :=
  match t with
  | [] => []
  | EvAppend f line :: rest => (f, line) :: appended rest
  | _ :: rest => appended rest
  end.

Definition record_path (line : pyval) : pyval :=
  match line with
  | PDict d => match dict_get d "file_path" with Some v => v | None => PNone end
  | _ => PNone
  end.

(** ** The workers of a batch

    [executor.map] hands the tasks of a batch to the threads of a pool, and
    leaving the [with] block waits for all of them: the batches of a run
    follow one another, the tasks of one batch run side by side.  A task
    shares nothing with the others but the module logs, to which it only
    appends, so what it does is what [process_file_in_pool] does alone.

    [save_to_jsonl] takes no lock.  The text of a record goes through the
    buffer of the file object: it reaches the log in one write of the
    operating system when the buffer never fills before [close], and in one
    more for each time it does ([flushes line] times for the record
    [line]).  A write lands whole at the end of the file (append mode);
    between two of them the writes of other workers may land. *)

Record oswrite : Type := {
  ow_file : string;      (* the log written to *)
  ow_line : pyval;       (* the record the text belongs to *)
  ow_part : nat          (* which part of its text, from 0 *)
}.

(** The writes of one append, in order. *)
Definition parts (flushes : pyval -> nat) (a : string * pyval)
  : list oswrite :=
  map (fun i => {| ow_file := fst a; ow_line := snd a; ow_part := i |})
      (seq 0 (S (flushes (snd a)))).











(** ** Concrete worlds

    A small disk: directories in the order [os.walk] yields them, each with
    the files [rglob] finds below it, and per file its MIME type, its lexer
    name (empty: pygments fails) and its content. *)

Record file_desc : Type := {
  fd_path : string;
  fd_mime : string;
  fd_lexer : string;
  fd_content : string
}.

Fixpoint find_file (files : list file_desc) (p : string) : option file_desc :=
  match files with
  | [] => None
  | f :: rest => if (fd_path f =? p)%string then Some f else find_file rest p
  end.

Fixpoint strip_prefix (pre s : string) : option string :=
  match pre, s with
  | EmptyString, _ => Some s
  | String a pre', String b s' =>
      if Ascii.eqb a b then strip_prefix pre' s' else None
  | _, _ => None
  end.

Definition disk_world (tree : list (string * list string))
    (files : list file_desc) (makedirs_ok : bool)
    (cache : option (res (list (string * pyval)))) : World :=
  {| w_exists := fun p =>
       match find_file files p with
       | Some _ => true
       | None => mem_string p (map fst tree)
       end;
     w_is_dir := fun p => mem_string p (map fst tree);
     w_subdirs := fun p =>
       match tree with
       | (r, _) :: rest => if (r =? p)%string then map fst rest else []
       | [] => []
       end;
     w_rglob_files := fun p =>
       Ok (match find (fun e => (fst e =? p)%string) tree with
           | Some e => snd e
           | None => []
           end);
     w_relpath := fun p start =>
       if (p =? start)%string then "."
       else match strip_prefix (start ++ "/") p with
            | Some r => r
            | None => p
            end;
     w_filetype_guess := fun _ => Ok None;
     w_magic_from_file := fun p =>
       match find_file files p with
       | Some f => Ok (fd_mime f)
       | None => Raise OSError
       end;
     w_lexer_name := fun p =>
       match find_file files p with
       | Some f => if (fd_lexer f =? "")%string then Raise OtherError
                   else Ok (fd_lexer f)
       | None => Raise OSError
       end;
     w_read_utf8 := fun p =>
       match find_file files p with
       | Some f => Ok (fd_content f)
       | None => Raise OSError
       end;
     w_getsize := fun p =>
       match find_file files p with
       | Some f => Ok (N.of_nat (String.length (fd_content f)))
       | None => Raise OSError
       end;
     w_nlp := fun c => match c with PStr _ => Ok [] | _ => Raise TypeError end;
     w_call := fun _ _ => Ok (PList []);
     w_run := fun _ => Ok (0%Z, "[]", "");
     w_json_loads := fun s => if (s =? "[]")%string then Ok (PList [])
                              else Raise ValueError;
     w_makedirs := fun _ => if makedirs_ok then Ok tt else Raise PermissionError;
     w_open_write := fun _ => Ok tt;
     w_open_log := Ok tt;
     w_md5 := fun s => ("md5 of " ++ s)%string;
     w_cache_file := cache;
     w_doc_links := fun _ => Ok [] |}.

Definition demo_config : config :=
  {| root_dir := "repo"; output_dir := "out";
     doc_links_csv := "links.csv"; graph_dir := "graphs" |}.

(** A Python source file that libmagic reports as plain text. *)
Definition mod_py : file_desc :=
  {| fd_path := "repo/pkg/mod.py"; fd_mime := "text/plain";
     fd_lexer := "Python"; fd_content := "x = 1" |}.

Definition py_world : World :=
  disk_world [("repo/pkg", ["repo/pkg/mod.py"])] [mod_py] true None.

(** A well-formed record with a negative size. *)
Definition negative_size_record : pyval :=
  PDict [ ("file_path", PStr "a.py"); ("language", PStr "python");
          ("content", PStr "x"); ("analysis", PDict []);
          ("metadata", PDict [("size", PInt (-1))]) ].

(** A readable text file for which pygments fails. *)
Definition notes_txt : file_desc :=
  {| fd_path := "repo/pkg/notes.txt"; fd_mime := "text/plain";
     fd_lexer := ""; fd_content := "hello" |}.

Definition notes_world : World :=
  disk_world [("repo/pkg", ["repo/pkg/notes.txt"])] [notes_txt] true None.

(** A minimal record, as the resolver reads it. *)
Definition file_record (file_path : string) : pyval :=
  PDict [("file_path", PStr file_path)].

Definition two_modules : codebase :=
  [ ("moduleB", [file_record "moduleB/b.py"]);
    ("moduleA", [file_record "moduleA/a.py"; file_record "moduleA/b.py"]) ].

(** A cache file with an entry for a file that exists on disk outside the
    tree of this run. *)
Definition old_entry : pyval :=
  PDict [ ("hash", PStr "md5 of old"); ("analysis", PDict []);
          ("function_count", PInt 0); ("comment_density", PInt 0) ].

Definition old_txt : file_desc :=
  {| fd_path := "elsewhere/old.txt"; fd_mime := "text/plain";
     fd_lexer := "Text only"; fd_content := "old" |}.

Definition stale_world : World :=
  disk_world [("repo", ["repo/pkg/mod.py"]); ("repo/pkg", ["repo/pkg/mod.py"])]
    [mod_py; old_txt] true
    (Some (Ok [("elsewhere/old.txt", old_entry)])).



(** A cache file that holds the entry of an unchanged file. *)
Definition warm_entry : pyval :=
  PDict [ ("hash", PStr "md5 of x = 1");
          ("analysis", PDict [("entities", PList [])]);
          ("function_count", PInt 0); ("comment_density", PInt 0) ].

Definition warm_world : World :=
  disk_world [("repo", ["repo/pkg/mod.py"]); ("repo/pkg", ["repo/pkg/mod.py"])]
    [mod_py] true
    (Some (Ok [("repo/pkg/mod.py", warm_entry)])).

(** One directory holding one binary file. *)
Definition blob_bin : file_desc :=
  {| fd_path := "repo/blob.bin"; fd_mime := "application/octet-stream";
     fd_lexer := ""; fd_content := "" |}.

Definition blob_world : World :=
  disk_world [("repo", ["repo/blob.bin"])] [blob_bin] true None.






(** The record of [repo/pkg/mod.py], as [default_handler] builds it. *)
Definition mod_py_record : pyval :=
  record "repo/pkg/mod.py" (PStr "python") (PStr "x = 1")
    [("entities", PList [])] [("loc", PInt 1); ("size", PInt 5)] "pkg".

(** The world [w] with other parsing libraries. *)
Definition with_call (w : World)
    (call : string -> list pyval -> res pyval) : World :=
  {| w_exists := w_exists w; w_is_dir := w_is_dir w;
     w_subdirs := w_subdirs w; w_rglob_files := w_rglob_files w;
     w_relpath := w_relpath w; w_filetype_guess := w_filetype_guess w;
     w_magic_from_file := w_magic_from_file w;
     w_lexer_name := w_lexer_name w; w_read_utf8 := w_read_utf8 w;
     w_getsize := w_getsize w; w_nlp := w_nlp w; w_call := call;
     w_run := w_run w; w_json_loads := w_json_loads w;
     w_makedirs := w_makedirs w; w_open_write := w_open_write w;
     w_open_log := w_open_log w; w_md5 := w_md5 w;
     w_cache_file := w_cache_file w; w_doc_links := w_doc_links w |}.

(** An HTML page, and a world whose HTML parser reports its tags as a list
    and its attributes as a dict. *)
Definition index_html : file_desc :=
  {| fd_path := "repo/site/index.html"; fd_mime := "text/html";
     fd_lexer := "HTML"; fd_content := "<p>hi</p>" |}.

Definition html_world : World :=
  with_call
    (disk_world [("repo/site", ["repo/site/index.html"])] [index_html] true None)
    (fun name _ => if (name =? "attributes")%string then Ok (PDict [])
                   else Ok (PList [])).

(** ** Fixtures of the repository's unit tests *)

Definition import_record (file_path language : string) (imports : list string)
  : pyval :=
  PDict [ ("file_path", PStr file_path); ("language", PStr language);
          ("analysis", PDict [("imports", PList (map PStr imports))]) ].

(** [setUp] of [test_graph_management.py] *)
Definition test_codebase : codebase :=
  [ ("module1",
      [ import_record "module1/file1.py" "python" ["module2.util"];
        import_record "module1/main.js" "javascript" ["module2.feature"];
        import_record "module1/style.css" "css" [] ]);
    ("module2",
      [ import_record "module2/util.js" "javascript" [];
        import_record "module2/feature.ts" "typescript" [] ]) ].

(** [valid_json] and [invalid_json] of [test_data_validation.py] *)
Definition test_valid_json : pyval :=
  PDict [ ("file_path", PStr "example.py"); ("language", PStr "python");
          ("content", PStr "print('Hello, World!')"); ("analysis", PDict []);
          ("metadata", PDict [("size", PInt 24)]) ].

Definition test_invalid_json : pyval :=
  PDict [ ("file_path", PStr "example.py"); ("language", PStr "python");
          ("content", PStr "print('Hello, World!')") ].

(** ** Vocabulary of the statements *)

(** What [main] returns when the module map is empty. *)
Definition empty_summary : summary :=
  {| codebase_data := []; skipped_files := Some 0%Z;
     dependency_graph := Some empty_graph; lint_stats := Some [];
     codebase_stats := Some empty_stats |}.

Definition is_write_cache (ev : event) : bool :=
  match ev with EvWriteCache _ => true | _ => false end.

Definition no_write_cache (ev : event) : bool := negb (is_write_cache ev).

(** The set-up steps of [main] that sit outside every [try]. *)
Definition setup (w : World) (cfg : config) : res unit :=
  match os_makedirs w (output_dir cfg) with
  | Raise e => Raise e
  | Ok _ => w_open_log w
  end.

(** The record's path is a string that none of the paths is a suffix of. *)
Definition no_match (paths : list string) (data : pyval) : Prop :=
  exists p, getitem data "file_path" = Ok (PStr p) /\
            forall path, In path paths -> endswith p path = false.

Definition is_default (h : handler) : bool :=
  match h with h_default => true | _ => false end.

(** Handler events name [default_handler] only. *)
Definition only_default (ev : event) : bool :=
  match ev with EvHandler h _ => is_default h | _ => true end.

Definition is_log (ev : event) : bool :=
  match ev with EvLog _ _ _ => true | _ => false end.

Definition is_append (ev : event) : bool :=
  match ev with EvAppend _ _ => true | _ => false end.


(** Every event of the computation satisfies [P]. *)
Definition traced {A} (P : event -> bool) (m : M A) : Prop :=
  forallb P (trace m) = true.

Definition no_append (ev : event) : bool := negb (is_append ev).

(** A computation that appends nothing and yields no record: it returns
    None or raises. *)
Definition skips (m : M pyval) : Prop :=
  traced no_append m /\
  (result m = Ok PNone \/ exists e, result m = Raise e).

(** The linter a handler runs on a file, for the handlers that run one and
    store its parsed output as [lint_results]. *)
Definition linter_argv (h : handler) (file_path : string)
  : option (list string) :=
  match h with
  | h_python => Some ["pylint"; "--output-format=json"; file_path]
  | h_css => Some ["stylelint"; "--formatter=json"; file_path]
  | h_javascript => Some ["eslint"; "--format=json"; file_path]
  | h_typescript => Some ["tslint"; "--format=json"; file_path]
  | _ => None
  end.

(** The linter's standard output, when it is JSON at all, is a JSON array
    (a list of diagnostics). *)
Definition prints_array (w : World) (argv : list string) : Prop :=
  forall rc out err v,
    w_run w argv = Ok (rc, out, err) ->
    w_json_loads w out = Ok v ->
    exists l, v = PList l.

(** The final stage of [main] on the empty module map. *)
Definition final_write (w : World) : list event :=
  trace (try_except (cache_analysis_results w [])
           (fun e => log ERROR "Error caching analysis results" "")).


(** The claim on the cache file: an entry of the prior cache whose file
    still exists and was not processed in this run is in the cache the run
    writes. *)
Definition prior_entries_kept (w : World) (cfg : config) : Prop :=
  forall prior p e,
    w_cache_file w = Some (Ok prior) ->
    dict_get prior p = Some e ->
    w_exists w p = true ->
    (forall h, ~ In (EvHandler h p) (trace (main w cfg))) ->
    exists c, written_cache (trace (main w cfg)) = Some (PDict c) /\
              dict_get c p = Some e.

(** The claim on the warm cache: a file whose cache entry carries the hash
    of its present content gets no handler call. *)
Definition cache_hit_skips_handler (w : World) (cfg : config) : Prop :=
  forall prior p e content,
    w_cache_file w = Some (Ok prior) ->
    dict_get prior p = Some e ->
    w_read_utf8 w p = Ok content ->
    getitem e "hash" = Ok (PStr (w_md5 w content)) ->
    forall h, ~ In (EvHandler h p) (trace (main w cfg)).

(** The path recorded in each appended line. *)
Definition appended_paths (t : list event) : list pyval :=
  map (fun a => record_path (snd a)) (appended t).







(** ** utilities.py: the null-byte probe

    [is_binary] reads the file in chunks of [CHUNKSIZE] bytes and stops at
    the first chunk that holds a null byte or is shorter than a full chunk.
    [read_bytes] is what opening the file and reading it gives. *)

Definition CHUNKSIZE : nat := 1024.

Definition is_nul (b : Byte.byte) : bool := Byte.eqb b Byte.x00.

(** The [while True] loop; [fuel] bounds the number of reads. *)
Fixpoint scan_chunks (fuel : nat) (rest : list Byte.byte) : option bool :=
  match fuel with
  | O => None
  | S fuel' =>
      let chunk := firstn CHUNKSIZE rest in
      if existsb is_nul chunk then Some true
      else if Nat.ltb (List.length chunk) CHUNKSIZE then Some false
      else scan_chunks fuel' (skipn CHUNKSIZE rest)
  end.

Definition is_binary (read_bytes : string -> res (list Byte.byte))
    (file_path : string) : M bool :=
  match read_bytes file_path with
  | Ok content =>
      match scan_chunks (S (List.length content)) content with
      | Some b => ret b
      | None => ret false
      end
  | Raise e =>
      if is_OSError e then
        log ERROR "Error reading file" file_path ;;; ret false
      else raise e
  end.

(** The resolver's view of a record: its path is a string that ends with
    one of the candidate paths of the specifier. *)
Definition is_candidate (import_statement file_path : string) (data : pyval)
    (path : string) : Prop :=
  getitem data "file_path" = Ok (PStr path) /\
  exists ext, In ext (possible_extensions (path_suffix file_path)) /\
              endswith path (replace_dots import_statement ++ ext) = true.

(** [x] is the [file_path] of a record of the module map. *)
Definition record_path_of (cd : codebase) (x : pyval) : Prop :=
  exists data, In data (all_records cd) /\ getitem data "file_path" = Ok x.

(** The graph has a node [n]. *)
Definition has_node (g : digraph) (n : pyval) : bool :=
  match node_attrs (g_nodes g) n with Some _ => true | None => false end.

(** No record is written in a language whose imports are followed. *)
Definition no_import_language (cd : codebase) : Prop :=
  forall data s,
    In data (all_records cd) ->
    getitem data "language" = Ok (PStr s) ->
    mem_string s dependency_languages = false.

(** The integer under [metadata.k] of a record, 0 when there is none. *)
Definition int_field (k : string) (file_data : pyval) : Z :=
  match metadata_field file_data k with
  | Ok (PInt z) => z
  | _ => 0%Z
  end.

Definition sum_field (k : string) (l : list pyval) : Z :=
  fold_right (fun fd acc => (int_field k fd + acc)%Z) 0%Z l.

(** A record as the statistics expect it: integer [loc] and [size] and a
    string [language]. *)
Definition measurable (file_data : pyval) : Prop :=
  (exists loc, metadata_field file_data "loc" = Ok (PInt loc)) /\
  (exists size, metadata_field file_data "size" = Ok (PInt size)) /\
  (exists lang, getitem file_data "language" = Ok (PStr lang)).

(** What the schema demands of a record, spelled out. *)
Definition well_formed_record (v : pyval) : Prop :=
  exists d file_path language content analysis metadata size,
    v = PDict d /\
    dict_get d "file_path" = Some (PStr file_path) /\
    dict_get d "language" = Some (PStr language) /\
    dict_get d "content" = Some content /\
    (content = PNone \/ exists c, content = PStr c) /\
    dict_get d "analysis" = Some (PDict analysis) /\
    dict_get d "metadata" = Some (PDict metadata) /\
    dict_get metadata "size" = Some size /\
    has_type TInteger size = true.

(** The handlers that validate what they built before they return it. *)
Definition validating (h : handler) : bool :=
  match h with
  | h_python | h_javascript | h_html | h_css | h_typescript | h_jsx | h_vue =>
      true
  | _ => false
  end.

(** What the computation returns is None or satisfies the schema. *)
Definition returns_valid (m : M pyval) : Prop :=
  forall v, result m = Ok v -> v = PNone \/ valid schema v = true.

(** Every line the computation appends satisfies [Q]. *)
Definition appends_only (Q : string -> pyval -> Prop) (m : M unit) : Prop :=
  forall o line, In (o, line) (appended (trace m)) -> Q o line.

(** What holds of a line that [process_file] appends for [file_path]. *)
Definition persisted_ok (w : World) (file_path module_path out : string)
    (o : string) (line : pyval) : Prop :=
  o = (out ++ "/" ++ module_path ++ ".jsonl")%string /\
  module_path <> "" /\
  getitem line "file_path" = Ok (PStr file_path) /\
  getitem line "module_path" = Ok (PStr module_path) /\
  getitem line "language" = result (guess_language w file_path) /\
  (exists metadata n,
      getitem line "metadata" = Ok (PDict metadata) /\
      dict_get metadata "size" = Some (PInt (Z.of_N n)) /\
      w_getsize w file_path = Ok n) /\
  (getitem line "content" = Ok PNone \/
   exists s, getitem line "content" = Ok (PStr s) /\
             w_read_utf8 w file_path = Ok s).

Definition no_run (ev : event) : bool :=
  match ev with EvRun _ => false | _ => true end.

(** The handlers that give up on a file they could not read before they
    start any tool. *)
Definition guards_content (h : handler) : bool :=
  match h with
  | h_typescript | h_jsx | h_vue => true
  | _ => false
  end.

(** The cache as the next run loads it: what [json.dump] wrote. *)
Definition as_loaded (c : cache_t) : cache_t :=
  map (fun kv => (fst kv, to_json (snd kv))) c.

(** Every value of the dict is an integer. *)
Definition ints (d : kdict) : Prop :=
  forall k v, In (k, v) d -> exists z, v = PInt z.

(** * Properties *)

Section MonadFacts.
Context {A B : Type}.

Lemma trace_bind (m : M A) (f : A -> M B) :
  trace (bind m f) =
  trace m ++ match result m with
             | Ok a => trace (f a)
             | Raise _ => []
             end.
Proof.
  destruct m as [t [a | e]]; unfold bind, trace, result; simpl.
  - destruct (f a); reflexivity.
  - now rewrite app_nil_r.
Qed.

Lemma result_bind (m : M A) (f : A -> M B) :
  result (bind m f) =
  match result m with
  | Ok a => result (f a)
  | Raise e => Raise e
  end.
Proof.
  destruct m as [t [a | e]]; unfold bind, result; simpl; auto.
  destruct (f a); reflexivity.
Qed.

Lemma trace_try (m : M A) (h : exn -> M A) :
  trace (try_except m h) =
  trace m ++ match result m with
             | Ok _ => []
             | Raise e => trace (h e)
             end.
Proof.
  destruct m as [t [a | e]]; unfold try_except, trace, result; simpl.
  - now rewrite app_nil_r.
  - destruct (h e); reflexivity.
Qed.

Lemma result_try (m : M A) (h : exn -> M A) :
  result (try_except m h) =
  match result m with
  | Ok a => Ok a
  | Raise e => result (h e)
  end.
Proof.
  destruct m as [t [a | e]]; unfold try_except, result; simpl; auto.
  destruct (h e); reflexivity.
Qed.
End MonadFacts.

Lemma mem_string_In (s : string) (l : list string) :
  mem_string s l = true <-> In s l.
Proof.
  unfold mem_string. rewrite existsb_exists. split.
  - intros [x [Hin Heq]]. apply String.eqb_eq in Heq. now subst.
  - intros Hin. exists s. split; [assumption | apply String.eqb_refl].
Qed.

Lemma appended_app (t1 t2 : list event) :
  appended (t1 ++ t2) = appended t1 ++ appended t2.
Proof.
  induction t1 as [| ev t1 IH]; simpl; [reflexivity |].
  destruct ev; simpl; now rewrite ?IH.
Qed.

Lemma logs_not_appended (t : list event) :
  forallb is_log t = true -> appended t = [].
Proof.
  induction t as [| ev t IH]; simpl; [reflexivity |].
  destruct ev; simpl; try discriminate. exact IH.
Qed.

Lemma logs_no_handler (t : list event) (h : handler) (p : string) :
  forallb is_log t = true -> ~ In (EvHandler h p) t.
Proof.
  intros Hl Hin. rewrite forallb_forall in Hl. now apply Hl in Hin.
Qed.

(** *** Classification *)

(** What [guess_file_type] says decides [is_binary_file], which never
    raises. *)
Lemma is_binary_file_result (w : World) (file_path : string) :
  result (is_binary_file w file_path) =
  Ok (negb match result (guess_file_type w file_path) with
           | Ok (Some t) => mem_string t text_types
           | _ => false
           end).
Proof.
  unfold is_binary_file, is_text_file.
  destruct (guess_file_type w file_path) as [t [[m |] | e]]; simpl;
    try reflexivity.
  destruct (mem_string m text_types); reflexivity.
Qed.

Lemma guess_file_type_logs (w : World) (file_path : string) :
  forallb is_log (trace (guess_file_type w file_path)) = true.
Proof.
  unfold guess_file_type.
  destruct (w_filetype_guess w file_path) as [[mime |] | e]; simpl.
  - destruct (mime =? "")%string; simpl; [| reflexivity].
    destruct (w_magic_from_file w file_path) as [mt | e]; simpl.
    + destruct (mt =? "")%string; reflexivity.
    + destruct e; reflexivity.
  - destruct (w_magic_from_file w file_path) as [mt | e]; simpl.
    + destruct (mt =? "")%string; reflexivity.
    + destruct e; reflexivity.
  - destruct e; reflexivity.
Qed.

Lemma is_binary_file_logs (w : World) (file_path : string) :
  forallb is_log (trace (is_binary_file w file_path)) = true.
Proof.
  unfold is_binary_file, is_text_file.
  pose proof (guess_file_type_logs w file_path) as Hg.
  destruct (guess_file_type w file_path) as [t [[m |] | e]]; simpl in *.
  - destruct (mem_string m text_types); simpl; now rewrite !app_nil_r.
  - now rewrite !app_nil_r.
  - rewrite app_nil_r, forallb_app, Hg. reflexivity.
Qed.

Lemma async_read_binary (w : World) (file_path : string) :
  result (is_binary_file w file_path) = Ok true ->
  result (async_read w file_path) = Ok PNone.
Proof.
  intros H. unfold async_read. rewrite result_bind, H. reflexivity.
Qed.

Lemma process_file_binary (w : World) (file_path module_path out : string) :
  result (is_binary_file w file_path) = Ok true ->
  forallb is_log (trace (process_file w file_path module_path out)) = true.
Proof.
  intros H. unfold process_file, process_file_body.
  rewrite trace_try.
  destruct (w_exists w file_path); simpl.
  - rewrite trace_bind, result_bind, H. simpl.
    rewrite !app_nil_r. apply is_binary_file_logs.
  - reflexivity.
Qed.

(** C10: [is_binary_file] answers False exactly for the six MIME types of
    [text_types]; every other outcome of the detection (another type, no
    type, an error) makes it answer True, and then [process_file] returns
    without calling a handler or appending a record, and [async_read]
    returns None. *)
Theorem is_binary_file_six_types :
  forall (w : World) (file_path module_path out : string),
    (result (is_binary_file w file_path) = Ok false <->
     exists t, result (guess_file_type w file_path) = Ok (Some t) /\
       (t = "text/plain" \/ t = "text/html" \/ t = "text/css" \/
        t = "text/javascript" \/ t = "application/json" \/
        t = "application/xml")) /\
    (result (is_binary_file w file_path) = Ok false \/
     result (is_binary_file w file_path) = Ok true) /\
    (result (is_binary_file w file_path) = Ok true ->
       appended (trace (process_file w file_path module_path out)) = [] /\
       (forall h, ~ In (EvHandler h file_path)
                    (trace (process_file w file_path module_path out))) /\
       result (async_read w file_path) = Ok PNone).
Proof.
  intros w file_path module_path out.
  rewrite is_binary_file_result.
  split; [| split].
  - split.
    + intros H. destruct (result (guess_file_type w file_path)) as [[t |] | e];
        try discriminate.
      exists t. split; [reflexivity |].
      destruct (mem_string t text_types) eqn:Hm; [| discriminate].
      apply mem_string_In in Hm. simpl in Hm. intuition.
    + intros [t [Ht Hin]]. rewrite Ht.
      assert (Hm : mem_string t text_types = true).
      { apply mem_string_In. simpl. intuition. }
      now rewrite Hm.
  - destruct (result (guess_file_type w file_path)) as [[t |] | e]; auto.
    destruct (mem_string t text_types); auto.
  - intros H. rewrite <- is_binary_file_result in H.
    pose proof (process_file_binary w file_path module_path out H) as Hl.
    split; [now apply logs_not_appended |].
    split; [intros h; now apply logs_no_handler |].
    now apply async_read_binary.
Qed.

(** *** Traces, compositionally *)

Section Traced.
Context {A B : Type} (P : event -> bool).

Lemma traced_ret (a : A) : traced P (ret a).
Proof. reflexivity. Qed.

Lemma traced_raise (e : exn) : traced P (@raise A e).
Proof. reflexivity. Qed.

Lemma traced_lift (r : res A) : traced P (lift r).
Proof. reflexivity. Qed.

Lemma traced_emit (ev : event) : P ev = true -> traced P (emit ev).
Proof. intros H. unfold traced, emit, trace. simpl. now rewrite H. Qed.

Lemma traced_bind (m : M A) (f : A -> M B) :
  traced P m -> (forall a, traced P (f a)) -> traced P (bind m f).
Proof.
  unfold traced. intros Hm Hf. rewrite trace_bind, forallb_app, Hm.
  destruct (result m); simpl; auto.
Qed.

Lemma traced_try (m : M A) (h : exn -> M A) :
  traced P m -> (forall e, traced P (h e)) -> traced P (try_except m h).
Proof.
  unfold traced. intros Hm Hh. rewrite trace_try, forallb_app, Hm.
  destruct (result m); simpl; auto.
Qed.
End Traced.

(** Splits a traced goal along the structure of the code. *)
Ltac traced_step :=
  first
    [ apply traced_ret
    | apply traced_raise
    | apply traced_lift
    | apply traced_emit; reflexivity
    | apply traced_bind; [| intros ? ]
    | apply traced_try; [| intros ? ]
    | match goal with
      | |- traced _ (if ?c then _ else _) => destruct c
      | |- traced _ (match ?x with _ => _ end) => destruct x
      end ].

Section TracedCode.
Variable P : event -> bool.
Hypothesis P_log : forall l m a, P (EvLog l m a) = true.

Lemma traced_log l m a : traced P (log l m a).
Proof. apply traced_emit, P_log. Qed.

Ltac go := repeat first [ apply traced_log | traced_step ].

Lemma traced_guess_file_type w f : traced P (guess_file_type w f).
Proof. unfold guess_file_type. go. Qed.

Lemma traced_guess_language w f : traced P (guess_language w f).
Proof. unfold guess_language. go. Qed.

Lemma traced_is_binary_file w f : traced P (is_binary_file w f).
Proof.
  unfold is_binary_file, is_text_file.
  go; apply traced_guess_file_type.
Qed.

Lemma traced_async_read w f : traced P (async_read w f).
Proof.
  unfold async_read, read_text_file.
  go; apply traced_is_binary_file.
Qed.

Lemma traced_validate_json d : traced P (validate_json d).
Proof. unfold validate_json. go. Qed.

Lemma traced_calculate_function_count d :
  traced P (calculate_function_count d).
Proof. unfold calculate_function_count. go. Qed.

Lemma traced_calculate_comment_density d :
  traced P (calculate_comment_density d).
Proof. unfold calculate_comment_density. go. Qed.

Hypothesis P_nlp : forall c, P (EvNlp c) = true.

Lemma traced_nlp_entities w c : traced P (nlp_entities w c).
Proof. unfold nlp_entities. go. apply traced_emit, P_nlp. Qed.

Ltac go' :=
  repeat first [ apply traced_log | apply traced_async_read
               | apply traced_nlp_entities | apply traced_validate_json
               | traced_step ].

Lemma traced_default_handler w f mp lang :
  traced P (default_handler w f mp lang).
Proof. unfold default_handler, or_none. go'. Qed.

Lemma traced_process_text_file w f mp lang :
  traced P (process_text_file w f mp lang).
Proof. unfold process_text_file, or_none. go'. Qed.

Lemma traced_process_json_file w f mp lang :
  traced P (process_json_file w f mp lang).
Proof. unfold process_json_file, or_none. go'. Qed.

Lemma traced_process_markdown_file w f mp lang :
  traced P (process_markdown_file w f mp lang).
Proof. unfold process_markdown_file, or_none. go'. Qed.

Lemma traced_process_yaml_file w f mp lang :
  traced P (process_yaml_file w f mp lang).
Proof. unfold process_yaml_file, or_none. go'. Qed.

Lemma traced_process_xml_file w f mp lang :
  traced P (process_xml_file w f mp lang).
Proof. unfold process_xml_file, or_none. go'. Qed.

Lemma traced_process_document_file w f mp lang :
  traced P (process_document_file w f mp lang).
Proof. unfold process_document_file, or_none. go'. Qed.

Hypothesis P_run : forall argv, P (EvRun argv) = true.
Hypothesis P_append : forall f l, P (EvAppend f l) = true.

Lemma traced_subprocess_run w argv : traced P (subprocess_run w argv).
Proof. unfold subprocess_run. go. apply traced_emit, P_run. Qed.

Lemma traced_save_to_jsonl w d f : traced P (save_to_jsonl w d f).
Proof. unfold save_to_jsonl. go. apply traced_emit, P_append. Qed.

Lemma traced_validate_and_save w d f mp :
  traced P (validate_and_save w d f mp).
Proof.
  unfold validate_and_save.
  repeat first [ apply traced_log | apply traced_validate_json
               | apply traced_save_to_jsonl | traced_step ].
Qed.

Ltac go'' :=
  repeat first [ apply traced_log | apply traced_async_read
               | apply traced_nlp_entities | apply traced_subprocess_run
               | apply traced_validate_and_save | traced_step ].

Lemma traced_call_handler w h f mp lang :
  traced P (call_handler w h f mp lang).
Proof.
  destruct h; simpl;
    first [ apply traced_default_handler | apply traced_process_text_file
          | apply traced_process_json_file | apply traced_process_markdown_file
          | apply traced_process_yaml_file | apply traced_process_xml_file
          | apply traced_process_document_file | apply traced_raise
          | idtac ].
  - unfold process_python_file, or_none. go''.
  - unfold process_javascript_file, or_none. go''.
  - unfold process_html_file, or_none. go''.
  - unfold process_css_file, or_none. go''.
  - unfold process_typescript_file, or_none. go''.
  - unfold process_jsx_file, process_node_parsed, or_none. go''.
  - unfold process_vue_file, process_node_parsed, or_none. go''.
Qed.

Hypothesis P_handler : forall h f, P (EvHandler h f) = true.

Lemma traced_process_file w f mp out : traced P (process_file w f mp out).
Proof.
  unfold process_file, process_file_body, finish_record.
  repeat first [ apply traced_log | apply traced_is_binary_file
               | apply traced_guess_file_type | apply traced_guess_language
               | apply traced_call_handler | apply traced_nlp_entities
               | apply traced_calculate_function_count
               | apply traced_calculate_comment_density
               | apply traced_save_to_jsonl
               | apply traced_emit, P_handler
               | traced_step ].
Qed.

Lemma traced_process_file_in_pool w args :
  traced P (process_file_in_pool w args).
Proof.
  destruct args as [[f mp] out]. unfold process_file_in_pool.
  apply traced_try; [apply traced_process_file | intros; apply traced_log].
Qed.

Lemma forallb_run_tasks w tasks : forallb P (run_tasks w tasks) = true.
Proof.
  induction tasks as [| a tasks IH]; simpl; [reflexivity |].
  rewrite forallb_app, IH, andb_true_r. apply traced_process_file_in_pool.
Qed.

Lemma traced_process_directory_concurrently w d r out :
  traced P (process_directory_concurrently w d r out).
Proof.
  unfold process_directory_concurrently.
  apply traced_bind; [| intros; apply traced_ret].
  apply traced_try; [| intros; apply traced_log].
  apply traced_bind; [apply traced_lift |].
  intros l. apply forallb_run_tasks.
Qed.
End TracedCode.

Lemma traced_bind_result {A B} (P : event -> bool) (m : M A) (f : A -> M B) :
  traced P m -> (forall a, result m = Ok a -> traced P (f a)) ->
  traced P (bind m f).
Proof.
  unfold traced. intros Hm Hf. rewrite trace_bind, forallb_app, Hm.
  destruct (result m); simpl; auto.
Qed.

(** *** Dispatch *)

(** None of the six text types is a key of the table. *)
Lemma text_type_default (t : string) :
  mem_string t text_types = true -> select_handler (Some t) = h_default.
Proof.
  intros H. apply mem_string_In in H. simpl in H.
  repeat (destruct H as [H | H]; [subst t; reflexivity |]).
  contradiction.
Qed.

(** A file that passes the binary gate was given one of the six types. *)
Lemma text_gate (w : World) (file_path : string) (ft : option string) :
  result (is_binary_file w file_path) = Ok false ->
  result (guess_file_type w file_path) = Ok ft ->
  exists t, ft = Some t /\ mem_string t text_types = true.
Proof.
  intros Hb Hft. rewrite is_binary_file_result, Hft in Hb.
  destruct ft as [t |]; [| discriminate].
  exists t. split; [reflexivity |].
  destruct (mem_string t text_types); [reflexivity | discriminate].
Qed.

Lemma process_file_only_default (w : World) (file_path module_path out : string) :
  traced only_default (process_file w file_path module_path out).
Proof.
  assert (Hlog : forall l m a, only_default (EvLog l m a) = true)
    by reflexivity.
  unfold process_file, process_file_body, finish_record.
  apply traced_try; [| intros e; destruct e; now apply traced_log].
  destruct (w_exists w file_path); cbn [negb]; [| now apply traced_log].
  apply traced_bind_result; [now apply traced_is_binary_file |].
  intros [|] Hb; [apply traced_ret |].
  apply traced_bind_result; [now apply traced_guess_file_type |].
  intros ft Hft.
  destruct (text_gate w file_path ft Hb Hft) as [t [-> Ht]].
  rewrite (text_type_default t Ht).
  apply traced_bind; [now apply traced_guess_language |].
  intros language.
  repeat first [ now apply traced_log
               | now apply traced_call_handler
               | now apply traced_nlp_entities
               | now apply traced_calculate_function_count
               | now apply traced_calculate_comment_density
               | now apply traced_save_to_jsonl
               | traced_step ].
Qed.

(** C2 (the code at the failing input, and in general): the table maps the
    extension [.py] to the Python handler, yet [process_file] looks the
    table up with the MIME type; so whatever the world and the file, the
    only handler it ever calls is [default_handler], and for the Python
    file [repo/pkg/mod.py] it does call it. *)
Theorem py_file_gets_default_handler :
  lookup_handler FILE_TYPE_HANDLERS (path_suffix "repo/pkg/mod.py")
    = Some h_python /\
  (forall (w : World) (file_path module_path out : string) (h : handler)
          (p : string),
      In (EvHandler h p) (trace (process_file w file_path module_path out)) ->
      h = h_default) /\
  In (EvHandler h_default "repo/pkg/mod.py")
     (trace (process_file py_world "repo/pkg/mod.py" "pkg" "out")) /\
  ~ In (EvHandler h_python "repo/pkg/mod.py")
       (trace (process_file py_world "repo/pkg/mod.py" "pkg" "out")).
Proof.
  assert (G : forall (w : World) (file_path module_path out : string)
                     (h : handler) (p : string),
             In (EvHandler h p)
                (trace (process_file w file_path module_path out)) ->
             h = h_default).
  { intros w file_path module_path out h p Hin.
    pose proof (process_file_only_default w file_path module_path out) as Ht.
    unfold traced in Ht. rewrite forallb_forall in Ht.
    apply Ht in Hin. simpl in Hin. now destruct h. }
  split; [reflexivity |].
  split; [exact G |].
  split.
  - vm_compute. auto.
  - intros Hin. apply G in Hin. discriminate.
Qed.

(** *** Validation *)

Lemma valid_property_false (types : list jtype)
    (properties : list (string * schema_t)) (required : list string)
    (d : list (string * pyval)) (k : string) (sk : schema_t) (x : pyval) :
  In (k, sk) properties -> dict_get d k = Some x -> valid sk x = false ->
  valid (Schema types properties required) (PDict d) = false.
Proof.
  intros Hin Hget Hbad. cbn [valid].
  apply andb_false_iff. right.
  apply andb_false_iff. right.
  destruct (forallb _ properties) eqn:Hall; [| reflexivity].
  rewrite forallb_forall in Hall. specialize (Hall _ Hin).
  cbn beta iota in Hall. rewrite Hget in Hall. congruence.
Qed.

(** A record whose [lint_results] is None or a list does not validate. *)
Lemma record_invalid (file_path : string) (language content : pyval)
    (analysis metadata : list (string * pyval)) (module_path : string)
    (lr : pyval) :
  dict_get analysis "lint_results" = Some lr ->
  lr = PNone \/ (exists l, lr = PList l) ->
  valid schema (record file_path language content analysis metadata module_path)
  = false.
Proof.
  intros Hget Hlr. unfold schema, record.
  eapply valid_property_false with (k := "analysis") (x := PDict analysis).
  - simpl. do 3 right. left. reflexivity.
  - reflexivity.
  - eapply valid_property_false with (k := "lint_results") (x := lr).
    + simpl. do 3 right. left. reflexivity.
    + exact Hget.
    + destruct Hlr as [-> | [l ->]]; reflexivity.
Qed.

Lemma validate_json_invalid_record (file_path : string)
    (language content : pyval) (analysis metadata : list (string * pyval))
    (module_path : string) :
  valid schema (record file_path language content analysis metadata module_path)
  = false ->
  validate_json (record file_path language content analysis metadata module_path)
  = ([EvLog ERROR "Validation error" ""], Ok false).
Proof.
  intros H. unfold validate_json. rewrite H. reflexivity.
Qed.

Lemma result_subprocess_run (w : World) (argv : list string) :
  result (subprocess_run w argv) = w_run w argv.
Proof.
  unfold subprocess_run. rewrite result_bind. reflexivity.
Qed.

Lemma lint_results_none_or_array (w : World) (argv : list string)
    (lint : Z * string * string) (lr : pyval) :
  prints_array w argv ->
  w_run w argv = Ok lint -> lint_results_of w lint = Ok lr ->
  lr = PNone \/ (exists l, lr = PList l).
Proof.
  intros Harr Hrun Hlr. destruct lint as [[rc out] err].
  unfold lint_results_of in Hlr.
  destruct (rc =? 0)%Z.
  - right. eapply Harr; eassumption.
  - left. congruence.
Qed.

Lemma skips_bind {A} (m : M A) (f : A -> M pyval) :
  traced no_append m -> (forall a, result m = Ok a -> skips (f a)) ->
  skips (bind m f).
Proof.
  intros Hm Hf. split.
  - apply traced_bind_result; [exact Hm |]. intros a Ha. apply (Hf a Ha).
  - rewrite result_bind. destruct (result m) as [a | e].
    + apply (Hf a eq_refl).
    + right. now exists e.
Qed.

Lemma skips_none_after {A} (m : M A) :
  traced no_append m -> skips (bind m (fun _ => ret PNone)).
Proof.
  intros Hm. apply skips_bind; [exact Hm |].
  intros a _. split; [reflexivity | now left].
Qed.

Lemma skips_or_none (what file_path : string) (m : M pyval) :
  skips m ->
  result (or_none what file_path m) = Ok PNone /\
  appended (trace (or_none what file_path m)) = [].
Proof.
  intros [Ht Hr]. unfold or_none. rewrite result_try, trace_try, appended_app.
  unfold traced in Ht.
  assert (Ha : appended (trace m) = []).
  { clear Hr. induction (trace m) as [| ev t IH]; [reflexivity |].
    simpl in Ht. apply andb_true_iff in Ht as [Hev Ht].
    destruct ev; simpl in *; try discriminate; auto. }
  rewrite Ha. destruct Hr as [-> | [e ->]]; simpl; auto.
Qed.

Lemma validate_and_save_skips (w : World) (file_path : string)
    (language content : pyval) (analysis metadata : list (string * pyval))
    (module_path : string) (lr : pyval) :
  dict_get analysis "lint_results" = Some lr ->
  lr = PNone \/ (exists l, lr = PList l) ->
  skips (validate_and_save w
           (record file_path language content analysis metadata module_path)
           file_path module_path).
Proof.
  intros Hget Hlr. unfold validate_and_save.
  rewrite (validate_json_invalid_record _ _ _ _ _ _
             (record_invalid _ _ _ _ _ _ _ Hget Hlr)).
  split; [reflexivity | now left].
Qed.

Ltac quiet :=
  first [ now apply traced_async_read
        | now apply traced_nlp_entities
        | now apply traced_subprocess_run
        | now apply traced_log
        | apply traced_lift ].

Ltac skip_chain :=
  repeat (apply skips_bind; [quiet | intros ? ?]).

Ltac skip_end w argv :=
  match goal with
  | Harr : prints_array w argv,
    Hrun : result (subprocess_run w argv) = Ok ?lint,
    Hlr : result (lift (lint_results_of w ?lint)) = Ok ?v |- _ =>
      rewrite result_subprocess_run in Hrun;
      apply validate_and_save_skips with (lr := v);
      [ reflexivity
      | exact (lint_results_none_or_array w argv lint v Harr Hrun Hlr) ]
  end.

Lemma lint_handler_skips (w : World) (h : handler)
    (file_path module_path : string) (language : pyval) (argv : list string) :
  linter_argv h file_path = Some argv ->
  prints_array w argv ->
  result (call_handler w h file_path module_path language) = Ok PNone /\
  appended (trace (call_handler w h file_path module_path language)) = [].
Proof.
  intros Hargv Harr.
  destruct h; try discriminate; injection Hargv as <-; cbn [call_handler].
  - apply skips_or_none. skip_chain.
    skip_end w ["pylint"; "--output-format=json"; file_path].
  - apply skips_or_none. skip_chain.
    skip_end w ["eslint"; "--format=json"; file_path].
  - apply skips_or_none. skip_chain.
    skip_end w ["stylelint"; "--formatter=json"; file_path].
  - apply skips_or_none.
    apply skips_bind; [quiet | intros content _].
    destruct content;
      try (skip_chain; skip_end w ["tslint"; "--format=json"; file_path]).
    apply skips_none_after. quiet.
Qed.

(** C9: for the Python, CSS, JavaScript and TypeScript handlers, whose
    linter prints a JSON array: the [lint_results] they store is None (the
    linter exited non-zero) or that array; neither is an object, so
    [validate_json] answers False on any record holding it, and the handler
    returns None without appending the record. *)
Theorem lint_results_never_validate :
  forall (w : World) (h : handler) (file_path module_path : string)
         (language : pyval) (argv : list string),
    linter_argv h file_path = Some argv ->
    prints_array w argv ->
    (forall lint lr content analysis metadata,
        w_run w argv = Ok lint ->
        lint_results_of w lint = Ok lr ->
        dict_get analysis "lint_results" = Some lr ->
        (lr = PNone \/ exists l, lr = PList l) /\
        valid schema (record file_path language content analysis metadata
                        module_path) = false /\
        result (validate_json
                  (record file_path language content analysis metadata
                     module_path)) = Ok false) /\
    result (call_handler w h file_path module_path language) = Ok PNone /\
    appended (trace (call_handler w h file_path module_path language)) = [].
Proof.
  intros w h file_path module_path language argv Hargv Harr.
  split; [| now apply lint_handler_skips with (argv := argv)].
  intros lint lr content analysis metadata Hrun Hlr Hget.
  pose proof (lint_results_none_or_array w argv lint lr Harr Hrun Hlr) as Hlr'.
  pose proof (record_invalid file_path language content analysis metadata
                module_path lr Hget Hlr') as Hbad.
  repeat split; try assumption.
  now rewrite (validate_json_invalid_record _ _ _ _ _ _ Hbad).
Qed.

(** C6 (the code at the failing input): [validate_json] accepts a record
    whose [metadata.size] is negative, which [validate_data] rejects; on a
    record without [file_path] it raises KeyError instead of answering
    False; and [process_file] appends the record of [default_handler],
    which nothing validates, with a null [language] when the lexer lookup
    fails. *)
Theorem validate_json_accepts_negative_size :
  result (validate_json negative_size_record) = Ok true /\
  result (validate_data negative_size_record) = Ok false /\
  result (validate_json (PDict [])) = Raise KeyError /\
  exists line,
    appended (trace (process_file notes_world "repo/pkg/notes.txt" "pkg" "out"))
      = [("out/pkg.jsonl", line)] /\
    getitem line "language" = Ok PNone.
Proof.
  split; [reflexivity |].
  split; [reflexivity |].
  split; [reflexivity |].
  eexists. split; [vm_compute; reflexivity | reflexivity].
Qed.

(** *** Import resolution *)

Lemma first_match_skips (paths : list string) (pre : list pyval)
    (data : pyval) (post : list pyval) (p : string) :
  (forall r, In r pre -> no_match paths r) ->
  getitem data "file_path" = Ok (PStr p) ->
  existsb (endswith p) paths = true ->
  first_match paths (pre ++ data :: post) = Ok (Some (PStr p)).
Proof.
  intros Hpre Hget Hm.
  induction pre as [| r pre IH]; simpl.
  - unfold matches. now rewrite Hget, Hm.
  - destruct (Hpre r (or_introl eq_refl)) as [q [Hq Hno]].
    unfold matches at 1. rewrite Hq.
    assert (Hex : existsb (endswith q) paths = false).
    { destruct (existsb (endswith q) paths) eqn:E; [| reflexivity].
      apply existsb_exists in E as [path [Hin Hend]].
      rewrite (Hno path Hin) in Hend. discriminate. }
    rewrite Hex. apply IH. intros r' Hin. apply Hpre. now right.
Qed.

(** C7: when the records of the importer's own module (the entry of the
    module map under the importer's parent directory) contain a file whose
    path ends with a candidate path of the specifier, and no record before
    it in that module does, [resolve_import] returns that file, whatever
    the other modules hold and wherever they stand in the map. *)
Theorem resolve_import_same_module_first :
  forall (codebase_data : codebase) (import_statement file_path : string)
         (pre post : list pyval) (target : pyval) (target_path ext : string),
    codebase_get codebase_data (path_parent file_path)
      = Some (pre ++ target :: post) ->
    (forall r, In r pre ->
               no_match (possible_paths import_statement file_path) r) ->
    getitem target "file_path" = Ok (PStr target_path) ->
    In ext (possible_extensions (path_suffix file_path)) ->
    endswith target_path (replace_dots import_statement ++ ext) = true ->
    resolve_import import_statement file_path codebase_data
      = ([], Ok (PStr target_path)).
Proof.
  intros cd imp fp pre post target tp ext Hmod Hpre Hget Hext Hend.
  unfold resolve_import. rewrite Hmod.
  rewrite (first_match_skips _ pre target post tp Hpre Hget).
  - reflexivity.
  - apply existsb_exists. exists (replace_dots imp ++ ext)%string.
    split; [| exact Hend].
    unfold possible_paths.
    apply (in_map (fun e => (replace_dots imp ++ e)%string)). exact Hext.
Qed.

Lemma resolve_import_same_module_first_witness :
  resolve_import "b" "moduleA/a.py" two_modules
    = ([], Ok (PStr "moduleA/b.py")).
Proof.
  apply (resolve_import_same_module_first two_modules "b" "moduleA/a.py"
           [file_record "moduleA/a.py"] [] (file_record "moduleA/b.py")
           "moduleA/b.py" ".py").
  - reflexivity.
  - intros r [<- | []]. exists "moduleA/a.py". split; [reflexivity |].
    intros path Hin. vm_compute in Hin.
    repeat (destruct Hin as [<- | Hin]; [reflexivity |]). destruct Hin.
  - reflexivity.
  - simpl. auto.
  - reflexivity.
Defined.

Lemma lint_results_never_validate_witness :
  result (call_handler py_world h_python "repo/pkg/mod.py" "pkg"
            (PStr "python")) = Ok PNone /\
  appended (trace (call_handler py_world h_python "repo/pkg/mod.py" "pkg"
                     (PStr "python"))) = [].
Proof.
  apply (lint_results_never_validate py_world h_python "repo/pkg/mod.py" "pkg"
           (PStr "python") ["pylint"; "--output-format=json"; "repo/pkg/mod.py"]).
  - reflexivity.
  - intros rc out err v Hrun Hloads. simpl in Hrun, Hloads.
    injection Hrun as <- <- <-. simpl in Hloads.
    injection Hloads as <-. now exists [].
Defined.

(** *** The module map of a run *)

Lemma process_directory_concurrently_empty (w : World)
    (directory_path root out : string) :
  result (process_directory_concurrently w directory_path root out) = Ok [].
Proof.
  unfold process_directory_concurrently.
  rewrite result_bind, result_try, result_bind.
  destruct (w_rglob_files w directory_path) as [l | e]; reflexivity.
Qed.

Lemma walk_directories_keeps (w : World) (root out : string)
    (roots : list string) (cd : codebase) :
  snd (walk_directories w roots root out cd) = cd /\
  snd (fst (walk_directories w roots root out cd)) = None.
Proof.
  revert cd. induction roots as [| d roots IH]; intros cd; simpl; [auto |].
  pose proof (process_directory_concurrently_empty w d root out) as Hd.
  destruct (process_directory_concurrently w d root out) as [t [dd | e]];
    unfold result in Hd; simpl in Hd; [| discriminate].
  injection Hd as ->. unfold codebase_update. simpl.
  specialize (IH cd).
  destruct (walk_directories w roots root out cd) as [[t' e'] cd'].
  simpl in *. exact IH.
Qed.

Lemma process_all_directories_empty (w : World) (root out : string) :
  result (process_all_directories w root out) = Ok [].
Proof.
  unfold process_all_directories.
  destruct (walk_directories_keeps w root out (os_walk w root) []) as [H1 H2].
  destruct (walk_directories w (os_walk w root) root out []) as [[t e] cd].
  simpl in *. subst. reflexivity.
Qed.

(** [main], stage by stage: the set-up, the walk, the loads, the write. *)
Lemma main_eq (w : World) (cfg : config) :
  main w cfg =
  match setup w cfg with
  | Raise e => ([], Raise e)
  | Ok _ =>
      (trace (process_all_directories w (root_dir cfg) (output_dir cfg))
         ++ fst (fst (load_inputs w cfg)) ++ final_write w,
       Ok empty_summary)
  end.
Proof.
  unfold main, setup, final_write.
  destruct (os_makedirs w (output_dir cfg)) as [[] | e]; [| reflexivity].
  destruct (w_open_log w) as [[] | e]; [| reflexivity].
  pose proof (process_all_directories_empty w (root_dir cfg) (output_dir cfg))
    as Hp.
  destruct (process_all_directories w (root_dir cfg) (output_dir cfg))
    as [t0 [cd |]]; unfold result in Hp; simpl in Hp; [| discriminate].
  injection Hp as ->.
  cbn [lift bind fst snd app trace].
  destruct (load_inputs w cfg) as [[t1 c] l].
  cbn [update_codebase build_dependency_graph all_records map concat
       fold_left analyze_lint_results lint_files calculate_codebase_stats
       count_skipped_files filter length Z.of_nat fst snd app].
  destruct (try_except (cache_analysis_results w []) _) as [t6 r6].
  simpl. reflexivity.
Qed.

Lemma final_write_eq (w : World) :
  final_write w =
  match w_open_write w "analysis_cache.json" with
  | Ok _ => [EvWriteCache (PDict [])]
  | Raise e => [EvLog ERROR "Error caching analysis results" ""]
  end.
Proof.
  unfold final_write, cache_analysis_results. simpl.
  destruct (w_open_write w "analysis_cache.json") as [[] | e]; simpl;
    [reflexivity |].
  destruct e; reflexivity.
Qed.

Lemma written_cache_app (t1 t2 : list event) :
  forallb no_write_cache t1 = true ->
  written_cache (t1 ++ t2) = written_cache t2.
Proof.
  induction t1 as [| ev t1 IH]; simpl; [reflexivity |].
  intros H. apply andb_true_iff in H as [Hev Ht].
  destruct ev; simpl in *; try discriminate; auto.
Qed.

Lemma walk_no_write_cache (w : World) (root out : string)
    (roots : list string) (cd : codebase) :
  forallb no_write_cache (fst (fst (walk_directories w roots root out cd)))
  = true.
Proof.
  revert cd. induction roots as [| d roots IH]; intros cd; simpl;
    [reflexivity |].
  assert (Hd : traced no_write_cache
                 (process_directory_concurrently w d root out))
    by now apply traced_process_directory_concurrently.
  destruct (process_directory_concurrently w d root out) as [t [dd | e]];
    unfold traced, trace in Hd; simpl in Hd; simpl; [| exact Hd].
  specialize (IH (codebase_update cd dd)).
  destruct (walk_directories w roots root out (codebase_update cd dd))
    as [[t' e'] cd'].
  simpl in *. now rewrite forallb_app, Hd, IH.
Qed.

Lemma process_all_no_write_cache (w : World) (root out : string) :
  traced no_write_cache (process_all_directories w root out).
Proof.
  unfold traced, process_all_directories.
  pose proof (walk_no_write_cache w root out (os_walk w root) []) as H.
  destruct (walk_directories w (os_walk w root) root out []) as [[t [e |]] cd];
    simpl in *; [| exact H].
  now rewrite forallb_app, H.
Qed.

Lemma load_inputs_logs (w : World) (cfg : config) :
  forallb is_log (fst (fst (load_inputs w cfg))) = true.
Proof.
  unfold load_inputs, load_analysis_cache.
  destruct (w_cache_file w) as [[c | e] |]; simpl.
  - destruct (w_doc_links w (doc_links_csv cfg)); reflexivity.
  - destruct (is_OSError e || is_ValueError e); simpl.
    + destruct (w_doc_links w (doc_links_csv cfg)); reflexivity.
    + reflexivity.
  - destruct (w_doc_links w (doc_links_csv cfg)); reflexivity.
Qed.

Lemma logs_no_write_cache (t : list event) :
  forallb is_log t = true -> forallb no_write_cache t = true.
Proof.
  induction t as [| ev t IH]; simpl; [reflexivity |].
  intros H. apply andb_true_iff in H as [Hev Ht].
  destruct ev; simpl in *; try discriminate; auto.
Qed.

(** What a run leaves in the cache file, when it writes it. *)
Lemma main_written_cache (w : World) (cfg : config) :
  setup w cfg = Ok tt ->
  written_cache (trace (main w cfg)) =
  match w_open_write w "analysis_cache.json" with
  | Ok _ => Some (PDict [])
  | Raise _ => None
  end.
Proof.
  intros Hs. rewrite main_eq, Hs. cbn [trace fst].
  rewrite written_cache_app by apply process_all_no_write_cache.
  rewrite written_cache_app
    by (apply logs_no_write_cache, load_inputs_logs).
  rewrite final_write_eq.
  destruct (w_open_write w "analysis_cache.json"); reflexivity.
Qed.

(** C3: [process_directory_concurrently] and [process_all_directories]
    return the empty dict for every root, so every consumer in [main] runs
    on an empty module map: no skipped file is counted, the dependency
    graph is empty, there are no lint statistics, the codebase statistics
    are all zero, and the cache that is persisted is empty. *)
Theorem process_all_directories_returns_empty :
  forall (w : World) (cfg : config) (directory_path : string),
    result (process_directory_concurrently w directory_path (root_dir cfg)
              (output_dir cfg)) = Ok [] /\
    result (process_all_directories w (root_dir cfg) (output_dir cfg)) = Ok [] /\
    count_skipped_files [] = 0%Z /\
    build_dependency_graph [] = ([], empty_graph) /\
    analyze_lint_results [] = Ok [] /\
    calculate_codebase_stats [] = ([], empty_stats) /\
    result (main w cfg) =
      match setup w cfg with
      | Ok _ => Ok empty_summary
      | Raise e => Raise e
      end /\
    written_cache (trace (main w cfg)) =
      match setup w cfg, w_open_write w "analysis_cache.json" with
      | Ok _, Ok _ => Some (PDict [])
      | _, _ => None
      end.
Proof.
  intros w cfg directory_path.
  split; [apply process_directory_concurrently_empty |].
  split; [apply process_all_directories_empty |].
  do 4 (split; [reflexivity |]).
  split.
  - rewrite main_eq. destruct (setup w cfg); reflexivity.
  - destruct (setup w cfg) as [[] | e] eqn:Hs.
    + now apply main_written_cache.
    + rewrite main_eq, Hs. reflexivity.
Qed.

(** *** Errors and the exit status *)










(** *** The cache file *)

Lemma has_key_dict_set (d : list (string * pyval)) (k k' : string) (v : pyval) :
  has_key (dict_set d k v) k' = true -> k' = k \/ has_key d k' = true.
Proof.
  unfold has_key. induction d as [| [k0 v0] d IH]; simpl.
  - destruct (k =? k')%string eqn:E; [| discriminate].
    apply String.eqb_eq in E. auto.
  - destruct (k0 =? k)%string eqn:E0; simpl.
    + destruct (k =? k')%string eqn:E; [apply String.eqb_eq in E; auto |].
      apply String.eqb_eq in E0. subst k0. rewrite E. auto.
    + destruct (k0 =? k')%string; auto.
Qed.

(** Peels one bind off a hypothesis on the result of a chain. *)
Ltac peel H :=
  rewrite result_bind in H;
  match type of H with
  | match result ?m with _ => _ end = _ =>
      let a := fresh "a" in
      let E := fresh "E" in
      destruct (result m) as [a | ?] eqn:E; [| discriminate H]
  end.

Lemma cache_entry_key (w : World) (file_data : pyval) (key : string)
    (entry : pyval) :
  result (cache_entry w file_data) = Ok (key, entry) ->
  getitem file_data "file_path" = Ok (PStr key).
Proof.
  intros H. unfold cache_entry in H.
  do 7 peel H.
  unfold result, lift in *. simpl in *.
  injection H as <- _. destruct a4; try discriminate.
  simpl in E5. injection E5 as <-. exact E4.
Qed.

Lemma cache_entry_logs (w : World) (file_data : pyval) :
  traced is_log (cache_entry w file_data).
Proof.
  unfold cache_entry.
  repeat first [ now apply traced_calculate_function_count
               | now apply traced_calculate_comment_density
               | traced_step ].
Qed.

Lemma build_cache_logs (w : World) (l : list pyval) (c : cache_t) :
  forallb is_log (fst (build_cache w l c)) = true.
Proof.
  revert c. induction l as [| fd l IH]; intros c; simpl; [reflexivity |].
  pose proof (cache_entry_logs w fd) as He. unfold traced, trace in He.
  destruct (cache_entry w fd) as [t [[key entry] | e]]; simpl in He.
  - specialize (IH (dict_set c key entry)).
    destruct (build_cache w l (dict_set c key entry)) as [t' c'].
    simpl in *. now rewrite forallb_app, He, IH.
  - specialize (IH c). destruct (build_cache w l c) as [t' c'].
    simpl in *. rewrite forallb_app, He. simpl. exact IH.
Qed.

(** Every key of the cache being built is there from the start or is the
    path of one of the records. *)
Lemma build_cache_keys (w : World) (l : list pyval) (c : cache_t) (k : string) :
  has_key (snd (build_cache w l c)) k = true ->
  has_key c k = true \/
  exists fd, In fd l /\ getitem fd "file_path" = Ok (PStr k).
Proof.
  revert c. induction l as [| fd l IH]; intros c; simpl; [auto |].
  pose proof (cache_entry_key w fd) as Hk.
  destruct (cache_entry w fd) as [t [[key entry] | e]].
  - specialize (IH (dict_set c key entry)).
    destruct (build_cache w l (dict_set c key entry)) as [t' c'].
    simpl in *. intros H. destruct (IH H) as [H1 | [fd' [Hin Hfd]]].
    + apply has_key_dict_set in H1 as [-> | H1]; [| auto].
      right. exists fd. split; [auto |]. now apply (Hk key entry).
    + right. exists fd'. auto.
  - specialize (IH c). destruct (build_cache w l c) as [t' c'].
    simpl in *. intros H. destruct (IH H) as [H1 | [fd' [Hin Hfd]]]; [auto |].
    right. exists fd'. auto.
Qed.

Lemma prior_entries_dropped : ~ prior_entries_kept stale_world demo_config.
Proof.
  intros H.
  destruct (H [("elsewhere/old.txt", old_entry)] "elsewhere/old.txt" old_entry)
    as [c [Hw Hc]]; try reflexivity.
  - intros h Hin. vm_compute in Hin.
    repeat (destruct Hin as [Hin | Hin]; [discriminate |]). destruct Hin.
  - vm_compute in Hw. injection Hw as <-. discriminate.
Qed.

(** C4, amended: at the end of a run the cache file is replaced by a cache
    built from the run's module map alone, starting from the empty dict:
    every entry of the written cache is keyed by the path of one of the
    run's records; no entry of the prior cache file is carried over. *)
Theorem cache_rebuilt_from_records :
  forall (w : World) (codebase_data : codebase),
    (w_open_write w "analysis_cache.json" = Ok tt ->
     written_cache (trace (cache_analysis_results w codebase_data)) =
     Some (to_json
             (PDict (snd (build_cache w (all_records codebase_data) []))))) /\
    (forall k,
        has_key (snd (build_cache w (all_records codebase_data) [])) k = true ->
        exists file_data,
          In file_data (all_records codebase_data) /\
          getitem file_data "file_path" = Ok (PStr k)).
Proof.
  intros w cd. split.
  - intros Hopen. unfold cache_analysis_results.
    pose proof (build_cache_logs w (all_records cd) []) as Hl.
    destruct (build_cache w (all_records cd) []) as [t cache].
    simpl in Hl. rewrite Hopen. cbn.
    rewrite written_cache_app by now apply logs_no_write_cache.
    reflexivity.
  - intros k Hk.
    destruct (build_cache_keys w (all_records cd) [] k Hk) as [H | H];
      [discriminate | exact H].
Qed.

Lemma cache_rebuilt_from_records_witness :
  written_cache
    (trace (cache_analysis_results stale_world [("pkg", [mod_py_record])])) =
  Some (PDict
          [("repo/pkg/mod.py",
            PDict [ ("hash", PStr "md5 of x = 1");
                    ("analysis", PDict [("entities", PList [])]);
                    ("function_count", PInt 0);
                    ("comment_density", PFloat 0 1) ])]).
Proof.
  destruct (cache_rebuilt_from_records stale_world [("pkg", [mod_py_record])])
    as [H _].
  rewrite H; reflexivity.
Defined.

(** *** The cache and the analysis phase *)

Lemma guess_language_returns (w : World) (file_path : string) :
  exists language, result (guess_language w file_path) = Ok language.
Proof.
  unfold guess_language. rewrite result_try, result_bind.
  destruct (w_lexer_name w file_path) as [name | e]; simpl; eauto.
Qed.

(** An existing file that passes the binary gate gets its handler call. *)
Lemma process_file_calls_handler (w : World)
    (file_path module_path out : string) :
  w_exists w file_path = true ->
  result (is_binary_file w file_path) = Ok false ->
  In (EvHandler h_default file_path)
     (trace (process_file w file_path module_path out)).
Proof.
  intros Hex Hb. unfold process_file. rewrite trace_try.
  apply in_or_app. left.
  unfold process_file_body. rewrite Hex. cbn [negb].
  rewrite trace_bind, Hb. apply in_or_app. right.
  rewrite trace_bind.
  destruct (result (guess_file_type w file_path)) as [ft | e] eqn:Hft.
  - destruct (text_gate w file_path ft Hb Hft) as [t [-> Ht]].
    apply in_or_app. right. rewrite trace_bind.
    destruct (guess_language_returns w file_path) as [language ->].
    apply in_or_app. right.
    rewrite (text_type_default t Ht), trace_bind.
    apply in_or_app. left. simpl. auto.
  - rewrite is_binary_file_result, Hft in Hb. discriminate.
Qed.

Lemma run_tasks_includes (w : World) (tasks : list task) (args : task)
    (ev : event) :
  In args tasks -> In ev (trace (process_file_in_pool w args)) ->
  In ev (run_tasks w tasks).
Proof.
  intros Hin Hev. induction tasks as [| a tasks IH]; [destruct Hin |].
  simpl. apply in_or_app. destruct Hin as [-> | Hin]; auto.
Qed.

Lemma walk_includes (w : World) (root out : string) (roots : list string)
    (cd : codebase) (d : string) (ev : event) :
  In d roots ->
  In ev (trace (process_directory_concurrently w d root out)) ->
  In ev (fst (fst (walk_directories w roots root out cd))).
Proof.
  revert cd. induction roots as [| r roots IH]; intros cd Hin Hev;
    [destruct Hin |].
  simpl.
  pose proof (process_directory_concurrently_empty w r root out) as Hr.
  destruct (process_directory_concurrently w r root out) as [t [dd | e]] eqn:E;
    unfold result in Hr; simpl in Hr; [| discriminate].
  specialize (IH (codebase_update cd dd)).
  destruct (walk_directories w roots root out (codebase_update cd dd))
    as [[t' e'] cd'].
  simpl in *. apply in_or_app.
  destruct Hin as [-> | Hin].
  - left. rewrite E in Hev. exact Hev.
  - right. now apply IH.
Qed.

Lemma process_all_includes (w : World) (root out d : string) (ev : event) :
  In d (os_walk w root) ->
  In ev (trace (process_directory_concurrently w d root out)) ->
  In ev (trace (process_all_directories w root out)).
Proof.
  intros Hd Hev. unfold process_all_directories.
  pose proof (walk_includes w root out (os_walk w root) [] d ev Hd Hev) as H.
  destruct (walk_directories w (os_walk w root) root out []) as [[t [e |]] cd];
    simpl in *; [apply in_or_app |]; auto.
Qed.

Lemma directory_includes (w : World) (d root out : string)
    (files : list string) (f : string) (ev : event) :
  w_rglob_files w d = Ok files -> In f files ->
  In ev (trace (process_file w f (w_relpath w (path_parent f) root) out)) ->
  In ev (trace (process_directory_concurrently w d root out)).
Proof.
  intros Hfiles Hf Hev. unfold process_directory_concurrently.
  rewrite trace_bind, trace_try, trace_bind, Hfiles. cbn [lift trace fst].
  do 2 (apply in_or_app; left). cbn [app].
  apply run_tasks_includes
    with (args := (f, w_relpath w (path_parent f) root, out)).
  - unfold args_list.
    apply (in_map (fun p => (p, w_relpath w (path_parent p) root, out))).
    exact Hf.
  - unfold process_file_in_pool. rewrite trace_try.
    apply in_or_app. now left.
Qed.

Lemma dict_get_set_same (d : list (string * pyval)) (k : string) (v : pyval) :
  dict_get (dict_set d k v) k = Some v.
Proof.
  induction d as [| [k0 v0] d IH]; simpl.
  - now rewrite String.eqb_refl.
  - destruct (k0 =? k)%string eqn:E; simpl.
    + now rewrite String.eqb_refl.
    + now rewrite E.
Qed.

Lemma warm_cache_still_analyzed : ~ cache_hit_skips_handler warm_world demo_config.
Proof.
  intros H.
  apply (H [("repo/pkg/mod.py", warm_entry)] "repo/pkg/mod.py" warm_entry
           "x = 1" eq_refl eq_refl eq_refl eq_refl h_default).
  vm_compute. auto.
Qed.

(** C1, amended: the analysis phase does not consult the cache.  Whatever
    the cache file holds, every file that the walk lists, that exists and
    that passes the binary gate gets its handler call in every run.  The
    cache is read only afterwards, by the update loop of [main]: there, a
    record whose path has an entry whose hash is the MD5 of the record's
    content has its analysis replaced by the cached analysis. *)
Theorem cache_consulted_after_analysis :
  forall (w : World) (cfg : config),
    (forall d files f,
        setup w cfg = Ok tt ->
        In d (os_walk w (root_dir cfg)) ->
        w_rglob_files w d = Ok files ->
        In f files ->
        w_exists w f = true ->
        result (is_binary_file w f) = Ok false ->
        In (EvHandler h_default f) (trace (main w cfg))) /\
    (forall cache file_data content file_path entry analysis,
        getitem file_data "content" = Ok (PStr content) ->
        getitem file_data "file_path" = Ok (PStr file_path) ->
        dict_get cache file_path = Some entry ->
        getitem entry "hash" = Ok (PStr (w_md5 w content)) ->
        getitem entry "analysis" = Ok analysis ->
        exists file_data',
          apply_cache w (Some cache) file_data = Ok file_data' /\
          getitem file_data' "analysis" = Ok analysis).
Proof.
  intros w cfg. split.
  - intros d files f Hs Hd Hfiles Hf Hex Hb.
    rewrite main_eq, Hs. cbn [trace fst].
    apply in_or_app. left.
    apply process_all_includes with (d := d); [exact Hd |].
    apply directory_includes with (files := files) (f := f); try assumption.
    now apply process_file_calls_handler.
  - intros cache fd content fp entry analysis Hc Hp Hget Hh Ha.
    destruct fd as [| | | | | | kv |]; try discriminate.
    exists (PDict (dict_set kv "analysis" analysis)).
    split.
    + unfold apply_cache. rewrite Hc, Hp. cbn [as_str bound in_dict].
      unfold has_key. rewrite Hget. cbn [getitem].
      rewrite Hget, Hh. cbn [eq_str]. rewrite String.eqb_refl, Ha.
      reflexivity.
    + cbn [getitem]. now rewrite dict_get_set_same.
Qed.

Lemma cache_consulted_after_analysis_witness :
  In (EvHandler h_default "repo/pkg/mod.py") (trace (main warm_world demo_config))
  /\ exists file_data',
       apply_cache warm_world (Some [("repo/pkg/mod.py", warm_entry)])
         mod_py_record = Ok file_data' /\
       getitem file_data' "analysis" = Ok (PDict [("entities", PList [])]).
Proof.
  destruct (cache_consulted_after_analysis warm_world demo_config) as [H1 H2].
  split.
  - apply (H1 "repo" ["repo/pkg/mod.py"] "repo/pkg/mod.py");
      try reflexivity; simpl; auto.
  - apply (H2 [("repo/pkg/mod.py", warm_entry)] mod_py_record "x = 1"
              "repo/pkg/mod.py" warm_entry); reflexivity.
Defined.

Lemma calculate_function_count_returns (fd : pyval) :
  exists v, result (calculate_function_count fd) = Ok v.
Proof.
  unfold calculate_function_count. rewrite result_try.
  match goal with
  | |- exists v, match result ?m with _ => _ end = _ =>
      destruct (result m) as [v | e]
  end; [now exists v |].
  exists (PInt 0). destruct e; reflexivity.
Qed.

Lemma calculate_comment_density_returns (fd : pyval) :
  exists v, result (calculate_comment_density fd) = Ok v.
Proof.
  unfold calculate_comment_density. rewrite result_try.
  match goal with
  | |- exists v, match result ?m with _ => _ end = _ =>
      destruct (result m) as [v | e]
  end; [now exists v |].
  exists (PInt 0). destruct e; reflexivity.
Qed.

(** *** The records of a batch *)

Lemma no_append_appended (t : list event) :
  forallb no_append t = true -> appended t = [].
Proof.
  induction t as [| ev t IH]; simpl; [reflexivity |].
  intros H. apply andb_true_iff in H as [Hev Ht].
  destruct ev; simpl in *; try discriminate; auto.
Qed.





Ltac no_appends :=
  first [ now apply traced_nlp_entities
        | now apply traced_calculate_function_count
        | now apply traced_calculate_comment_density
        | now apply traced_is_binary_file
        | now apply traced_guess_file_type
        | now apply traced_guess_language
        | now apply traced_default_handler
        | apply traced_emit; reflexivity
        | apply traced_lift ].










(** *** What one task appends, from below *)








(** *** Workers side by side *)













(** *** The records of a run *)












Lemma is_binary_file_six_types_witness :
  appended (trace (process_file blob_world "repo/blob.bin" "." "out")) = [] /\
  result (async_read blob_world "repo/blob.bin") = Ok PNone.
Proof.
  destruct (is_binary_file_six_types blob_world "repo/blob.bin" "." "out")
    as [_ [_ H]].
  destruct (H eq_refl) as [H1 [_ H3]].
  split; assumption.
Defined.

(** *** The repository's unit tests, on the model *)

Module RepoTests.

Example test_resolve_import_util :
  result (resolve_import "module2.util" "module1/main.js" test_codebase)
  = Ok (PStr "module2/util.js").
Proof. reflexivity. Qed.

Example test_resolve_import_feature :
  result (resolve_import "module2.feature" "module1/main.js" test_codebase)
  = Ok (PStr "module2/feature.ts").
Proof. reflexivity. Qed.

Example test_resolve_import_missing :
  resolve_import "module2.missing" "module1/main.js" test_codebase
  = ([EvLog WARNING "Unable to resolve import" "module1/main.js"], Ok PNone).
Proof. reflexivity. Qed.

Example test_dependency_edges :
  g_edges (snd (build_dependency_graph test_codebase))
  = [ (PStr "module1/file1.py", PStr "module2/util.js");
      (PStr "module1/main.js", PStr "module2/feature.ts") ].
Proof. reflexivity. Qed.

Example test_validate_json :
  result (validate_json test_valid_json) = Ok true /\
  result (validate_json test_invalid_json) = Ok false.
Proof. split; reflexivity. Qed.

Example test_validate_data :
  result (validate_data test_valid_json) = Ok true /\
  result (validate_data test_invalid_json) = Ok false.
Proof. split; reflexivity. Qed.

Example test_validate_metadata :
  result (validate_metadata (PDict [("size", PInt 24)])) = Ok true /\
  result (validate_metadata (PDict [("md5_hash", PStr "abcdef")])) = Ok false.
Proof. split; reflexivity. Qed.

Example test_validate_content :
  result (validate_content (PStr "print('Hello, World!')")) = Ok true /\
  result (validate_content (PStr "")) = Ok false.
Proof. split; reflexivity. Qed.

Example test_calculate_codebase_stats :
  let st := snd (calculate_codebase_stats
                   [("module1",
                      [PDict [ ("language", PStr "python");
                               ("metadata", PDict [ ("loc", PInt 100);
                                                    ("size", PInt 1024) ]) ]])])
  in total_files st = 1%Z /\ total_loc st = PInt 100 /\
     total_size st = PInt 1024 /\
     kd_get (files_by_language st) (PStr "python") = Some (PInt 1) /\
     kd_get (loc_by_language st) (PStr "python") = Some (PInt 100) /\
     kd_get (size_by_language st) (PStr "python") = Some (PInt 1024).
Proof. repeat split; reflexivity. Qed.

End RepoTests.

(** *** Observations on whole runs *)

Module Observations.

(** [os.walk] already visits every directory and [rglob] descends again
    from each of them: a file one level down is processed twice in a run. *)
Example nested_file_recorded_twice :
  appended_paths (trace (main stale_world demo_config))
  = [PStr "repo/pkg/mod.py"; PStr "repo/pkg/mod.py"].
Proof. vm_compute. reflexivity. Qed.

(** The records are appended, yet the cache the same run writes is empty. *)
Example processed_files_not_cached :
  written_cache (trace (main stale_world demo_config)) = Some (PDict []).
Proof. vm_compute. reflexivity. Qed.

End Observations.

(** * Further properties of the code *)

(** *** Import resolution, beyond the same-module rule *)

Lemma first_match_sound (paths : list string) (l : list pyval) (v : pyval) :
  first_match paths l = Ok (Some v) ->
  exists data path,
    In data l /\ getitem data "file_path" = Ok (PStr path) /\
    v = PStr path /\ existsb (endswith path) paths = true.
Proof.
  induction l as [| data l IH]; simpl; [discriminate |].
  unfold matches.
  destruct (getitem data "file_path") as [[| | | | s | | |] | e] eqn:Hg;
    try discriminate.
  destruct (existsb (endswith s) paths) eqn:Hm.
  - intros H. injection H as <-. exists data, s. auto.
  - intros H. destruct (IH H) as [d [p [Hin Hrest]]].
    exists d, p. split; [now right | exact Hrest].
Qed.

Lemma first_match_modules_sound (paths : list string) (cd : codebase)
    (v : pyval) :
  first_match_modules paths cd = Ok (Some v) ->
  exists data path,
    In data (all_records cd) /\ getitem data "file_path" = Ok (PStr path) /\
    v = PStr path /\ existsb (endswith path) paths = true.
Proof.
  induction cd as [| [m l] cd IH]; simpl; [discriminate |].
  destruct (first_match paths l) as [[v' |] | e] eqn:Hf; try discriminate.
  - intros H. injection H as <-.
    destruct (first_match_sound paths l v' Hf) as [d [p [Hin Hrest]]].
    exists d, p. split; [| exact Hrest].
    unfold all_records. simpl. apply in_or_app. now left.
  - intros H. destruct (IH H) as [d [p [Hin Hrest]]].
    exists d, p. split; [| exact Hrest].
    unfold all_records in *. simpl. apply in_or_app. now right.
Qed.

Lemma codebase_get_records (cd : codebase) (k : string) (l : list pyval)
    (data : pyval) :
  codebase_get cd k = Some l -> In data l -> In data (all_records cd).
Proof.
  induction cd as [| [k' l'] cd IH]; simpl; [discriminate |].
  unfold all_records in *. simpl.
  destruct (k' =? k)%string.
  - intros H Hin. injection H as ->. apply in_or_app. now left.
  - intros H Hin. apply in_or_app. right. now apply IH.
Qed.

Lemma candidate_of_paths (imp fp path : string) :
  existsb (endswith path) (possible_paths imp fp) = true ->
  exists ext, In ext (possible_extensions (path_suffix fp)) /\
              endswith path (replace_dots imp ++ ext) = true.
Proof.
  intros H. apply existsb_exists in H as [x [Hin Hend]].
  unfold possible_paths in Hin. apply in_map_iff in Hin as [ext [<- Hext]].
  now exists ext.
Qed.

Lemma bind_lift_ok {A B} (a : A) (k : A -> M B) :
  bind (lift (Ok a)) k = k a.
Proof. unfold bind, lift. destruct (k a). reflexivity. Qed.

Lemma resolve_import_result (imp fp : string) (cd : codebase) (v : pyval) :
  result (resolve_import imp fp cd) = Ok v ->
  v = PNone \/
  exists data path,
    v = PStr path /\ In data (all_records cd) /\
    is_candidate imp fp data path.
Proof.
  revert v. intros v. unfold resolve_import.
  destruct (first_match _ _) as [[v' |] | e] eqn:Hsame;
    [rewrite bind_lift_ok | rewrite bind_lift_ok | discriminate].
  - intros H. injection H as <-. right.
    destruct (first_match_sound _ _ _ Hsame) as [d [p [Hin [Hg [-> Hm]]]]].
    exists d, p. split; [reflexivity |]. split.
    + destruct (codebase_get cd (path_parent fp)) as [l |] eqn:Hget;
        [| destruct Hin].
      now apply (codebase_get_records cd (path_parent fp) l).
    + split; [exact Hg | now apply candidate_of_paths].
  - destruct (first_match_modules _ cd) as [[v' |] | e] eqn:Hany;
      [rewrite bind_lift_ok | rewrite bind_lift_ok | discriminate].
    + intros H. injection H as <-. right.
      destruct (first_match_modules_sound _ _ _ Hany)
        as [d [p [Hin [Hg [-> Hm]]]]].
      exists d, p. split; [reflexivity |]. split; [exact Hin |].
      split; [exact Hg | now apply candidate_of_paths].
    + intros H. injection H as <-. now left.
Qed.

(** Whatever [resolve_import] returns is None or the path of a record of
    the module map that ends with a candidate path of the specifier: it
    never invents a path. *)
Theorem resolve_import_sound :
  forall (import_statement file_path : string) (codebase_data : codebase)
         (v : pyval),
    result (resolve_import import_statement file_path codebase_data) = Ok v ->
    v = PNone \/
    exists data path,
      v = PStr path /\ In data (all_records codebase_data) /\
      is_candidate import_statement file_path data path.
Proof.
  intros imp fp cd v. apply resolve_import_result.
Qed.

Lemma resolve_import_sound_witness :
  PStr "module2/util.js" = PNone \/
  exists data path,
    PStr "module2/util.js" = PStr path /\
    In data (all_records test_codebase) /\
    is_candidate "module2.util" "module1/main.js" data path.
Proof.
  apply (resolve_import_sound "module2.util" "module1/main.js" test_codebase).
  reflexivity.
Defined.

Lemma first_match_none (paths : list string) (l : list pyval) :
  (forall r, In r l -> no_match paths r) -> first_match paths l = Ok None.
Proof.
  induction l as [| r l IH]; intros H; simpl; [reflexivity |].
  destruct (H r (or_introl eq_refl)) as [q [Hq Hno]].
  unfold matches. rewrite Hq.
  assert (Hex : existsb (endswith q) paths = false).
  { destruct (existsb (endswith q) paths) eqn:E; [| reflexivity].
    apply existsb_exists in E as [path [Hin Hend]].
    rewrite (Hno path Hin) in Hend. discriminate. }
  rewrite Hex. apply IH. intros r' Hin. apply H. now right.
Qed.

Lemma first_match_modules_none (paths : list string) (cd : codebase) :
  (forall r, In r (all_records cd) -> no_match paths r) ->
  first_match_modules paths cd = Ok None.
Proof.
  induction cd as [| [m l] cd IH]; intros H; simpl; [reflexivity |].
  unfold all_records in *. simpl in H.
  rewrite first_match_none
    by (intros r Hin; apply H, in_or_app; now left).
  apply IH. intros r Hin. apply H, in_or_app. now right.
Qed.

Lemma codebase_get_in (cd : codebase) (k : string) (l : list pyval) :
  codebase_get cd k = Some l -> In (k, l) cd.
Proof.
  induction cd as [| [k' l'] cd IH]; simpl; [discriminate |].
  destruct (k' =? k)%string eqn:E.
  - intros H. injection H as ->. apply String.eqb_eq in E. subst. now left.
  - intros H. right. now apply IH.
Qed.

(** An import that no file of the module map matches resolves to None,
    with exactly one warning and no exception. *)
Theorem resolve_import_unresolved :
  forall (import_statement file_path : string) (codebase_data : codebase),
    (forall r, In r (all_records codebase_data) ->
               no_match (possible_paths import_statement file_path) r) ->
    resolve_import import_statement file_path codebase_data
    = ([EvLog WARNING "Unable to resolve import" file_path], Ok PNone).
Proof.
  intros imp fp cd H. unfold resolve_import.
  rewrite first_match_none.
  - rewrite bind_lift_ok, (first_match_modules_none _ cd H), bind_lift_ok.
    reflexivity.
  - intros r Hin.
    destruct (codebase_get cd (path_parent fp)) as [l |] eqn:Hget;
      [| destruct Hin].
    apply H. now apply (codebase_get_records cd (path_parent fp) l).
Qed.

Lemma resolve_import_unresolved_witness :
  resolve_import "nonexistent.pkg" "moduleA/a.py" two_modules
  = ([EvLog WARNING "Unable to resolve import" "moduleA/a.py"], Ok PNone).
Proof.
  apply (resolve_import_unresolved "nonexistent.pkg" "moduleA/a.py" two_modules).
  intros r Hin. vm_compute in Hin.
  repeat (destruct Hin as [<- | Hin];
          [ eexists; split; [reflexivity |];
            intros path Hp; vm_compute in Hp;
            repeat (destruct Hp as [<- | Hp]; [reflexivity |]); destruct Hp
          | ]).
  destruct Hin.
Defined.

Lemma first_match_modules_skips (paths : list string) (before after : codebase)
    (m : string) (pre post : list pyval) (data : pyval) (p : string) :
  (forall r, In r (all_records before) -> no_match paths r) ->
  (forall r, In r pre -> no_match paths r) ->
  getitem data "file_path" = Ok (PStr p) ->
  existsb (endswith p) paths = true ->
  first_match_modules paths (before ++ (m, pre ++ data :: post) :: after)
  = Ok (Some (PStr p)).
Proof.
  intros Hb Hpre Hg Hm.
  induction before as [| [k l] before IH]; simpl.
  - now rewrite (first_match_skips paths pre data post p Hpre Hg Hm).
  - unfold all_records in *. simpl in Hb.
    rewrite first_match_none
      by (intros r Hin; apply Hb, in_or_app; now left).
    apply IH. intros r Hin. apply Hb, in_or_app. now right.
Qed.

(** When the importer's own module holds no match, the whole map is
    searched in its insertion order and the first match wins: the modules
    before it hold none, and neither do the records before it in its own
    module. *)
Theorem resolve_import_falls_back :
  forall (import_statement file_path : string) (before after : codebase)
         (m : string) (pre post : list pyval) (target : pyval)
         (target_path ext : string),
    let codebase_data := before ++ (m, pre ++ target :: post) :: after in
    (forall l r, codebase_get codebase_data (path_parent file_path) = Some l ->
                 In r l ->
                 no_match (possible_paths import_statement file_path) r) ->
    (forall r, In r (all_records before) ->
               no_match (possible_paths import_statement file_path) r) ->
    (forall r, In r pre ->
               no_match (possible_paths import_statement file_path) r) ->
    getitem target "file_path" = Ok (PStr target_path) ->
    In ext (possible_extensions (path_suffix file_path)) ->
    endswith target_path (replace_dots import_statement ++ ext) = true ->
    resolve_import import_statement file_path codebase_data
    = ([], Ok (PStr target_path)).
Proof.
  intros imp fp before after m pre post target tp ext cd Hown Hb Hpre Hg Hext
         Hend.
  unfold resolve_import.
  rewrite first_match_none.
  - rewrite bind_lift_ok. unfold cd.
    rewrite (first_match_modules_skips _ before after m pre post target tp);
      [rewrite bind_lift_ok; reflexivity | auto | auto | auto |].
    apply existsb_exists. exists (replace_dots imp ++ ext)%string.
    split; [| exact Hend]. unfold possible_paths.
    apply (in_map (fun e => (replace_dots imp ++ e)%string)). exact Hext.
  - intros r Hin.
    destruct (codebase_get cd (path_parent fp)) as [l |] eqn:Hget;
      [| destruct Hin].
    now apply (Hown l).
Qed.

Lemma resolve_import_falls_back_witness :
  resolve_import "module2.util" "module1/main.js" test_codebase
  = ([], Ok (PStr "module2/util.js")).
Proof.
  apply (resolve_import_falls_back "module2.util" "module1/main.js"
           [ ("module1",
               [ import_record "module1/file1.py" "python" ["module2.util"];
                 import_record "module1/main.js" "javascript" ["module2.feature"];
                 import_record "module1/style.css" "css" [] ]) ]
           [] "module2" []
           [import_record "module2/feature.ts" "typescript" []]
           (import_record "module2/util.js" "javascript" [])
           "module2/util.js" ".js").
  - intros l r Hget Hin. vm_compute in Hget. injection Hget as <-.
    repeat (destruct Hin as [<- | Hin];
            [ eexists; split; [reflexivity |];
              intros path Hp; vm_compute in Hp;
              repeat (destruct Hp as [<- | Hp]; [reflexivity |]); destruct Hp
            | ]).
    destruct Hin.
  - intros r Hin. vm_compute in Hin.
    repeat (destruct Hin as [<- | Hin];
            [ eexists; split; [reflexivity |];
              intros path Hp; vm_compute in Hp;
              repeat (destruct Hp as [<- | Hp]; [reflexivity |]); destruct Hp
            | ]).
    destruct Hin.
  - intros r [].
  - reflexivity.
  - simpl. auto.
  - reflexivity.
Defined.

(** *** The dependency graph *)

Lemma add_edge_edges (g g' : digraph) (u v : pyval) (e : pyval * pyval) :
  add_edge g u v = Ok g' -> In e (g_edges g') ->
  In e (g_edges g) \/ e = (u, v).
Proof.
  unfold add_edge.
  destruct (check_node u); [| discriminate].
  destruct (check_node v); [| discriminate].
  intros H. injection H as <-. cbn [g_edges].
  destruct (existsb _ (g_edges g)); [auto |].
  intros Hin. apply in_app_or in Hin as [Hin | [<- | []]]; auto.
Qed.

Section GraphEdges.
Variable cd : codebase.

Let edges_ok (g : digraph) : Prop :=
  forall u v, In (u, v) (g_edges g) ->
              record_path_of cd u /\ record_path_of cd v.

Lemma resolved_is_record_path (imp fp : string) (r : pyval) :
  result (resolve_import imp fp cd) = Ok r -> truthy r = true ->
  record_path_of cd r.
Proof.
  intros H Ht.
  destruct (resolve_import_result imp fp cd r H)
    as [-> | [d [p [-> [Hin [Hg _]]]]]]; [discriminate |].
  now exists d.
Qed.

Lemma add_imports_edges (file_path : pyval) (imports : list pyval)
    (g : digraph) :
  record_path_of cd file_path -> edges_ok g ->
  edges_ok (snd (add_imports cd file_path imports g)).
Proof.
  intros Hfp. revert g.
  induction imports as [| imp imports IH]; intros g Hg; [exact Hg |].
  cbn [add_imports].
  destruct file_path as [| | | | fp | | |]; try exact Hg.
  destruct imp as [| | | | s | | |]; try exact Hg.
  cbn [as_str]. rewrite !bind_lift_ok.
  destruct (resolve_import s fp cd) as [t [r | e]] eqn:Hr; [| exact Hg].
  assert (Hres : result (resolve_import s fp cd) = Ok r) by now rewrite Hr.
  cbn [bind].
  destruct (truthy r) eqn:Ht.
  - cbn [lift].
    destruct (add_edge g (PStr fp) r) as [g' | e] eqn:He; [| exact Hg].
    assert (Hg' : edges_ok g').
    { intros u v Hin.
      destruct (add_edge_edges g g' (PStr fp) r (u, v) He Hin) as [H | H].
      - now apply Hg.
      - injection H as -> ->. split; [exact Hfp |].
        now apply (resolved_is_record_path s fp). }
    specialize (IH g' Hg').
    destruct (add_imports cd (PStr fp) imports g') as [[t' e'] g''].
    exact IH.
  - cbn [ret]. specialize (IH g Hg).
    destruct (add_imports cd (PStr fp) imports g) as [[t' e'] g''].
    exact IH.
Qed.

Lemma add_node_edges (g g' : digraph) (n lang : pyval) :
  add_node g n lang = Ok g' -> g_edges g' = g_edges g.
Proof.
  unfold add_node. destruct (check_node n); [| discriminate].
  intros H. now injection H as <-.
Qed.

Lemma add_file_edges (file_data : pyval) (g : digraph) :
  In file_data (all_records cd) -> edges_ok g ->
  edges_ok (snd (add_file cd file_data g)).
Proof.
  intros Hin Hg.
  assert (Hbody : edges_ok (snd (add_file_body cd file_data g))).
  { unfold add_file_body.
    destruct (getitem file_data "file_path") as [fp | e] eqn:Hfp;
      [| exact Hg].
    destruct (getitem file_data "language") as [lang | e]; [| exact Hg].
    destruct (add_node g fp lang) as [g1 | e] eqn:Hn; [| exact Hg].
    assert (Hg1 : edges_ok g1).
    { intros u v Huv. apply Hg.
      now rewrite <- (add_node_edges g g1 fp lang Hn). }
    destruct (match lang with
              | PStr s => mem_string s dependency_languages
              | _ => false
              end); [| exact Hg1].
    destruct (getitem file_data "analysis") as [analysis | e]; [| exact Hg1].
    destruct (getitem analysis "imports") as [imports | e]; [| exact Hg1].
    destruct (py_iter imports) as [l | e]; [| exact Hg1].
    apply add_imports_edges; [| exact Hg1].
    now exists file_data. }
  unfold add_file.
  destruct (add_file_body cd file_data g) as [[t [e |]] g'];
    [destruct e |]; exact Hbody.
Qed.

Lemma fold_add_file_edges (l : list pyval) (acc : list event * digraph) :
  (forall d, In d l -> In d (all_records cd)) -> edges_ok (snd acc) ->
  edges_ok
    (snd (fold_left
            (fun acc file_data =>
               let '(t, g) := acc in
               let '(t', g') := add_file cd file_data g in
               (t ++ t', g')) l acc)).
Proof.
  revert acc. induction l as [| d l IH]; intros [t g] Hl Hg; [exact Hg |].
  cbn [fold_left]. apply IH; [intros d' Hd'; apply Hl; now right |].
  pose proof (add_file_edges d g (Hl d (or_introl eq_refl)) Hg) as H.
  destruct (add_file cd d g) as [t' g']. exact H.
Qed.

Lemma dependency_edges_between_records (u v : pyval) :
  In (u, v) (g_edges (snd (build_dependency_graph cd))) ->
  record_path_of cd u /\ record_path_of cd v.
Proof.
  unfold build_dependency_graph.
  apply (fold_add_file_edges (all_records cd) ([], empty_graph)).
  - auto.
  - intros u' v' [].
Qed.
End GraphEdges.

(** Every edge of the dependency graph joins the paths of two records of
    the module map: imports that resolve to nothing (third-party modules)
    leave no edge. *)
Theorem dependency_edges_intra_repo :
  forall (codebase_data : codebase) (u v : pyval),
    In (u, v) (g_edges (snd (build_dependency_graph codebase_data))) ->
    record_path_of codebase_data u /\ record_path_of codebase_data v.
Proof.
  intros cd u v. apply dependency_edges_between_records.
Qed.

Lemma dependency_edges_intra_repo_witness :
  record_path_of test_codebase (PStr "module1/file1.py") /\
  record_path_of test_codebase (PStr "module2/util.js").
Proof.
  apply (dependency_edges_intra_repo test_codebase).
  vm_compute. auto.
Defined.

Lemma set_node_attr_keeps (ns : list (pyval * list (string * pyval)))
    (n x : pyval) (k : string) (v : pyval) :
  node_attrs ns x <> None -> node_attrs (set_node_attr ns n k v) x <> None.
Proof.
  induction ns as [| [n' a] ns IH]; simpl; [congruence |].
  destruct (key_eqb n' n); simpl; destruct (key_eqb n' x); auto; congruence.
Qed.

Lemma set_node_attr_adds (ns : list (pyval * list (string * pyval)))
    (s k : string) (v : pyval) :
  node_attrs (set_node_attr ns (PStr s) k v) (PStr s) <> None.
Proof.
  assert (Hrefl : key_eqb (PStr s) (PStr s) = true)
    by (unfold key_eqb; cbn [numeric]; apply String.eqb_refl).
  induction ns as [| [n' a] ns IH]; cbn [set_node_attr node_attrs].
  - rewrite Hrefl. congruence.
  - destruct (key_eqb n' (PStr s)) eqn:E; cbn [node_attrs]; rewrite E;
      [congruence | exact IH].
Qed.

Lemma ensure_node_keeps (ns : list (pyval * list (string * pyval)))
    (n x : pyval) :
  node_attrs ns x <> None -> node_attrs (ensure_node ns n) x <> None.
Proof.
  unfold ensure_node. destruct (node_attrs ns n); [auto |].
  induction ns as [| [n' a] ns IH]; simpl; [congruence |].
  destruct (key_eqb n' x); auto; congruence.
Qed.

Lemma has_node_iff (g : digraph) (n : pyval) :
  has_node g n = true <-> node_attrs (g_nodes g) n <> None.
Proof.
  unfold has_node. destruct (node_attrs (g_nodes g) n); split; congruence.
Qed.

Lemma add_edge_keeps_nodes (g g' : digraph) (u v n : pyval) :
  add_edge g u v = Ok g' -> has_node g n = true -> has_node g' n = true.
Proof.
  unfold add_edge.
  destruct (check_node u); [| discriminate].
  destruct (check_node v); [| discriminate].
  intros H. injection H as <-. rewrite !has_node_iff. cbn [g_nodes].
  intros Hn. now apply ensure_node_keeps, ensure_node_keeps.
Qed.

Lemma add_node_keeps_nodes (g g' : digraph) (x lang n : pyval) :
  add_node g x lang = Ok g' -> has_node g n = true -> has_node g' n = true.
Proof.
  unfold add_node. destruct (check_node x); [| discriminate].
  intros H. injection H as <-. rewrite !has_node_iff. cbn [g_nodes].
  apply set_node_attr_keeps.
Qed.

Lemma add_imports_keeps_nodes (cd : codebase) (file_path : pyval)
    (imports : list pyval) (g : digraph) (n : pyval) :
  has_node g n = true ->
  has_node (snd (add_imports cd file_path imports g)) n = true.
Proof.
  revert g. induction imports as [| imp imports IH]; intros g Hg; [exact Hg |].
  cbn [add_imports].
  destruct file_path as [| | | | fp | | |]; try exact Hg.
  destruct imp as [| | | | s | | |]; try exact Hg.
  cbn [as_str]. rewrite !bind_lift_ok.
  destruct (resolve_import s fp cd) as [t [r | e]]; [| exact Hg].
  cbn [bind].
  destruct (truthy r).
  - cbn [lift].
    destruct (add_edge g (PStr fp) r) as [g' | e] eqn:He; [| exact Hg].
    specialize (IH g' (add_edge_keeps_nodes g g' _ _ n He Hg)).
    destruct (add_imports cd (PStr fp) imports g') as [[t' e'] g''].
    exact IH.
  - cbn [ret]. specialize (IH g Hg).
    destruct (add_imports cd (PStr fp) imports g) as [[t' e'] g''].
    exact IH.
Qed.

(** What one record does to the nodes: none is lost, and the record's own
    path is one of them once it has a string path and a language. *)
Lemma add_file_nodes (cd : codebase) (file_data : pyval) (g : digraph) :
  (forall n, has_node g n = true ->
             has_node (snd (add_file cd file_data g)) n = true) /\
  (forall s lang,
      getitem file_data "file_path" = Ok (PStr s) ->
      getitem file_data "language" = Ok lang ->
      has_node (snd (add_file cd file_data g)) (PStr s) = true).
Proof.
  assert (Hbody :
    (forall n, has_node g n = true ->
               has_node (snd (add_file_body cd file_data g)) n = true) /\
    (forall s lang,
        getitem file_data "file_path" = Ok (PStr s) ->
        getitem file_data "language" = Ok lang ->
        has_node (snd (add_file_body cd file_data g)) (PStr s) = true)).
  { unfold add_file_body.
    destruct (getitem file_data "file_path") as [fp | e];
      [| split; [auto | discriminate]].
    destruct (getitem file_data "language") as [lang | e];
      [| split; [auto | discriminate]].
    destruct (add_node g fp lang) as [g1 | e] eqn:Hn.
    - assert (Hkeep : forall n, has_node g n = true -> has_node g1 n = true)
        by (intros n; apply (add_node_keeps_nodes g g1 fp lang n Hn)).
      assert (Hadd : forall s, fp = PStr s -> has_node g1 (PStr s) = true).
      { intros s ->. unfold add_node in Hn. cbn in Hn. injection Hn as <-.
        apply has_node_iff. cbn [g_nodes]. apply set_node_attr_adds. }
      assert (Hall : forall g2,
                 (forall n, has_node g1 n = true -> has_node g2 n = true) ->
                 (forall n, has_node g n = true -> has_node g2 n = true) /\
                 (forall s lang',
                     Ok fp = Ok (PStr s) -> Ok lang = Ok lang' ->
                     has_node g2 (PStr s) = true)).
      { intros g2 H12. split; [auto |].
        intros s lang' Hs _. injection Hs as ->. auto. }
      destruct (match lang with
                | PStr s => mem_string s dependency_languages
                | _ => false
                end); [| now apply Hall].
      destruct (getitem file_data "analysis") as [analysis | e];
        [| now apply Hall].
      destruct (getitem analysis "imports") as [imports | e];
        [| now apply Hall].
      destruct (py_iter imports) as [l | e]; [| now apply Hall].
      apply Hall. intros n. apply add_imports_keeps_nodes.
    - split; [auto |]. intros s lang' Hs _. injection Hs as ->.
      unfold add_node in Hn. cbn in Hn. discriminate. }
  unfold add_file.
  destruct (add_file_body cd file_data g) as [[t [e |]] g'];
    [destruct e |]; exact Hbody.
Qed.

Lemma fold_add_file_nodes (cd : codebase) (l : list pyval)
    (acc : list event * digraph) :
  let final :=
    snd (fold_left
           (fun acc file_data =>
              let '(t, g) := acc in
              let '(t', g') := add_file cd file_data g in
              (t ++ t', g')) l acc) in
  (forall n, has_node (snd acc) n = true -> has_node final n = true) /\
  (forall d s lang,
      In d l -> getitem d "file_path" = Ok (PStr s) ->
      getitem d "language" = Ok lang -> has_node final (PStr s) = true).
Proof.
  revert acc. induction l as [| d l IH]; intros [t g]; cbn [fold_left].
  - split; [auto | intros d s lang []].
  - destruct (add_file_nodes cd d g) as [Hk Ha].
    destruct (add_file cd d g) as [t' g'] eqn:Haf. cbn [snd] in *.
    destruct (IH (t ++ t', g')) as [IHk IHa]. cbn [snd] in *.
    split.
    + intros n Hn. apply IHk, Hk, Hn.
    + intros d' s lang [<- | Hin] Hp Hl.
      * apply IHk. now apply (Ha s lang).
      * now apply (IHa d' s lang).
Qed.

(** Every record that has a string path and a language is a node of the
    dependency graph, with or without imports, and whatever goes wrong
    while its imports or later records are handled. *)
Theorem dependency_graph_has_every_record :
  forall (codebase_data : codebase) (data : pyval) (path : string)
         (language : pyval),
    In data (all_records codebase_data) ->
    getitem data "file_path" = Ok (PStr path) ->
    getitem data "language" = Ok language ->
    has_node (snd (build_dependency_graph codebase_data)) (PStr path) = true.
Proof.
  intros cd data path language Hin Hp Hl. unfold build_dependency_graph.
  destruct (fold_add_file_nodes cd (all_records cd) ([], empty_graph))
    as [_ H].
  now apply (H data path language).
Qed.

Lemma dependency_graph_has_every_record_witness :
  has_node (snd (build_dependency_graph test_codebase))
    (PStr "module1/style.css") = true.
Proof.
  apply (dependency_graph_has_every_record test_codebase
           (import_record "module1/style.css" "css" []) "module1/style.css"
           (PStr "css")).
  - vm_compute. auto.
  - reflexivity.
  - reflexivity.
Defined.

Lemma fold_add_file_no_edges (cd : codebase) (l : list pyval)
    (acc : list event * digraph) :
  (forall d s, In d l -> getitem d "language" = Ok (PStr s) ->
               mem_string s dependency_languages = false) ->
  g_edges (snd acc) = [] ->
  g_edges
    (snd (fold_left
            (fun acc file_data =>
               let '(t, g) := acc in
               let '(t', g') := add_file cd file_data g in
               (t ++ t', g')) l acc)) = [].
Proof.
  revert acc. induction l as [| d l IH]; intros [t g] Hl Hg; [exact Hg |].
  cbn [fold_left]. apply IH; [intros d' s Hd'; apply Hl; now right |].
  assert (Hbody : g_edges (snd (add_file_body cd d g)) = []).
  { unfold add_file_body.
    destruct (getitem d "file_path") as [fp | e]; [| exact Hg].
    destruct (getitem d "language") as [lang | e] eqn:Hlang; [| exact Hg].
    destruct (add_node g fp lang) as [g1 | e] eqn:Hn; [| exact Hg].
    assert (Hg1 : g_edges g1 = [])
      by now rewrite (add_node_edges g g1 fp lang Hn).
    destruct lang as [| | | | s | | |]; try exact Hg1.
    rewrite (Hl d s (or_introl eq_refl) Hlang). exact Hg1. }
  unfold add_file.
  destruct (add_file_body cd d g) as [[t' [e |]] g'];
    [destruct e |]; exact Hbody.
Qed.

(** Only Python, JavaScript and TypeScript records have their imports
    followed: a module map without such records gives a graph without
    edges, whatever the import lists of its records hold. *)
Theorem other_languages_have_no_edges :
  forall codebase_data : codebase,
    no_import_language codebase_data ->
    g_edges (snd (build_dependency_graph codebase_data)) = [].
Proof.
  intros cd H. unfold build_dependency_graph.
  apply fold_add_file_no_edges; [| reflexivity].
  intros d s Hin Hl. now apply (H d s).
Qed.

Lemma other_languages_have_no_edges_witness :
  g_edges
    (snd (build_dependency_graph
            [("styles", [import_record "styles/a.css" "css" ["b"];
                         import_record "styles/b.css" "css" []])])) = [].
Proof.
  apply other_languages_have_no_edges.
  intros data s Hin Hl. vm_compute in Hin.
  destruct Hin as [<- | [<- | []]]; injection Hl as <-; reflexivity.
Defined.

(** *** The null-byte probe *)

Lemma existsb_firstn_skipn {A} (f : A -> bool) (n : nat) (l : list A) :
  existsb f l = existsb f (firstn n l) || existsb f (skipn n l).
Proof. now rewrite <- existsb_app, firstn_skipn. Qed.

Lemma scan_chunks_enough (fuel : nat) (rest : list Byte.byte) :
  List.length rest < fuel ->
  scan_chunks fuel rest = Some (existsb is_nul rest).
Proof.
  assert (Hpos : 0 < CHUNKSIZE) by (apply Nat.ltb_lt; reflexivity).
  revert rest. induction fuel as [| fuel IH]; intros rest Hlen; [lia |].
  cbn [scan_chunks].
  rewrite (existsb_firstn_skipn is_nul CHUNKSIZE rest).
  destruct (existsb is_nul (firstn CHUNKSIZE rest)); [reflexivity |].
  cbn [orb]. rewrite length_firstn.
  destruct (Nat.ltb (Nat.min CHUNKSIZE (List.length rest)) CHUNKSIZE) eqn:E.
  - apply Nat.ltb_lt in E.
    rewrite skipn_all2 by lia. reflexivity.
  - apply Nat.ltb_ge in E.
    rewrite IH; [reflexivity | rewrite length_skipn; lia].
Qed.

Lemma is_binary_result (read_bytes : string -> res (list Byte.byte))
    (file_path : string) :
  result (is_binary read_bytes file_path) =
  match read_bytes file_path with
  | Ok content => Ok (existsb is_nul content)
  | Raise e => if is_OSError e then Ok false else Raise e
  end.
Proof.
  unfold is_binary.
  destruct (read_bytes file_path) as [content | e].
  - rewrite scan_chunks_enough by lia. reflexivity.
  - destruct (is_OSError e); reflexivity.
Qed.

(** [is_binary] answers True exactly when the file holds a null byte, in
    whichever chunk it lies and whatever the length of the file; a file
    that cannot be read counts as not binary. *)
Theorem is_binary_finds_any_null_byte :
  forall (read_bytes : string -> res (list Byte.byte)) (file_path : string),
    result (is_binary read_bytes file_path) =
    match read_bytes file_path with
    | Ok content => Ok (existsb is_nul content)
    | Raise e => if is_OSError e then Ok false else Raise e
    end.
Proof.
  intros read_bytes file_path. apply is_binary_result.
Qed.

(** *** Statistics *)

Lemma stats_file_total (file_data : pyval) (s : stats) :
  total_files (snd (stats_file file_data s)) = (total_files s + 1)%Z.
Proof.
  unfold stats_file.
  repeat match goal with
         | |- context [match ?x with _ => _ end] => destruct x
         end; reflexivity.
Qed.

Lemma fold_stats_file_total (l : list pyval) (t : list event) (s : stats) :
  total_files
    (snd (fold_left (fun a file_data =>
                       let '(t1, s1) := a in
                       let '(t2, s2) := stats_file file_data s1 in
                       (t1 ++ t2, s2)) l (t, s)))
  = (total_files s + Z.of_nat (List.length l))%Z.
Proof.
  revert t s. induction l as [| fd l IH]; intros t s; cbn [fold_left].
  - cbn [snd List.length Z.of_nat]. lia.
  - pose proof (stats_file_total fd s) as H.
    destruct (stats_file fd s) as [t2 s2]. cbn [snd] in H.
    rewrite IH, H. cbn [List.length]. lia.
Qed.

Lemma fold_stats_module_total (cd : codebase) (acc : list event * stats) :
  total_files
    (snd (fold_left (fun acc kv => stats_module (fst kv) (snd kv) acc) cd acc))
  = (total_files (snd acc) + Z.of_nat (List.length (all_records cd)))%Z.
Proof.
  revert acc. induction cd as [| [m l] cd IH]; intros [t s]; cbn [fold_left].
  - cbn. lia.
  - rewrite IH. unfold stats_module. cbn [fst snd].
    rewrite fold_stats_file_total. cbn [total_files].
    unfold all_records. cbn [map concat snd]. rewrite length_app. lia.
Qed.

(** [total_files] is the number of records of the module map, the ones
    whose metadata or language cannot be read included: the counter moves
    before anything that can fail. *)
Theorem total_files_counts_every_record :
  forall codebase_data : codebase,
    total_files (snd (calculate_codebase_stats codebase_data))
    = Z.of_nat (List.length (all_records codebase_data)).
Proof.
  intros cd. unfold calculate_codebase_stats.
  rewrite fold_stats_module_total. reflexivity.
Qed.

(** *** What validation guarantees *)

Lemma valid_object_inv (types : list jtype)
    (properties : list (string * schema_t)) (required : list string)
    (d : list (string * pyval)) :
  valid (Schema types properties required) (PDict d) = true ->
  (forall k, In k required -> exists x, dict_get d k = Some x) /\
  (forall k sk x, In (k, sk) properties -> dict_get d k = Some x ->
                  valid sk x = true).
Proof.
  cbn [valid]. intros H.
  apply andb_true_iff in H as [_ H]. apply andb_true_iff in H as [Hr Hp].
  rewrite forallb_forall in Hr, Hp. split.
  - intros k Hk. specialize (Hr k Hk). unfold has_key in Hr.
    destruct (dict_get d k) as [x |]; [eauto | discriminate].
  - intros k sk x Hin Hget. specialize (Hp (k, sk) Hin).
    cbn beta iota in Hp. now rewrite Hget in Hp.
Qed.

Lemma valid_typed (t : jtype) (x : pyval) :
  valid (ty t) x = true -> has_type t x = true.
Proof.
  unfold ty. cbn [valid existsb]. intros H.
  apply andb_true_iff in H as [H _]. now rewrite orb_false_r in H.
Qed.

Lemma valid_schema_well_formed (v : pyval) :
  valid schema v = true -> well_formed_record v.
Proof.
  intros H. destruct v as [| | | | | | d |]; try discriminate.
  unfold schema in H. destruct (valid_object_inv _ _ _ _ H) as [Hreq Hprop].
  destruct (Hreq "file_path") as [fp Hfp]; [simpl; auto |].
  destruct (Hreq "language") as [lang Hlang]; [simpl; auto |].
  destruct (Hreq "content") as [content Hcontent]; [simpl; auto |].
  destruct (Hreq "analysis") as [analysis Hanalysis]; [simpl; auto |].
  destruct (Hreq "metadata") as [metadata Hmetadata]; [simpl; auto 6 |].
  pose proof (Hprop "file_path" _ fp (or_introl eq_refl) Hfp) as Vfp.
  pose proof (Hprop "language" _ lang (or_intror (or_introl eq_refl)) Hlang)
    as Vlang.
  pose proof (Hprop "content" _ content
                (or_intror (or_intror (or_introl eq_refl))) Hcontent)
    as Vcontent.
  pose proof (Hprop "analysis" _ analysis
                (or_intror (or_intror (or_intror (or_introl eq_refl))))
                Hanalysis) as Vanalysis.
  pose proof (Hprop "metadata" _ metadata
                (or_intror (or_intror (or_intror (or_intror
                   (or_introl eq_refl))))) Hmetadata) as Vmetadata.
  apply valid_typed in Vfp, Vlang.
  destruct fp as [| | | | fp | | |]; try discriminate.
  destruct lang as [| | | | lang | | |]; try discriminate.
  destruct analysis as [| | | | | | analysis |]; try discriminate.
  destruct metadata as [| | | | | | metadata |]; try discriminate.
  destruct (valid_object_inv _ _ _ _ Vmetadata) as [Mreq Mprop].
  destruct (Mreq "size") as [size Hsize]; [simpl; auto |].
  pose proof (Mprop "size" _ size (or_intror (or_introl eq_refl)) Hsize)
    as Vsize.
  apply valid_typed in Vsize.
  exists d, fp, lang, content, analysis, metadata, size.
  repeat split; try assumption.
  destruct content; try discriminate; eauto.
Qed.

Lemma validate_json_true (data : pyval) :
  result (validate_json data) = Ok true -> valid schema data = true.
Proof.
  intros H. unfold validate_json in H.
  destruct (valid schema data); [reflexivity |].
  destruct (getitem data "file_path"); cbn in H; discriminate.
Qed.

(** A record that [validate_json] accepts is a dict that has every
    required field with its declared type: string [file_path] and
    [language], string or null [content], dict [analysis], dict [metadata]
    with an integer [size]. *)
Theorem validate_json_accepts_only_well_formed :
  forall data : pyval,
    result (validate_json data) = Ok true -> well_formed_record data.
Proof.
  intros data H. now apply valid_schema_well_formed, validate_json_true.
Qed.

Lemma validate_json_accepts_only_well_formed_witness :
  well_formed_record test_valid_json.
Proof.
  apply validate_json_accepts_only_well_formed. reflexivity.
Defined.

Lemma validate_file_path_result (x : pyval) :
  result (validate_file_path x) = Ok (truthy x).
Proof. unfold validate_file_path. destruct (truthy x); reflexivity. Qed.

Lemma validate_language_result (x : pyval) :
  result (validate_language x) =
  Ok match x with
     | PStr s => mem_string s supported_languages
     | _ => false
     end.
Proof.
  unfold validate_language.
  destruct x as [| | | | s | | |]; try reflexivity.
  destruct (mem_string s supported_languages); reflexivity.
Qed.

Lemma validate_content_result (x : pyval) :
  result (validate_content x) =
  Ok match x with PNone => true | _ => truthy x end.
Proof.
  unfold validate_content.
  destruct x; try reflexivity;
    match goal with |- context [truthy ?v] => destruct (truthy v) end;
    reflexivity.
Qed.

Lemma validate_metadata_true (x : pyval) :
  result (validate_metadata x) = Ok true ->
  exists size, getitem x "size" = Ok size /\ py_lt0 size = Ok false.
Proof.
  intros H. unfold validate_metadata in H.
  destruct (truthy x); [| cbn in H; discriminate]. cbn [negb] in H.
  destruct (py_contains "size" x) as [[|] | e];
    [rewrite bind_lift_ok in H | cbn in H; discriminate
     | cbn in H; discriminate].
  cbn [negb] in H.
  destruct (getitem x "size") as [size | e] eqn:Hsize;
    [rewrite bind_lift_ok in H | cbn in H; discriminate].
  destruct (py_lt0 size) as [[|] | e] eqn:Hneg;
    [cbn in H; discriminate | | cbn in H; discriminate].
  now exists size.
Qed.

Lemma validate_data_true (data : pyval) :
  result (validate_data data) = Ok true ->
  result (validate_json data) = Ok true /\
  exists file_path language content metadata size,
    dot_get data "file_path" = Ok file_path /\ truthy file_path = true /\
    dot_get data "language" = Ok (PStr language) /\
    In language supported_languages /\
    dot_get data "content" = Ok content /\ content <> PStr "" /\
    dot_get data "metadata" = Ok metadata /\
    getitem metadata "size" = Ok size /\ py_lt0 size = Ok false.
Proof.
  intros H. unfold validate_data in H.
  peel H. rename a into fp, E into Efp.
  peel H. rewrite validate_file_path_result in E. injection E as <-.
  destruct (truthy fp) eqn:Tfp; cbn [negb] in H; [| discriminate].
  peel H. rename a into lang, E into Elang.
  peel H. rewrite validate_language_result in E. injection E as <-.
  destruct lang as [| | | | lang | | |]; cbn [negb] in H; try discriminate.
  destruct (mem_string lang supported_languages) eqn:Hl; cbn [negb] in H;
    [| discriminate].
  peel H. rename a into content, E into Econtent.
  peel H. rewrite validate_content_result in E. injection E as <-.
  assert (Hc : content <> PStr "").
  { intros ->. cbn in H. discriminate. }
  destruct (match content with PNone => true | _ => truthy content end);
    cbn [negb] in H; [| discriminate].
  peel H. rename a into analysis.
  peel H. destruct a; cbn [negb] in H; [| discriminate].
  peel H. rename a into metadata, E1 into Emeta.
  peel H. destruct a; cbn [negb] in H; [| discriminate].
  apply validate_metadata_true in E1 as [size [Hsize Hneg]].
  peel H. destruct a; cbn [negb] in H; [| discriminate].
  split; [assumption |].
  exists fp, lang, content, metadata, size.
  unfold result, lift in *. cbn [snd] in *.
  repeat split; try assumption.
  now apply mem_string_In.
Qed.

(** A record that [validate_data] accepts also passes [validate_json] and,
    beyond the schema, has a non-empty path, a language of the supported
    list, a content that is not the empty string and a size that is not
    negative. *)
Theorem validate_data_is_stricter :
  forall data : pyval,
    result (validate_data data) = Ok true ->
    result (validate_json data) = Ok true /\
    exists file_path language content metadata size,
      dot_get data "file_path" = Ok file_path /\ truthy file_path = true /\
      dot_get data "language" = Ok (PStr language) /\
      In language supported_languages /\
      dot_get data "content" = Ok content /\ content <> PStr "" /\
      dot_get data "metadata" = Ok metadata /\
      getitem metadata "size" = Ok size /\ py_lt0 size = Ok false.
Proof.
  intros data. apply validate_data_true.
Qed.

Lemma validate_data_is_stricter_witness :
  result (validate_json test_valid_json) = Ok true.
Proof.
  apply (validate_data_is_stricter test_valid_json). reflexivity.
Defined.

(** *** What the handlers return *)

Lemma or_none_returns (what file_path : string) (m : M pyval) :
  exists v, result (or_none what file_path m) = Ok v.
Proof.
  unfold or_none. rewrite result_try.
  destruct (result m) as [v | e]; [now exists v | now exists PNone].
Qed.

Lemma call_handler_returns (w : World) (h : handler)
    (file_path module_path : string) (language : pyval) :
  (exists v, result (call_handler w h file_path module_path language) = Ok v)
  \/ (h = h_image /\
      call_handler w h file_path module_path language = ([], Raise TypeError)).
Proof.
  destruct h; cbn [call_handler];
    try (left; apply or_none_returns).
  right. split; reflexivity.
Qed.

(** Fault isolation in the handlers: whatever the parsers, the linter, the
    entity extractor or the file system raise, a handler returns a value
    (None on failure); the only call that raises is the one of the image
    handler, which is given four arguments and accepts two. *)
Theorem handlers_catch_their_errors :
  forall (w : World) (h : handler) (file_path module_path : string)
         (language : pyval),
    (exists v,
        result (call_handler w h file_path module_path language) = Ok v) \/
    (h = h_image /\
     call_handler w h file_path module_path language = ([], Raise TypeError)).
Proof.
  intros. apply call_handler_returns.
Qed.

Lemma rv_bind {A} (m : M A) (k : A -> M pyval) :
  (forall a, returns_valid (k a)) -> returns_valid (bind m k).
Proof.
  intros Hk v. rewrite result_bind.
  destruct (result m) as [a | e]; [apply Hk | discriminate].
Qed.

Lemma rv_none : returns_valid (ret PNone).
Proof. intros v H. injection H as <-. now left. Qed.

Lemma rv_or_none (what file_path : string) (m : M pyval) :
  returns_valid m -> returns_valid (or_none what file_path m).
Proof.
  intros Hm v. unfold or_none. rewrite result_try.
  destruct (result m) as [v' | e] eqn:E.
  - intros H. injection H as <-. now apply Hm.
  - intros H. injection H as <-. now left.
Qed.

Lemma rv_validate_and_save (w : World) (data : pyval)
    (file_path module_path : string) :
  returns_valid (validate_and_save w data file_path module_path).
Proof.
  intros v. unfold validate_and_save. rewrite result_bind.
  destruct (result (validate_json data)) as [[|] | e] eqn:E;
    [| | discriminate].
  - rewrite result_bind.
    destruct (result (save_to_jsonl w data (module_path ++ ".jsonl")));
      [| discriminate].
    intros H. injection H as <-. right. now apply validate_json_true.
  - rewrite result_bind. cbn. intros H. injection H as <-. now left.
Qed.

Ltac rv_step :=
  first [ apply rv_validate_and_save
        | apply rv_none
        | apply rv_bind; intros ?
        | match goal with
          | |- returns_valid (if ?c then _ else _) => destruct c
          | |- returns_valid (match ?x with _ => _ end) => destruct x
          end ].

Lemma validating_handler_returns_valid (w : World) (h : handler)
    (file_path module_path : string) (language : pyval) :
  validating h = true ->
  returns_valid (call_handler w h file_path module_path language).
Proof.
  intros Hv. destruct h; try discriminate; cbn [call_handler].
  - unfold process_python_file. apply rv_or_none. repeat rv_step.
  - unfold process_javascript_file. apply rv_or_none. repeat rv_step.
  - unfold process_html_file. apply rv_or_none. repeat rv_step.
  - unfold process_css_file. apply rv_or_none. repeat rv_step.
  - unfold process_typescript_file. apply rv_or_none. repeat rv_step.
  - unfold process_jsx_file, process_node_parsed. apply rv_or_none.
    repeat rv_step.
  - unfold process_vue_file, process_node_parsed. apply rv_or_none.
    repeat rv_step.
Qed.

(** The handlers that validate (Python, JavaScript, HTML, CSS, TypeScript,
    JSX, Vue) never hand an invalid record to their caller: what they
    return is None or satisfies the schema. *)
Theorem validating_handlers_return_valid_records :
  forall (w : World) (h : handler) (file_path module_path : string)
         (language v : pyval),
    validating h = true ->
    result (call_handler w h file_path module_path language) = Ok v ->
    v = PNone \/ valid schema v = true.
Proof.
  intros w h f mp lang v Hv.
  now apply validating_handler_returns_valid.
Qed.

Lemma validating_handlers_return_valid_records_witness :
  exists v,
    result (call_handler html_world h_html "repo/site/index.html" "repo/site"
              (PStr "html")) = Ok v /\
    (v = PNone \/ valid schema v = true) /\ v <> PNone.
Proof.
  eexists. split; [vm_compute; reflexivity |]. split.
  - apply (validating_handlers_return_valid_records html_world h_html
             "repo/site/index.html" "repo/site" (PStr "html"));
      reflexivity.
  - discriminate.
Defined.

Lemma async_read_result (w : World) (f : string) (c : pyval) :
  result (async_read w f) = Ok c ->
  c = PNone \/
  exists s, c = PStr s /\ w_read_utf8 w f = Ok s /\
            result (is_binary_file w f) = Ok false.
Proof.
  unfold async_read. rewrite result_bind.
  destruct (result (is_binary_file w f)) as [[|] | e]; [| | discriminate].
  - intros H. injection H as <-. now left.
  - unfold read_text_file. rewrite result_try, result_bind.
    unfold result at 1, lift. cbn [snd].
    destruct (w_read_utf8 w f) as [s | e].
    + intros H. injection H as <-. right. now exists s.
    + destruct (is_OSError e || match e with
                                | UnicodeDecodeError => true
                                | _ => false
                                end).
      * intros H. injection H as <-. now left.
      * discriminate.
Qed.

Lemma nlp_entities_result (w : World) (c e : pyval) :
  result (nlp_entities w c) = Ok e -> exists l, e = entities_of l.
Proof.
  unfold nlp_entities, bind, emit, lift, ret, result.
  destruct (w_nlp w c) as [l | e']; cbn; [| discriminate].
  intros H. injection H as <-. now exists l.
Qed.

Lemma getsize_result (w : World) (f : string) (s : pyval) :
  getsize w f = Ok s -> exists n, s = PInt (Z.of_N n) /\ w_getsize w f = Ok n.
Proof.
  unfold getsize. destruct (w_getsize w f) as [n | e]; [| discriminate].
  intros H. injection H as <-. now exists n.
Qed.

(** The record of [default_handler], field by field. *)
Lemma default_handler_record (w : World) (f mp : string) (lang v : pyval) :
  result (default_handler w f mp lang) = Ok v ->
  v = PNone \/
  exists c ents loc n,
    v = record f lang c [("entities", entities_of ents)]
          [("loc", PInt loc); ("size", PInt (Z.of_N n))] mp /\
    w_getsize w f = Ok n /\
    (c = PNone \/ exists s, c = PStr s /\ w_read_utf8 w f = Ok s).
Proof.
  unfold default_handler, or_none. rewrite result_try.
  match goal with
  | |- match result ?body with _ => _ end = _ -> _ =>
      destruct (result body) as [v' | e] eqn:E
  end; [| intros H; injection H as <-; now left].
  intros H. injection H as <-. right.
  peel E. rename a into c, E0 into Hc.
  peel E. rename a into ents, E0 into Hents.
  peel E. rename a into loc, E0 into Hloc.
  peel E. rename a into size, E0 into Hsize.
  unfold result, ret in E. cbn [snd] in E. injection E as <-.
  unfold result, lift in Hsize. cbn [snd] in Hsize.
  destruct (getsize_result w f size Hsize) as [n [-> Hn]].
  destruct (async_read_result w f c Hc) as [-> | [s [-> [Hs _]]]].
  - cbn in Hents. injection Hents as <-.
    exists PNone, [], loc, n. auto.
  - destruct (nlp_entities_result w (PStr s) ents Hents) as [l ->].
    exists (PStr s), l, loc, n. split; [reflexivity |]. split; [exact Hn |].
    right. now exists s.
Qed.

Lemma default_handler_valid (w : World) (f mp lang : string) (v : pyval) :
  result (default_handler w f mp (PStr lang)) = Ok v ->
  v = PNone \/
  (valid schema v = true /\
   getitem v "file_path" = Ok (PStr f) /\
   (exists metadata n,
       getitem v "metadata" = Ok (PDict metadata) /\
       dict_get metadata "size" = Some (PInt (Z.of_N n)) /\
       w_getsize w f = Ok n) /\
   (getitem v "content" = Ok PNone \/
    exists s, getitem v "content" = Ok (PStr s) /\ w_read_utf8 w f = Ok s)).
Proof.
  intros H.
  destruct (default_handler_record w f mp (PStr lang) v H)
    as [-> | [c [ents [loc [n [-> [Hn Hc]]]]]]]; [now left |].
  right. split; [| split; [reflexivity | split]].
  - destruct Hc as [-> | [s [-> _]]]; reflexivity.
  - exists [("loc", PInt loc); ("size", PInt (Z.of_N n))], n.
    repeat split; auto.
  - destruct Hc as [-> | [s [-> Hs]]]; [now left |].
    right. now exists s.
Qed.

(** With a string language, what [default_handler] returns is None or a
    record that satisfies the schema, although the handler does not
    validate it: its content is null or the text read from the file and
    its size is the one the file system reports. *)
Theorem default_handler_record_is_valid :
  forall (w : World) (file_path module_path language : string) (v : pyval),
    result (default_handler w file_path module_path (PStr language)) = Ok v ->
    v = PNone \/
    (valid schema v = true /\
     getitem v "file_path" = Ok (PStr file_path) /\
     (exists metadata n,
         getitem v "metadata" = Ok (PDict metadata) /\
         dict_get metadata "size" = Some (PInt (Z.of_N n)) /\
         w_getsize w file_path = Ok n) /\
     (getitem v "content" = Ok PNone \/
      exists s, getitem v "content" = Ok (PStr s) /\
                w_read_utf8 w file_path = Ok s)).
Proof.
  intros w f mp lang v. apply default_handler_valid.
Qed.

Lemma default_handler_record_is_valid_witness :
  valid schema mod_py_record = true.
Proof.
  destruct (default_handler_record_is_valid py_world "repo/pkg/mod.py" "pkg"
              "python" mod_py_record) as [H | [H _]].
  - reflexivity.
  - discriminate.
  - exact H.
Defined.

(** *** What gets appended *)

Lemma ao_quiet (Q : string -> pyval -> Prop) (m : M unit) :
  appended (trace m) = [] -> appends_only Q m.
Proof. intros H o line Hin. rewrite H in Hin. destruct Hin. Qed.

Lemma ao_bind {A} (Q : string -> pyval -> Prop) (m : M A) (k : A -> M unit) :
  traced no_append m ->
  (forall a, result m = Ok a -> appends_only Q (k a)) ->
  appends_only Q (bind m k).
Proof.
  intros Hm Hk o line. rewrite trace_bind, appended_app.
  rewrite (no_append_appended _ Hm). cbn [app].
  destruct (result m) as [a | e]; [apply (Hk a eq_refl) | intros []].
Qed.

Lemma ao_save (Q : string -> pyval -> Prop) (w : World) (file_data : pyval)
    (out : string) :
  Q out (to_json file_data) -> appends_only Q (save_to_jsonl w file_data out).
Proof.
  intros HQ o line. unfold save_to_jsonl.
  destruct (os_makedirs w (dirname out)) as [[] | e]; cbn.
  - destruct (w_open_write w out) as [[] | e]; cbn.
    + intros [H | []]. now injection H as <- <-.
    + destruct (is_OSError e || is_ValueError e); intros [].
  - destruct (is_OSError e || is_ValueError e); intros [].
Qed.

Lemma guess_language_shape (w : World) (f : string) (lang : pyval) :
  result (guess_language w f) = Ok lang -> to_json lang = lang.
Proof.
  unfold guess_language. rewrite result_try, result_bind.
  unfold result at 1, lift. cbn [snd].
  destruct (w_lexer_name w f) as [name | e]; cbn;
    intros H; injection H as <-; reflexivity.
Qed.

Lemma finish_record_persists (w : World) (f mp out : string)
    (lang0 lang c e0 : pyval) (loc : Z) (n : N) :
  result (guess_language w f) = Ok lang ->
  w_getsize w f = Ok n ->
  (c = PNone \/ exists s, c = PStr s /\ w_read_utf8 w f = Ok s) ->
  appends_only (persisted_ok w f mp out)
    (finish_record w
       (record f lang0 c [("entities", e0)]
          [("loc", PInt loc); ("size", PInt (Z.of_N n))] mp)
       lang f mp out).
Proof.
  intros Hlang Hn Hc. unfold finish_record.
  apply ao_bind; [no_appends | intros fd1 H1].
  unfold result, lift in H1. simpl in H1. injection H1 as <-.
  apply ao_bind; [no_appends | intros c' H2].
  unfold result, lift in H2. simpl in H2. injection H2 as <-.
  apply ao_bind; [no_appends | intros ents _].
  apply ao_bind; [no_appends | intros fd2 H3].
  unfold result, lift in H3. simpl in H3. injection H3 as <-.
  apply ao_bind; [no_appends | intros fc _].
  apply ao_bind; [no_appends | intros fd3 H4].
  unfold result, lift in H4. simpl in H4. injection H4 as <-.
  apply ao_bind; [no_appends | intros cd _].
  apply ao_bind; [no_appends | intros fd4 H5].
  unfold result, lift in H5. simpl in H5. injection H5 as <-.
  destruct (mp =? "")%string eqn:Emp; [now apply ao_quiet |].
  apply ao_save. unfold persisted_ok.
  apply String.eqb_neq in Emp.
  cbn [to_json map fst snd getitem dict_get String.eqb Ascii.eqb Bool.eqb].
  rewrite (guess_language_shape w f lang Hlang), Hlang.
  repeat split; try assumption.
  - exists [("loc", PInt loc); ("size", PInt (Z.of_N n))], n. auto.
  - destruct Hc as [-> | [s [-> Hs]]]; [now left |].
    right. now exists s.
Qed.

Lemma process_file_body_persists (w : World) (f mp out : string) :
  appends_only (persisted_ok w f mp out) (process_file_body w f mp out).
Proof.
  unfold process_file_body.
  destruct (w_exists w f); cbn [negb]; [| now apply ao_quiet].
  apply ao_bind; [no_appends | intros [|] Hb]; [now apply ao_quiet |].
  apply ao_bind; [no_appends | intros ft Hft].
  destruct (text_gate w f ft Hb Hft) as [t [-> Ht]].
  rewrite (text_type_default t Ht).
  apply ao_bind; [no_appends | intros lang Hlang].
  apply ao_bind; [no_appends | intros _ _].
  cbn [call_handler].
  apply ao_bind; [no_appends | intros fd Hfd].
  destruct (default_handler_record w f mp lang fd Hfd)
    as [-> | [c [ents [loc [n [-> [Hn Hc]]]]]]].
  - now apply ao_quiet.
  - cbn [truthy record]. now apply finish_record_persists.
Qed.

Lemma process_file_persists (w : World) (f mp out : string) :
  appends_only (persisted_ok w f mp out) (process_file w f mp out).
Proof.
  pose proof (process_file_body_persists w f mp out) as H.
  intros o line. unfold process_file. rewrite trace_try, appended_app.
  intros Hin. apply in_app_or in Hin as [Hin | Hin]; [now apply H |].
  destruct (result (process_file_body w f mp out)) as [u | e];
    [destruct Hin | destruct e; destruct Hin].
Qed.

(** Every line that [process_file] appends goes to the log of its module
    under the output directory, for a non-empty module path, and records
    the file's own path, the module path, the language [guess_language]
    gave (null when it failed), the size the file system reports, which is
    never negative, and as content null or the text read from the file. *)
Theorem persisted_record_fields :
  forall (w : World) (file_path module_path out o : string) (line : pyval),
    In (o, line) (appended (trace (process_file w file_path module_path out)))
    -> persisted_ok w file_path module_path out o line.
Proof.
  intros w f mp out o line. apply process_file_persists.
Qed.

Lemma persisted_record_fields_witness :
  exists line,
    persisted_ok py_world "repo/pkg/mod.py" "pkg" "out" "out/pkg.jsonl" line.
Proof.
  eexists.
  apply (persisted_record_fields py_world "repo/pkg/mod.py" "pkg" "out").
  vm_compute. left. reflexivity.
Defined.

(** *** What a run never does *)

Lemma process_file_no_run (w : World) (f mp out : string) :
  traced no_run (process_file w f mp out).
Proof.
  assert (Hlog : forall l m a, no_run (EvLog l m a) = true) by reflexivity.
  unfold process_file, process_file_body, finish_record.
  apply traced_try; [| intros e; destruct e; now apply traced_log].
  destruct (w_exists w f); cbn [negb]; [| now apply traced_log].
  apply traced_bind_result; [now apply traced_is_binary_file |].
  intros [|] Hb; [apply traced_ret |].
  apply traced_bind_result; [now apply traced_guess_file_type |].
  intros ft Hft.
  destruct (text_gate w f ft Hb Hft) as [t [-> Ht]].
  rewrite (text_type_default t Ht). cbn [call_handler].
  apply traced_bind; [now apply traced_guess_language |].
  intros language.
  repeat first [ now apply traced_log
               | now apply traced_default_handler
               | now apply traced_nlp_entities
               | now apply traced_calculate_function_count
               | now apply traced_calculate_comment_density
               | traced_step ].
  all: unfold save_to_jsonl;
    repeat first [ now apply traced_log | traced_step ].
Qed.

Section LiftToRun.
Variable P : event -> bool.
Variable w : World.
Hypothesis P_log : forall l m a, P (EvLog l m a) = true.
Hypothesis P_write : forall c, P (EvWriteCache c) = true.
Hypothesis P_file : forall f mp out, traced P (process_file w f mp out).

Lemma lifted_run_tasks (tasks : list task) :
  forallb P (run_tasks w tasks) = true.
Proof.
  induction tasks as [| [[f mp] out] tasks IH]; [reflexivity |].
  cbn [run_tasks]. rewrite forallb_app, IH, andb_true_r.
  unfold process_file_in_pool.
  apply traced_try; [apply P_file | intros; now apply traced_log].
Qed.

Lemma lifted_directory (d root out : string) :
  traced P (process_directory_concurrently w d root out).
Proof.
  unfold process_directory_concurrently.
  apply traced_bind; [| intros; apply traced_ret].
  apply traced_try; [| intros; now apply traced_log].
  apply traced_bind; [apply traced_lift |].
  intros l. apply lifted_run_tasks.
Qed.

Lemma lifted_walk (root out : string) (roots : list string) (cd : codebase) :
  forallb P (fst (fst (walk_directories w roots root out cd))) = true.
Proof.
  revert cd. induction roots as [| d roots IH]; intros cd; [reflexivity |].
  cbn [walk_directories].
  pose proof (lifted_directory d root out) as Hd.
  destruct (process_directory_concurrently w d root out) as [t [dd | e]];
    unfold traced, trace in Hd; cbn [fst] in Hd; [| exact Hd].
  specialize (IH (codebase_update cd dd)).
  destruct (walk_directories w roots root out (codebase_update cd dd))
    as [[t' e'] cd'].
  cbn [fst] in *. now rewrite forallb_app, Hd, IH.
Qed.

Lemma lifted_main (cfg : config) : traced P (main w cfg).
Proof.
  unfold traced. rewrite main_eq.
  destruct (setup w cfg); [| reflexivity]. cbn [trace fst].
  rewrite !forallb_app. apply andb_true_iff. split; [| apply andb_true_iff; split].
  - unfold process_all_directories.
    pose proof (lifted_walk (root_dir cfg) (output_dir cfg)
                  (os_walk w (root_dir cfg)) []) as H.
    destruct (walk_directories w (os_walk w (root_dir cfg)) (root_dir cfg)
                (output_dir cfg) []) as [[t [e |]] cd];
      cbn [fst trace] in *; [| exact H].
    rewrite forallb_app, H. cbn. now rewrite P_log.
  - pose proof (load_inputs_logs w cfg) as Hl.
    induction (fst (fst (load_inputs w cfg))) as [| ev t IH];
      [reflexivity |].
    cbn [forallb] in *. apply andb_true_iff in Hl as [Hev Ht].
    destruct ev; try discriminate. now rewrite P_log, IH.
  - rewrite final_write_eq.
    destruct (w_open_write w "analysis_cache.json"); cbn;
      now rewrite ?P_log, ?P_write.
Qed.
End LiftToRun.

(** A whole run starts no subprocess: the handlers that would run a linter
    or the node parsers are never the ones [process_file] calls. *)
Theorem run_starts_no_subprocess :
  forall (w : World) (cfg : config),
    forallb no_run (trace (main w cfg)) = true.
Proof.
  intros w cfg. apply lifted_main; try reflexivity.
  apply process_file_no_run.
Qed.

Lemma save_without_directory (w : World) (file_data : pyval) (out : string) :
  dirname out = "" ->
  save_to_jsonl w file_data out
  = ([EvLog ERROR "Error saving data" out], Ok tt).
Proof.
  intros H. unfold save_to_jsonl, os_makedirs. rewrite H. reflexivity.
Qed.

Section NoDirectory.
Variable w : World.
Variable mp : string.
Hypothesis Hmp : dirname (mp ++ ".jsonl") = "".

Lemma vas_no_append (d : pyval) (f : string) :
  traced no_append (validate_and_save w d f mp).
Proof.
  unfold validate_and_save.
  apply traced_bind; [now apply traced_validate_json |].
  intros [|]; [| repeat first [now apply traced_log | traced_step]].
  rewrite (save_without_directory w d _ Hmp). reflexivity.
Qed.

Ltac quiet_handler :=
  repeat first [ now apply traced_log | now apply traced_async_read
               | now apply traced_nlp_entities | apply vas_no_append
               | apply traced_emit; reflexivity
               | unfold subprocess_run; traced_step ].

Lemma handler_no_append (h : handler) (f : string) (lang : pyval) :
  traced no_append (call_handler w h f mp lang).
Proof.
  destruct h; cbn [call_handler];
    first [ now apply traced_default_handler
          | now apply traced_process_text_file
          | now apply traced_process_json_file
          | now apply traced_process_markdown_file
          | now apply traced_process_yaml_file
          | now apply traced_process_xml_file
          | now apply traced_process_document_file
          | apply traced_raise
          | idtac ].
  - unfold process_python_file, or_none. quiet_handler.
  - unfold process_javascript_file, or_none. quiet_handler.
  - unfold process_html_file, or_none. quiet_handler.
  - unfold process_css_file, or_none. quiet_handler.
  - unfold process_typescript_file, or_none. quiet_handler.
  - unfold process_jsx_file, process_node_parsed, or_none. quiet_handler.
  - unfold process_vue_file, process_node_parsed, or_none. quiet_handler.
Qed.
End NoDirectory.

(** The handlers save under the bare name [module_path.jsonl]; when that
    name has no directory part (a module path without a slash), creating
    its directory fails and nothing is written: no handler appends a line
    for such a module. *)
Theorem handlers_write_nothing_without_directory :
  forall (w : World) (h : handler) (file_path module_path : string)
         (language : pyval),
    dirname (module_path ++ ".jsonl") = "" ->
    appended (trace (call_handler w h file_path module_path language)) = [].
Proof.
  intros w h f mp lang Hmp.
  apply no_append_appended. now apply handler_no_append.
Qed.

Lemma handlers_write_nothing_without_directory_witness :
  appended (trace (call_handler html_world h_html "repo/site/index.html"
                     "site" (PStr "html"))) = [].
Proof.
  apply handlers_write_nothing_without_directory. reflexivity.
Defined.

Lemma guarded_handler_quits (w : World) (h : handler)
    (f mp : string) (lang : pyval) :
  guards_content h = true ->
  result (async_read w f) = Ok PNone ->
  result (call_handler w h f mp lang) = Ok PNone /\
  forallb is_log (trace (call_handler w h f mp lang)) = true.
Proof.
  intros Hg Hr.
  assert (Hlogs : forallb is_log (trace (async_read w f)) = true)
    by (now apply traced_async_read).
  destruct h; try discriminate; cbn [call_handler];
    unfold process_typescript_file, process_jsx_file, process_vue_file,
           process_node_parsed, or_none;
    rewrite result_try, trace_try, result_bind, trace_bind, Hr;
    cbn; rewrite !app_nil_r, forallb_app, Hlogs; auto.
Qed.

(** The TypeScript, JSX and Vue handlers give up on a file whose content
    could not be read (binary or undecodable): they return None and only
    log, without parsing, running node or the linter, or extracting
    entities. *)
Theorem guarded_handlers_quit_on_unreadable :
  forall (w : World) (h : handler) (file_path module_path : string)
         (language : pyval),
    guards_content h = true ->
    result (async_read w file_path) = Ok PNone ->
    result (call_handler w h file_path module_path language) = Ok PNone /\
    forallb is_log (trace (call_handler w h file_path module_path language))
    = true.
Proof.
  intros w h f mp lang. apply guarded_handler_quits.
Qed.

Lemma guarded_handlers_quit_on_unreadable_witness :
  result (call_handler blob_world h_typescript "repo/blob.bin" "repo"
            (PStr "typescript")) = Ok PNone.
Proof.
  apply (guarded_handlers_quit_on_unreadable blob_world h_typescript
           "repo/blob.bin" "repo" (PStr "typescript")); reflexivity.
Defined.

(** *** The cache, across runs *)

Lemma apply_cache_miss (w : World) (cache : cache_t) (fd : pyval)
    (c p : string) :
  getitem fd "content" = Ok (PStr c) ->
  getitem fd "file_path" = Ok (PStr p) ->
  (dict_get cache p = None \/
   exists entry h, dict_get cache p = Some entry /\
                   getitem entry "hash" = Ok h /\ h <> PStr (w_md5 w c)) ->
  apply_cache w (Some cache) fd = Ok fd.
Proof.
  intros Hc Hp Hmiss. unfold apply_cache.
  rewrite Hc, Hp. cbn [as_str bound in_dict]. unfold has_key.
  destruct Hmiss as [Hnone | [entry [h [Hsome [Hh Hne]]]]].
  - now rewrite Hnone.
  - rewrite Hsome. cbn [getitem]. rewrite Hsome, Hh.
    destruct h as [| | | | t | | |]; try reflexivity.
    cbn [eq_str]. destruct (t =? w_md5 w c)%string eqn:E; [| reflexivity].
    apply String.eqb_eq in E. subst. now contradiction Hne.
Qed.

(** A cache miss changes nothing: a record whose path has no entry, or
    whose entry carries another hash than the MD5 of the record's present
    content, comes out of the cache lookup as it went in. *)
Theorem cache_miss_keeps_record :
  forall (w : World) (cache : cache_t) (file_data : pyval)
         (content file_path : string),
    getitem file_data "content" = Ok (PStr content) ->
    getitem file_data "file_path" = Ok (PStr file_path) ->
    (dict_get cache file_path = None \/
     exists entry h,
       dict_get cache file_path = Some entry /\
       getitem entry "hash" = Ok h /\ h <> PStr (w_md5 w content)) ->
    apply_cache w (Some cache) file_data = Ok file_data.
Proof.
  intros w cache fd c p. apply apply_cache_miss.
Qed.

Lemma cache_miss_keeps_record_witness :
  apply_cache stale_world (Some [("elsewhere/old.txt", old_entry)])
    mod_py_record = Ok mod_py_record.
Proof.
  apply (cache_miss_keeps_record stale_world
           [("elsewhere/old.txt", old_entry)] mod_py_record "x = 1"
           "repo/pkg/mod.py"); try reflexivity.
  left. reflexivity.
Defined.

Lemma apply_cache_hit (w : World) (cache : cache_t) (fd : pyval)
    (c p : string) (entry analysis : pyval) :
  getitem fd "content" = Ok (PStr c) ->
  getitem fd "file_path" = Ok (PStr p) ->
  dict_get cache p = Some entry ->
  getitem entry "hash" = Ok (PStr (w_md5 w c)) ->
  getitem entry "analysis" = Ok analysis ->
  exists fd', apply_cache w (Some cache) fd = Ok fd' /\
              getitem fd' "analysis" = Ok analysis.
Proof.
  intros Hc Hp Hget Hh Ha.
  destruct fd as [| | | | | | kv |]; try discriminate.
  exists (PDict (dict_set kv "analysis" analysis)). split.
  - unfold apply_cache. rewrite Hc, Hp. cbn [as_str bound in_dict].
    unfold has_key. rewrite Hget. cbn [getitem].
    rewrite Hget, Hh. cbn [eq_str]. rewrite String.eqb_refl, Ha.
    reflexivity.
  - cbn [getitem]. now rewrite dict_get_set_same.
Qed.

Lemma cache_entry_of_record (w : World) (fd : pyval) (s p : string)
    (a : pyval) :
  getitem fd "content" = Ok (PStr s) ->
  getitem fd "file_path" = Ok (PStr p) ->
  getitem fd "analysis" = Ok a ->
  exists fc cd,
    result (cache_entry w fd) =
    Ok (p, PDict [ ("hash", PStr (w_md5 w s)); ("analysis", a);
                   ("function_count", fc); ("comment_density", cd) ]).
Proof.
  intros Hc Hp Ha.
  destruct (calculate_function_count_returns fd) as [fc Hfc].
  destruct (calculate_comment_density_returns fd) as [cd Hcd].
  exists fc, cd. unfold cache_entry.
  rewrite Hc, bind_lift_ok. cbn [content_hash]. rewrite bind_lift_ok.
  rewrite Ha, bind_lift_ok.
  rewrite result_bind, Hfc, result_bind, Hcd.
  rewrite Hp, bind_lift_ok. cbn [as_str]. rewrite bind_lift_ok.
  reflexivity.
Qed.

Lemma dict_get_set_other (d : list (string * pyval)) (k k' : string)
    (v : pyval) :
  k <> k' -> dict_get (dict_set d k v) k' = dict_get d k'.
Proof.
  intros Hne. apply String.eqb_neq in Hne.
  induction d as [| [k0 v0] d IH]; simpl.
  - now rewrite Hne.
  - destruct (k0 =? k)%string eqn:E; simpl.
    + apply String.eqb_eq in E. subst k0. now rewrite Hne.
    + destruct (k0 =? k')%string; auto.
Qed.

Lemma build_cache_get (w : World) (l : list pyval) (c : cache_t)
    (p : string) (e : pyval) :
  (forall fd' e', In fd' l -> result (cache_entry w fd') = Ok (p, e') ->
                  e' = e) ->
  (dict_get c p = Some e \/
   exists fd, In fd l /\ result (cache_entry w fd) = Ok (p, e)) ->
  dict_get (snd (build_cache w l c)) p = Some e.
Proof.
  revert c. induction l as [| fd0 l IH]; intros c Huniq Hsrc.
  - destruct Hsrc as [H | [fd [[] _]]]. exact H.
  - cbn [build_cache].
    assert (Huniq' : forall fd' e', In fd' l ->
                       result (cache_entry w fd') = Ok (p, e') -> e' = e)
      by (intros fd' e' Hin; apply Huniq; now right).
    destruct (cache_entry w fd0) as [t [[k e0] | ex]] eqn:E0.
    + specialize (IH (dict_set c k e0) Huniq').
      destruct (build_cache w l (dict_set c k e0)) as [t' c'].
      cbn [snd] in *. apply IH.
      destruct (String.eqb_spec k p) as [-> | Hne].
      * left. rewrite dict_get_set_same. f_equal.
        apply (Huniq fd0 e0); [now left | now rewrite E0].
      * rewrite (dict_get_set_other c k p e0 Hne).
        destruct Hsrc as [H | [fd [[<- | Hin] Hfd]]]; [now left | |].
        -- rewrite E0 in Hfd. unfold result in Hfd. cbn in Hfd.
           injection Hfd as -> _. now contradiction Hne.
        -- right. now exists fd.
    + specialize (IH c Huniq').
      destruct (build_cache w l c) as [t' c']. cbn [snd] in *. apply IH.
      destruct Hsrc as [H | [fd [[<- | Hin] Hfd]]]; [now left | |].
      * rewrite E0 in Hfd. discriminate.
      * right. now exists fd.
Qed.

Lemma dict_get_as_loaded (c : cache_t) (k : string) :
  dict_get (as_loaded c) k = option_map to_json (dict_get c k).
Proof.
  unfold as_loaded. induction c as [| [k0 v0] c IH]; [reflexivity |].
  cbn [map fst snd dict_get]. destruct (k0 =? k)%string; auto.
Qed.

Lemma warm_cache_hit (w : World) (l : list pyval) (fd : pyval)
    (s p : string) (a : pyval) :
  In fd l ->
  getitem fd "content" = Ok (PStr s) ->
  getitem fd "file_path" = Ok (PStr p) ->
  getitem fd "analysis" = Ok a ->
  (forall fd', In fd' l -> getitem fd' "file_path" = Ok (PStr p) ->
               fd' = fd) ->
  exists fd',
    apply_cache w (Some (as_loaded (snd (build_cache w l [])))) fd = Ok fd' /\
    getitem fd' "analysis" = Ok (to_json a).
Proof.
  intros Hin Hc Hp Ha Huniq.
  destruct (cache_entry_of_record w fd s p a Hc Hp Ha) as [fc [cd He]].
  apply (apply_cache_hit w _ fd s p
           (to_json (PDict [ ("hash", PStr (w_md5 w s)); ("analysis", a);
                             ("function_count", fc);
                             ("comment_density", cd) ]))); auto.
  rewrite dict_get_as_loaded.
  rewrite (build_cache_get w l [] p
             (PDict [ ("hash", PStr (w_md5 w s)); ("analysis", a);
                      ("function_count", fc); ("comment_density", cd) ])).
  - reflexivity.
  - intros fd' e' Hin' He'.
    pose proof (cache_entry_key w fd' p e' He') as Hk.
    rewrite (Huniq fd' Hin' Hk) in He'. rewrite He in He'.
    now injection He' as <-.
  - right. now exists fd.
Qed.

(** The cache round trip: a record that has a string content and path and
    an analysis, and is the only record of its path, is a hit in the cache
    built from the records and loaded again; the lookup gives it back its
    own analysis, as JSON. *)
Theorem cache_round_trip :
  forall (w : World) (codebase_data : codebase) (file_data : pyval)
         (content file_path : string) (analysis : pyval),
    In file_data (all_records codebase_data) ->
    getitem file_data "content" = Ok (PStr content) ->
    getitem file_data "file_path" = Ok (PStr file_path) ->
    getitem file_data "analysis" = Ok analysis ->
    (forall fd', In fd' (all_records codebase_data) ->
                 getitem fd' "file_path" = Ok (PStr file_path) ->
                 fd' = file_data) ->
    exists file_data',
      apply_cache w
        (Some (as_loaded
                 (snd (build_cache w (all_records codebase_data) []))))
        file_data = Ok file_data' /\
      getitem file_data' "analysis" = Ok (to_json analysis).
Proof.
  intros w cd fd c p a. apply warm_cache_hit.
Qed.

Lemma cache_round_trip_witness :
  exists file_data',
    apply_cache py_world
      (Some (as_loaded
               (snd (build_cache py_world
                       (all_records [("pkg", [mod_py_record])]) []))))
      mod_py_record = Ok file_data' /\
    getitem file_data' "analysis"
    = Ok (to_json (PDict [("entities", PList [])])).
Proof.
  apply (cache_round_trip py_world [("pkg", [mod_py_record])] mod_py_record
           "x = 1" "repo/pkg/mod.py"); try reflexivity.
  - left. reflexivity.
  - intros fd' [<- | []] _. reflexivity.
Defined.

(** *** The function count *)

Lemma lower_ascii_not_upper (c : ascii) :
  lower_ascii c <> "P"%char /\ lower_ascii c <> "J"%char.
Proof.
  destruct c as [[|] [|] [|] [|] [|] [|] [|] [|]];
    split; vm_compute; discriminate.
Qed.

Lemma lower_not_capitalised (s : string) :
  (lower s =? "Python")%string = false /\
  (lower s =? "JavaScript")%string = false.
Proof.
  destruct s as [| c s]; [split; reflexivity |].
  destruct (lower_ascii_not_upper c) as [HP HJ].
  split; apply String.eqb_neq; cbn [lower]; intros H; injection H as H _;
    contradiction.
Qed.

Lemma function_count_of_guessed (w : World) (f : string)
    (fd lang : pyval) :
  result (guess_language w f) = Ok lang ->
  getitem fd "language" = Ok lang ->
  calculate_function_count fd = ([], Ok (PInt 0)).
Proof.
  intros Hlang Hget.
  assert (Hne : eq_str lang "Python" || eq_str lang "JavaScript" = false).
  { unfold guess_language in Hlang. rewrite result_try, result_bind in Hlang.
    unfold result at 1, lift in Hlang. cbn [snd] in Hlang.
    destruct (w_lexer_name w f) as [name | e]; cbn in Hlang;
      injection Hlang as <-; [| reflexivity].
    cbn [eq_str]. destruct (lower_not_capitalised name) as [-> ->].
    reflexivity. }
  unfold calculate_function_count.
  rewrite Hget, bind_lift_ok, Hne. reflexivity.
Qed.

(** [calculate_function_count] compares the language with ['Python'] and
    ['JavaScript'], while [guess_language] returns lexer names in lower
    case: for a record that carries the language [guess_language] gave,
    the function count is 0, whatever functions its analysis lists. *)
Theorem function_count_is_zero_for_guessed_language :
  forall (w : World) (file_path : string) (file_data language : pyval),
    result (guess_language w file_path) = Ok language ->
    getitem file_data "language" = Ok language ->
    calculate_function_count file_data = ([], Ok (PInt 0)).
Proof.
  intros w f fd lang. apply function_count_of_guessed.
Qed.

Lemma function_count_is_zero_for_guessed_language_witness :
  calculate_function_count
    (PDict [ ("language", PStr "python");
             ("analysis",
               PDict [("functions", PList [PDict [("name", PStr "f")]])]) ])
  = ([], Ok (PInt 0)).
Proof.
  apply (function_count_is_zero_for_guessed_language py_world
           "repo/pkg/mod.py" _ (PStr "python")); reflexivity.
Defined.

(** *** Statistics of well-formed records *)

Lemma kd_get_in (d : kdict) (k v : pyval) :
  kd_get d k = Some v -> exists k', In (k', v) d.
Proof.
  induction d as [| [k0 v0] d IH]; cbn [kd_get]; [discriminate |].
  destruct (key_eqb k0 k).
  - intros H. injection H as <-. exists k0. now left.
  - intros H. destruct (IH H) as [k' Hin]. exists k'. now right.
Qed.

Lemma kd_set_ints (d : kdict) (k : pyval) (z : Z) :
  ints d -> ints (kd_set d k (PInt z)).
Proof.
  intros Hd. induction d as [| [k0 v0] d IH]; cbn [kd_set].
  - intros k' v' [H | []]. injection H as _ <-. now exists z.
  - assert (Hd' : ints d) by (intros k' v' Hin; apply (Hd k' v'); now right).
    destruct (key_eqb k0 k).
    + intros k' v' [H | Hin]; [injection H as _ <-; now exists z |].
      apply (Hd k' v'). now right.
    + intros k' v' [H | Hin]; [apply (Hd k' v'); now left |].
      now apply (IH Hd' k' v').
Qed.

Lemma bump_ints (d : kdict) (lang : string) (z : Z) :
  ints d -> exists d', bump d (PStr lang) (PInt z) = Ok d' /\ ints d'.
Proof.
  intros Hd. unfold bump. cbn [hashable].
  destruct (kd_get d (PStr lang)) as [c |] eqn:E.
  - destruct (kd_get_in d _ c E) as [k' Hin].
    destruct (Hd k' c Hin) as [c0 ->]. cbn [py_add numeric].
    eexists. split; [reflexivity | now apply kd_set_ints].
  - cbn [py_add numeric].
    eexists. split; [reflexivity | now apply kd_set_ints].
Qed.

Lemma stats_file_measurable (fd : pyval) (s : stats) (a b : Z) :
  measurable fd ->
  total_loc s = PInt a -> total_size s = PInt b ->
  ints (files_by_language s) -> ints (loc_by_language s) ->
  ints (size_by_language s) ->
  exists s',
    stats_file fd s = ([], s') /\
    total_loc s' = PInt (a + int_field "loc" fd) /\
    total_size s' = PInt (b + int_field "size" fd) /\
    ints (files_by_language s') /\ ints (loc_by_language s') /\
    ints (size_by_language s').
Proof.
  intros [[loc Hloc] [[size Hsize] [lang Hlang]]] Ha Hb Hf Hl Hs.
  unfold stats_file, int_field. rewrite Hloc, Hsize, Hlang.
  cbn [total_loc total_size files_by_language loc_by_language
       size_by_language total_files files_by_module hashable].
  rewrite Ha, Hb. cbn [py_add numeric].
  destruct (kd_get (files_by_language s) (PStr lang)) as [c |];
    cbv zeta.
  - destruct (bump_ints (files_by_language s) lang 1 Hf) as [f' [-> Hf']].
    destruct (bump_ints (loc_by_language s) lang loc Hl) as [l' [-> Hl']].
    destruct (bump_ints (size_by_language s) lang size Hs) as [s' [-> Hs']].
    eexists. split; [reflexivity |].
    cbn [total_loc total_size files_by_language loc_by_language
         size_by_language]. auto.
  - destruct (bump_ints (kd_set (files_by_language s) (PStr lang) (PInt 0))
                lang 1 (kd_set_ints _ _ _ Hf)) as [f' [-> Hf']].
    destruct (bump_ints (kd_set (loc_by_language s) (PStr lang) (PInt 0))
                lang loc (kd_set_ints _ _ _ Hl)) as [l' [-> Hl']].
    destruct (bump_ints (kd_set (size_by_language s) (PStr lang) (PInt 0))
                lang size (kd_set_ints _ _ _ Hs)) as [s' [-> Hs']].
    eexists. split; [reflexivity |].
    cbn [total_loc total_size files_by_language loc_by_language
         size_by_language]. auto.
Qed.

Lemma fold_stats_file_measurable (l : list pyval) (s : stats) (a b : Z) :
  (forall fd, In fd l -> measurable fd) ->
  total_loc s = PInt a -> total_size s = PInt b ->
  ints (files_by_language s) -> ints (loc_by_language s) ->
  ints (size_by_language s) ->
  exists s',
    fold_left (fun acc file_data =>
                 let '(t1, s1) := acc in
                 let '(t2, s2) := stats_file file_data s1 in
                 (t1 ++ t2, s2)) l ([], s) = ([], s') /\
    total_loc s' = PInt (a + sum_field "loc" l) /\
    total_size s' = PInt (b + sum_field "size" l) /\
    ints (files_by_language s') /\ ints (loc_by_language s') /\
    ints (size_by_language s').
Proof.
  revert s a b. induction l as [| fd l IH]; intros s a b Hm Ha Hb Hf Hl Hs.
  - exists s. cbn [fold_left sum_field fold_right]. rewrite !Z.add_0_r.
    repeat split; assumption.
  - destruct (stats_file_measurable fd s a b (Hm fd (or_introl eq_refl))
                Ha Hb Hf Hl Hs)
      as [s1 [E1 [Ha1 [Hb1 [Hf1 [Hl1 Hs1]]]]]].
    destruct (IH s1 _ _ (fun fd' Hin => Hm fd' (or_intror Hin))
                Ha1 Hb1 Hf1 Hl1 Hs1)
      as [s' [E' [Ha' [Hb' Hrest]]]].
    exists s'. cbn [fold_left]. rewrite E1. cbn [app].
    split; [exact E' |].
    cbn [sum_field fold_right]. fold (sum_field "loc" l).
    fold (sum_field "size" l).
    rewrite Ha', Hb'. split; [f_equal; lia |]. split; [f_equal; lia |].
    exact Hrest.
Qed.

Lemma sum_field_app (k : string) (l1 l2 : list pyval) :
  sum_field k (l1 ++ l2) = (sum_field k l1 + sum_field k l2)%Z.
Proof.
  unfold sum_field. induction l1 as [| fd l1 IH]; cbn [app fold_right];
    [reflexivity |].
  rewrite IH. lia.
Qed.

Lemma fold_stats_module_measurable (cd : codebase) (s : stats) (a b : Z) :
  (forall fd, In fd (all_records cd) -> measurable fd) ->
  total_loc s = PInt a -> total_size s = PInt b ->
  ints (files_by_language s) -> ints (loc_by_language s) ->
  ints (size_by_language s) ->
  exists s',
    fold_left (fun acc kv => stats_module (fst kv) (snd kv) acc) cd ([], s)
    = ([], s') /\
    total_loc s' = PInt (a + sum_field "loc" (all_records cd)) /\
    total_size s' = PInt (b + sum_field "size" (all_records cd)).
Proof.
  revert s a b. induction cd as [| [m l] cd IH];
    intros s a b Hm Ha Hb Hf Hl Hs.
  - exists s. cbn. rewrite !Z.add_0_r. repeat split; assumption.
  - unfold all_records in *. cbn [map concat snd] in *.
    cbn [fold_left fst snd]. unfold stats_module at 2.
    match goal with
    | |- context [fold_left ?step l ([], ?s0)] =>
        destruct (fold_stats_file_measurable l s0 a b
                    (fun fd Hin => Hm fd (in_or_app _ _ _ (or_introl Hin)))
                    Ha Hb Hf Hl Hs)
          as [s1 [E1 [Ha1 [Hb1 [Hf1 [Hl1 Hs1]]]]]]
    end.
    rewrite E1.
    destruct (IH s1 _ _ (fun fd Hin => Hm fd (in_or_app _ _ _ (or_intror Hin)))
                Ha1 Hb1 Hf1 Hl1 Hs1) as [s' [E' [Ha' Hb']]].
    exists s'. split; [exact E' |].
    rewrite !sum_field_app, Ha', Hb'. split; f_equal; lia.
Qed.

(** For a module map whose records all carry an integer [loc], an integer
    [size] and a string language, [calculate_codebase_stats] logs nothing
    and its totals are the sums over all records. *)
Theorem totals_are_sums :
  forall codebase_data : codebase,
    (forall fd, In fd (all_records codebase_data) -> measurable fd) ->
    fst (calculate_codebase_stats codebase_data) = [] /\
    total_loc (snd (calculate_codebase_stats codebase_data))
    = PInt (sum_field "loc" (all_records codebase_data)) /\
    total_size (snd (calculate_codebase_stats codebase_data))
    = PInt (sum_field "size" (all_records codebase_data)).
Proof.
  intros cd Hm. unfold calculate_codebase_stats.
  destruct (fold_stats_module_measurable cd empty_stats 0 0 Hm)
    as [s' [E [Ha Hb]]]; try reflexivity; try (intros k v []).
  rewrite E. cbn [fst snd]. auto.
Qed.

Lemma totals_are_sums_witness :
  total_loc (snd (calculate_codebase_stats [("pkg", [mod_py_record])]))
  = PInt 1.
Proof.
  destruct (totals_are_sums [("pkg", [mod_py_record])]) as [_ [H _]].
  - intros fd [<- | []].
    split; [now exists 1%Z |]. split; [now exists 5%Z | now exists "python"].
  - exact H.
Defined.
